(** * Startup profiler: URL keys, profile store, insight parsing, news
      fetching, page scraping and the profiling pipeline

    A shallow embedding of the Python sources

      - [src/models/database.py]            (class SupabaseManager)
      - [src/tools/gemini_analyzer.py]      (class GeminiAnalyzer)
      - [src/tools/news_fetcher.py]         (class NewsFetcher)
      - [src/tools/web_scraper.py]          (class WebScraper)
      - [src/agents/startup_profiler_agent.py] (class StartupProfilerAgent)

    together with the parts of the Python standard library they call
    ([str] methods, [urllib.parse.urlparse], [ipaddress.ip_address],
    [json.loads]).

    Conventions.
      - A Python [str] is a Rocq [string]; its characters are read as the
        code points U+0000..U+00FF.  On this range [str.lower] maps one
        character to one character and the NFKC test of
        [urllib.parse._checknetloc] never fires.
      - A Python [int] is a [Z]; positions inside a string are [nat].
      - A call that can raise returns a [result]; [try/except] is a match on
        it.
      - External collaborators (HTTP client, search provider, generative
        backend, storage backend) are fields of a [World] record or an
        explicit store state. *)

From Stdlib Require Import Strings.String Strings.Ascii Lists.List.
From Stdlib Require Import ZArith.ZArith NArith.NArith Arith.PeanoNat.
From Stdlib Require Import Bool.Bool micromega.Lia.
From Stdlib Require Import Sorting.Permutation.
Import ListNotations.

Open Scope string_scope.
Open Scope Z_scope.

(* ================================================================== *)
(** * Exceptions and results                                            *)
(* ================================================================== *)

(** The exception classes the modelled code raises or catches.  [str(e)] is
    kept symbolic (see [message] below), so only the class and the data that
    identify the failure are recorded. *)
Inductive exn : Type :=
| ValueError (what : string)       (* urllib.parse, ipaddress *)
| KeyError (key : string)          (* d[key] on a missing key *)
| TypeError (what : string)
| AttributeError (what : string)
| JSONDecodeError
| RecursionError                   (* the interpreter's recursion limit *)
| BackendError (text : string).    (* raised by an external collaborator *)

Inductive result (A : Type) : Type :=
| Ok (a : A)
| Raise (e : exn).
Arguments Ok {A} a.
Arguments Raise {A} e.

Definition bind {A B : Type} (r : result A) (k : A -> result B) : result B :=
  match r with
  | Ok a => k a
  | Raise e => Raise e
  end.

Notation "'do' x <- r ; k" := (bind r (fun x => k))
  (at level 10, x name, r at level 100, k at level 200).

Definition is_ok {A : Type} (r : result A) : bool :=
  match r with Ok _ => true | Raise _ => false end.

(* ================================================================== *)
(** * Python [str] methods                                              *)
(* ================================================================== *)

Module PyStr.

Definition ord (c : ascii) : Z := Z.of_N (N_of_ascii c).
Definition chr (n : Z) : ascii := ascii_of_N (Z.to_N n).

Definition len (s : string) : Z := Z.of_nat (String.length s).

(** [c in chars] for a one-character [c]. *)
Fixpoint mem_char (c : ascii) (chars : string) : bool :=
  match chars with
  | "" => false
  | String d r => Ascii.eqb c d || mem_char c r
  end.

(** [s.startswith(p)]. *)
Fixpoint startswith (s p : string) : bool :=
  match p, s with
  | "", _ => true
  | String _ _, "" => false
  | String a p', String b s' => Ascii.eqb a b && startswith s' p'
  end.

(** [sub in s]. *)
Fixpoint contains (s sub : string) : bool :=
  startswith s sub ||
  match s with
  | "" => false
  | String _ r => contains r sub
  end.

(** ** Case *)

(** Upper-case letters of U+0000..U+00FF: A-Z, and U+00C0..U+00DE without
    the multiplication sign U+00D7. *)
Definition is_upper (c : ascii) : bool :=
  let n := ord c in
  ((65 <=? n) && (n <=? 90)) ||
  ((192 <=? n) && (n <=? 222) && negb (n =? 215)).

Definition lower_char (c : ascii) : ascii :=
  if is_upper c then chr (ord c + 32) else c.

(** [s.lower()]. *)
Fixpoint lower (s : string) : string :=
  match s with
  | "" => ""
  | String c r => String (lower_char c) (lower r)
  end.

Definition isascii_char (c : ascii) : bool := ord c <? 128.

(** [c.isalpha()] for an ASCII [c]. *)
Definition isalpha_ascii (c : ascii) : bool :=
  let n := ord c in
  ((65 <=? n) && (n <=? 90)) || ((97 <=? n) && (n <=? 122)).

(** [c.isdigit()] for an ASCII [c]. *)
Definition isdigit_ascii (c : ascii) : bool :=
  let n := ord c in (48 <=? n) && (n <=? 57).

Fixpoint forallb_str (p : ascii -> bool) (s : string) : bool :=
  match s with
  | "" => true
  | String c r => p c && forallb_str p r
  end.

(** [c.isspace()] on U+0000..U+00FF. *)
Definition isspace (c : ascii) : bool :=
  let n := ord c in
  ((9 <=? n) && (n <=? 13)) || ((28 <=? n) && (n <=? 32)) ||
  (n =? 133) || (n =? 160).

(** ** Slicing *)

Fixpoint take (n : nat) (s : string) : string :=
  match n, s with
  | O, _ => ""
  | S _, "" => ""
  | S k, String c r => String c (take k r)
  end.

Fixpoint drop (n : nat) (s : string) : string :=
  match n, s with
  | O, _ => s
  | S _, "" => ""
  | S k, String _ r => drop k r
  end.

(** Python's adjustment of a slice bound: a negative bound counts from the
    end, and every bound is clipped to [0 .. len s]. *)
Definition clip (s : string) (i : Z) : nat :=
  if i <? 0 then Z.to_nat (Z.max 0 (len s + i))
  else Z.to_nat (Z.min i (len s)).

(** [s[a:b]]. *)
Definition slice (s : string) (a b : Z) : string :=
  take (clip s b - clip s a) (drop (clip s a) s).

(** [s[:b]]. *)
Definition slice_to (s : string) (b : Z) : string := take (clip s b) s.

(** [s[a:]]. *)
Definition slice_from (s : string) (a : Z) : string := drop (clip s a) s.

(** ** Searching *)

(** First position [>= start] at which [sub] occurs, scanning from [pos]. *)
Fixpoint find_at (s sub : string) (start pos : nat) : Z :=
  if (start <=? pos)%nat && startswith s sub then Z.of_nat pos
  else match s with
       | "" => -1
       | String _ r => find_at r sub start (S pos)
       end.

(** [s.find(sub, start)]. *)
Definition find_from (s sub : string) (start : Z) : Z :=
  if len s <? start then -1 else find_at s sub (clip s start) 0.

(** [s.find(sub)]. *)
Definition find (s sub : string) : Z := find_from s sub 0.

(** Last position at which [sub] occurs, scanning from [pos]. *)
Fixpoint rfind_at (s sub : string) (pos : nat) : Z :=
  let later := match s with
               | "" => -1
               | String _ r => rfind_at r sub (S pos)
               end in
  if 0 <=? later then later
  else if startswith s sub then Z.of_nat pos else -1.

(** [s.rfind(sub)]. *)
Definition rfind (s sub : string) : Z := rfind_at s sub 0.

(** ** Partition and split *)

(** [s.partition(sep)] for a non-empty [sep]: the text before the first
    occurrence, whether it was found, and the text after it. *)
Definition partition (s sep : string) : string * bool * string :=
  let i := find s sep in
  if i <? 0 then (s, false, "")
  else (slice_to s i, true, slice_from s (i + len sep)).

(** [s.rpartition(sep)]: split at the last occurrence. *)
Definition rpartition (s sep : string) : string * bool * string :=
  let i := rfind s sep in
  if i <? 0 then ("", false, s)
  else (slice_to s i, true, slice_from s (i + len sep)).

(** [s.split(sep)] for a non-empty [sep]; [skip] counts the characters of
    an occurrence of [sep] still to be passed over, [cur] is the piece
    being read, reversed. *)
Fixpoint rev_str (acc s : string) : string :=
  match s with
  | "" => acc
  | String c r => rev_str (String c acc) r
  end.

Fixpoint split_aux (s sep : string) (skip : nat) (cur : string)
  : list string :=
  match s with
  | "" => [rev_str "" cur]
  | String c r =>
      match skip with
      | S k => split_aux r sep k cur
      | O =>
          if startswith s sep
          then rev_str "" cur
                 :: split_aux r sep (String.length sep - 1) ""
          else split_aux r sep O (String c cur)
      end
  end.

Definition split (s sep : string) : list string := split_aux s sep O "".

(** ** Replace *)

(** [s.replace(old, new)] for a non-empty [old]: occurrences are found
    left to right and do not overlap. *)
Fixpoint replace_aux (s old new : string) (skip : nat) : string :=
  match s with
  | "" => ""
  | String c r =>
      match skip with
      | S k => replace_aux r old new k
      | O =>
          if startswith s old
          then new ++ replace_aux r old new (String.length old - 1)
          else String c (replace_aux r old new O)
      end
  end.

(** For an empty [old] Python puts [new] before every character and at
    the end. *)
Fixpoint intersperse (s new : string) : string :=
  match s with
  | "" => new
  | String c r => new ++ String c (intersperse r new)
  end.

Definition replace (s old new : string) : string :=
  match old with
  | "" => intersperse s new
  | _ => replace_aux s old new O
  end.

(** ** Stripping *)

(** [s.lstrip(chars)]. *)
Fixpoint lstrip (s chars : string) : string :=
  match s with
  | "" => ""
  | String c r => if mem_char c chars then lstrip r chars else s
  end.

(** [s.rstrip(chars)]. *)
Fixpoint rstrip (s chars : string) : string :=
  match s with
  | "" => ""
  | String c r =>
      match rstrip r chars with
      | "" => if mem_char c chars then "" else String c ""
      | t => String c t
      end
  end.

Fixpoint lstrip_ws (s : string) : string :=
  match s with
  | "" => ""
  | String c r => if isspace c then lstrip_ws r else s
  end.

Fixpoint rstrip_ws (s : string) : string :=
  match s with
  | "" => ""
  | String c r =>
      match rstrip_ws r with
      | "" => if isspace c then "" else String c ""
      | t => String c t
      end
  end.

(** [s.strip()]. *)
Definition strip (s : string) : string := rstrip_ws (lstrip_ws s).

(** [sep.join(parts)]. *)
Fixpoint join (sep : string) (parts : list string) : string :=
  match parts with
  | [] => ""
  | [p] => p
  | p :: rest => p ++ sep ++ join sep rest
  end.

End PyStr.

(* ================================================================== *)
(** * [ipaddress.ip_address], as far as [urllib.parse] needs it         *)
(* ================================================================== *)

Module ipaddress.
Import PyStr.

Inductive ip_version : Type := IPv4 | IPv6.

(** [int(s, 10)] for a string of ASCII decimal digits. *)
Fixpoint int_dec_acc (acc : Z) (s : string) : Z :=
  match s with
  | "" => acc
  | String c r => int_dec_acc (10 * acc + (ord c - 48)) r
  end.

(** [_BaseV4._parse_octet]. *)
Definition _parse_octet (octet_str : string) : result Z :=
  match octet_str with
  | "" => Raise (ValueError octet_str)
  | String c0 _ =>
      if negb (forallb_str (fun c => isascii_char c && isdigit_ascii c)
                 octet_str)
      then Raise (ValueError octet_str)
      else if 3 <? len octet_str then Raise (ValueError octet_str)
      else if negb (String.eqb octet_str "0") && Ascii.eqb c0 "0"
      then Raise (ValueError octet_str)
      else
        let octet_int := int_dec_acc 0 octet_str in
        if 255 <? octet_int then Raise (ValueError octet_str)
        else Ok octet_int
  end.

Fixpoint parse_octets (octets : list string) (acc : Z) : result Z :=
  match octets with
  | [] => Ok acc
  | o :: rest =>
      do v <- _parse_octet o;
      parse_octets rest (256 * acc + v)
  end.

(** [IPv4Address(address)._ip] for a string [address]. *)
Definition IPv4Address (address : string) : result Z :=
  if contains address "/" then Raise (ValueError address)
  else
    match address with
    | "" => Raise (ValueError address)
    | _ =>
        let octets := split address "." in
        if negb (Nat.eqb (List.length octets) 4)
        then Raise (ValueError address)
        else
          match parse_octets octets 0 with
          | Ok v => Ok v
          | Raise _ => Raise (ValueError address)
          end
    end.

Definition _HEX_DIGITS : string := "0123456789ABCDEFabcdef".

(** [_BaseV6._parse_hextet]: only the validity of the hextet matters to the
    callers modelled here, so the value is not computed. *)
Definition _parse_hextet (hextet_str : string) : result unit :=
  if negb (forallb_str (fun c => mem_char c _HEX_DIGITS) hextet_str)
  then Raise (ValueError hextet_str)
  else if 4 <? len hextet_str then Raise (ValueError hextet_str)
  else
    match hextet_str with
    | "" => Raise (ValueError hextet_str)     (* int('', 16) *)
    | _ => Ok tt
    end.

Fixpoint parse_hextets (parts : list string) : result unit :=
  match parts with
  | [] => Ok tt
  | p :: rest => do _ <- _parse_hextet p; parse_hextets rest
  end.

(** ['%x' % n] for [0 <= n < 65536]. *)
Definition hex_digit (d : Z) : ascii :=
  if d <? 10 then chr (48 + d) else chr (87 + d).

Definition hex16 (n : Z) : string :=
  let d3 := n / 4096 in
  let d2 := (n / 256) mod 16 in
  let d1 := (n / 16) mod 16 in
  let d0 := n mod 16 in
  if 0 <? d3 then String (hex_digit d3) (String (hex_digit d2)
                    (String (hex_digit d1) (String (hex_digit d0) "")))
  else if 0 <? d2 then String (hex_digit d2)
                    (String (hex_digit d1) (String (hex_digit d0) ""))
  else if 0 <? d1 then String (hex_digit d1) (String (hex_digit d0) "")
  else String (hex_digit d0) "".

(** Positions [1 .. len(parts) - 2] holding an empty part: the loop that
    looks for ['::'].  [None] when there are two of them. *)
Fixpoint find_skip (parts : list string) (i : nat) (last : nat)
  (found : option nat) : option (option nat) :=
  match parts with
  | [] => Some found
  | p :: rest =>
      if ((1 <=? i) && (i <? last))%nat && String.eqb p ""
      then match found with
           | Some _ => None
           | None => find_skip rest (S i) last (Some i)
           end
      else find_skip rest (S i) last found
  end.

(** [_BaseV6._ip_int_from_string], reduced to whether it raises. *)
Definition _ip_int_from_string_v6 (ip_str : string) : result unit :=
  match ip_str with
  | "" => Raise (ValueError ip_str)
  | _ =>
      let parts := split ip_str ":" in
      if (List.length parts <? 3)%nat then Raise (ValueError ip_str)
      else
        let last_part := List.last parts "" in
        do parts <-
          (if contains last_part "."
           then match IPv4Address last_part with
                | Raise _ => Raise (ValueError ip_str)
                | Ok ipv4_int =>
                    Ok (List.removelast parts ++
                          [hex16 (Z.land (Z.shiftr ipv4_int 16) 65535);
                           hex16 (Z.land ipv4_int 65535)])%list
                end
           else Ok parts);
        let n := List.length parts in
        if (9 <? n)%nat then Raise (ValueError ip_str)
        else
          match find_skip parts 0 (n - 1) None with
          | None => Raise (ValueError ip_str)
          | Some (Some skip_index) =>
              let first_empty := String.eqb (List.hd "" parts) "" in
              let last_empty := String.eqb (List.last parts "") "" in
              let parts_hi :=
                (if first_empty then skip_index - 1 else skip_index)%nat in
              let parts_lo :=
                (if last_empty then n - skip_index - 1 - 1
                 else n - skip_index - 1)%nat in
              if first_empty && negb (Nat.eqb parts_hi 0)
              then Raise (ValueError ip_str)
              else if last_empty && negb (Nat.eqb parts_lo 0)
              then Raise (ValueError ip_str)
              else if (8 <? parts_hi + parts_lo + 1)%nat
              then Raise (ValueError ip_str)
              else
                match parse_hextets
                        (List.firstn parts_hi parts ++
                         List.skipn (n - parts_lo) parts)%list with
                | Ok _ => Ok tt
                | Raise _ => Raise (ValueError ip_str)
                end
          | Some None =>
              if negb (Nat.eqb n 8) then Raise (ValueError ip_str)
              else if String.eqb (List.hd "" parts) ""
              then Raise (ValueError ip_str)
              else if String.eqb (List.last parts "") ""
              then Raise (ValueError ip_str)
              else
                match parse_hextets parts with
                | Ok _ => Ok tt
                | Raise _ => Raise (ValueError ip_str)
                end
          end
  end.

(** [_BaseV6._split_scope_id]. *)
Definition _split_scope_id (ip_str : string)
  : result (string * option string) :=
  let '(addr, sep, scope_id) := partition ip_str "%" in
  if negb sep then Ok (addr, None)
  else if String.eqb scope_id "" || contains scope_id "%"
  then Raise (ValueError ip_str)
  else Ok (addr, Some scope_id).

(** [IPv6Address(address)] for a string [address], reduced to whether it
    raises. *)
Definition IPv6Address (address : string) : result unit :=
  if contains address "/" then Raise (ValueError address)
  else
    do r <- _split_scope_id address;
    _ip_int_from_string_v6 (fst r).

(** [ip_address(address)]: the version of the address, or [ValueError]. *)
Definition ip_address (address : string) : result ip_version :=
  match IPv4Address address with
  | Ok _ => Ok IPv4
  | Raise _ =>
      match IPv6Address address with
      | Ok _ => Ok IPv6
      | Raise _ => Raise (ValueError address)
      end
  end.

End ipaddress.

(* ================================================================== *)
(** * [urllib.parse.urlparse]                                           *)
(* ================================================================== *)

Module urllib_parse.
Import PyStr.

Definition uses_params : list string :=
  [""; "ftp"; "hdl"; "prospero"; "http"; "imap"; "https"; "shttp"; "rtsp";
   "rtspu"; "sip"; "sips"; "mms"; "sftp"; "tel"].

Definition scheme_chars : string :=
  "abcdefghijklmnopqrstuvwxyzABCDEFGHIJKLMNOPQRSTUVWXYZ0123456789+-.".

Fixpoint chars_from (n : nat) (start : Z) : string :=
  match n with
  | O => ""
  | S k => String (chr start) (chars_from k (start + 1))
  end.

(** The characters U+0000..U+0020. *)
Definition _WHATWG_C0_CONTROL_OR_SPACE : string := chars_from 33 0.

Definition TAB : string := String (chr 9) "".
Definition LF : string := String (chr 10) "".
Definition CR : string := String (chr 13) "".

Definition _UNSAFE_URL_BYTES_TO_REMOVE : list string := [TAB; CR; LF].

Definition in_list (s : string) (l : list string) : bool :=
  existsb (String.eqb s) l.

Record ParseResult : Type := mkParseResult {
  scheme : string;
  netloc : string;
  path : string;
  params : string;
  query : string;
  fragment : string
}.

(** [_splitnetloc(url, start)]. *)
Definition _splitnetloc (url : string) (start : Z) : string * string :=
  let delim :=
    fold_left
      (fun delim c =>
         let wdelim := find_from url c start in
         if 0 <=? wdelim then Z.min delim wdelim else delim)
      ["/"; "?"; "#"] (len url) in
  (slice url start delim, slice_from url delim).

(** [_checknetloc(netloc)]: the NFKC test applies to a netloc that is not
    ASCII; no character of U+0080..U+00FF normalises to text holding one
    of [/?#@:], so on the strings modelled here it returns normally. *)
Definition _checknetloc (netloc : string) : result unit := Ok tt.

Definition is_hex (c : ascii) : bool := mem_char c "abcdefABCDEF0123456789".

Fixpoint take_while (p : ascii -> bool) (s : string) : string :=
  match s with
  | "" => ""
  | String c r => if p c then String c (take_while p r) else ""
  end.

(** The IPvFuture test of [_check_bracketed_host]: the letter v, one or
    more hex digits, a dot, then one or more characters other than a line
    feed, up to the end of [hostname]. *)
Definition matches_ipvfuture (hostname : string) : bool :=
  match hostname with
  | String "v" r =>
      let digits := take_while is_hex r in
      negb (String.eqb digits "") &&
      match drop (String.length digits) r with
      | String "." t =>
          negb (String.eqb t "") &&
          forallb_str (fun c => negb (Ascii.eqb c (chr 10))) t
      | _ => false
      end
  | _ => false
  end.

(** [_check_bracketed_host(hostname)]. *)
Definition _check_bracketed_host (hostname : string) : result unit :=
  if startswith hostname "v" then
    if negb (matches_ipvfuture hostname)
    then Raise (ValueError hostname)
    else Ok tt
  else
    do ip <- ipaddress.ip_address hostname;
    match ip with
    | ipaddress.IPv4 => Raise (ValueError hostname)
    | ipaddress.IPv6 => Ok tt
    end.

(** [_check_bracketed_netloc(netloc)]. *)
Definition _check_bracketed_netloc (netloc : string) : result unit :=
  let hostname_and_port := snd (rpartition netloc "@") in
  let '(before_bracket, have_open_br, bracketed) :=
    partition hostname_and_port "[" in
  if have_open_br then
    if negb (String.eqb before_bracket "")
    then Raise (ValueError netloc)
    else
      let '(hostname, _, port) := partition bracketed "]" in
      if negb (String.eqb port "") && negb (startswith port ":")
      then Raise (ValueError netloc)
      else _check_bracketed_host hostname
  else
    let '(hostname, _, port) := partition hostname_and_port ":" in
    _check_bracketed_host hostname.

(** [urlsplit(url)] with the default [scheme=''] and
    [allow_fragments=True]; the result is the 5-tuple
    [(scheme, netloc, url, query, fragment)]. *)
Definition urlsplit (url : string)
  : result (string * string * string * string * string) :=
  let url := lstrip url _WHATWG_C0_CONTROL_OR_SPACE in
  let url :=
    fold_left (fun u b => replace u b "") _UNSAFE_URL_BYTES_TO_REMOVE url in
  let i := find url ":" in
  let '(scheme, url) :=
    if (0 <? i) &&
       match url with
       | String c0 _ => isascii_char c0 && isalpha_ascii c0
       | "" => false
       end
    then
      if forallb_str (fun c => mem_char c scheme_chars) (slice_to url i)
      then (lower (slice_to url i), slice_from url (i + 1))
      else ("", url)
    else ("", url) in
  do nu <-
    (if String.eqb (slice_to url 2) "//" then
       let '(netloc, url) := _splitnetloc url 2 in
       if (contains netloc "[" && negb (contains netloc "]")) ||
          (contains netloc "]" && negb (contains netloc "["))
       then Raise (ValueError "Invalid IPv6 URL")
       else
         do _ <- (if contains netloc "[" && contains netloc "]"
                  then _check_bracketed_netloc netloc
                  else Ok tt);
         Ok (netloc, url)
     else Ok ("", url));
  let '(netloc, url) := nu in
  let '(url, fragment) :=
    if contains url "#"
    then let '(a, _, b) := partition url "#" in (a, b)
    else (url, "") in
  let '(url, query) :=
    if contains url "?"
    then let '(a, _, b) := partition url "?" in (a, b)
    else (url, "") in
  do _ <- _checknetloc netloc;
  Ok (scheme, netloc, url, query, fragment).

(** [_splitparams(url)]. *)
Definition _splitparams (url : string) : string * string :=
  if contains url "/" then
    let i := find_from url ";" (rfind url "/") in
    if i <? 0 then (url, "")
    else (slice_to url i, slice_from url (i + 1))
  else
    let i := find url ";" in
    (slice_to url i, slice_from url (i + 1)).

(** [urlparse(url)]. *)
Definition urlparse (url : string) : result ParseResult :=
  do splitresult <- urlsplit url;
  let '(scheme, netloc, url, query, fragment) := splitresult in
  let '(url, params) :=
    if in_list scheme uses_params && contains url ";"
    then _splitparams url
    else (url, "") in
  Ok (mkParseResult scheme netloc url params query fragment).

(** [ParseResult.hostname]: the host inside the netloc, without user
    information and port, in lower case; [None] when it is empty. *)
Definition hostname (r : ParseResult) : option string :=
  let hostinfo := snd (rpartition (netloc r) "@") in
  let '(_, have_open_br, bracketed) := partition hostinfo "[" in
  let host :=
    if have_open_br then fst (fst (partition bracketed "]"))
    else fst (fst (partition hostinfo ":")) in
  if String.eqb host "" then None
  else
    let '(name, percent, zone) := partition host "%" in
    Some (lower name ++ (if percent then "%" else "") ++ zone).

End urllib_parse.

(* ================================================================== *)
(** * Python values and dictionaries                                    *)
(* ================================================================== *)

(** The values that [json.loads] produces and that the dictionaries of the
    program hold.  A [float] is kept as the text of its literal. *)
#[warnings="-register-all"]
Inductive value : Type :=
| VNone
| VBool (b : bool)
| VInt (n : Z)
| VFloat (literal : string)
| VStr (s : string)
| VList (items : list value)
| VDict (entries : list (string * value)).

(** A [dict] with [str] keys: the entries in insertion order, keys
    distinct. *)
Definition dict : Type := list (string * value).

Module Dict.

Fixpoint get (d : dict) (k : string) : option value :=
  match d with
  | [] => None
  | (k', v) :: rest => if String.eqb k k' then Some v else get rest k
  end.

(** [d.get(k, default)]. *)
Definition get_default (d : dict) (k : string) (default : value) : value :=
  match get d k with Some v => v | None => default end.

(** [d[k] = v]: an existing key keeps its position. *)
Fixpoint set (d : dict) (k : string) (v : value) : dict :=
  match d with
  | [] => [(k, v)]
  | (k', v') :: rest =>
      if String.eqb k k' then (k, v) :: rest else (k', v') :: set rest k v
  end.

(** [dict(pairs)]. *)
Definition of_pairs (pairs : list (string * value)) : dict :=
  fold_left (fun d kv => set d (fst kv) (snd kv)) pairs [].

(** [{**a, **b}]. *)
Definition merge (a b : dict) : dict :=
  fold_left (fun d kv => set d (fst kv) (snd kv)) b a.

End Dict.

(** [xs[:n]] on a list. *)
Definition list_slice_to {A : Type} (xs : list A) (n : Z) : list A :=
  if n <? 0 then firstn (Z.to_nat (Z.max 0 (Z.of_nat (length xs) + n))) xs
  else firstn (Z.to_nat n) xs.

(* ================================================================== *)
(** * [json.loads]                                                      *)
(* ================================================================== *)

Module json.
Import PyStr.

(** The separators [json] skips: space, tab, line feed, carriage
    return. *)
Definition is_ws (c : ascii) : bool :=
  let n := ord c in (n =? 32) || (n =? 9) || (n =? 10) || (n =? 13).

Fixpoint skip_ws (s : string) : string :=
  match s with
  | "" => ""
  | String c r => if is_ws c then skip_ws r else s
  end.

(** The digits at the head of [s], and what follows them. *)
Fixpoint span_digits (s : string) : string * string :=
  match s with
  | "" => ("", "")
  | String c r =>
      if isdigit_ascii c
      then let '(d, rest) := span_digits r in (String c d, rest)
      else ("", s)
  end.

(** The integer part at the head of [s]: an optional minus sign, then
    either a single 0 or a digit 1-9 followed by any digits. *)
Definition match_int (s : string) : option (string * string) :=
  let '(sign, body) :=
    match s with
    | String "-" r => ("-", r)
    | _ => ("", s)
    end in
  match body with
  | String "0" r => Some (sign ++ "0", r)
  | String c _ =>
      if isdigit_ascii c
      then let '(d, rest) := span_digits body in Some (sign ++ d, rest)
      else None
  | "" => None
  end.

(** The optional fraction: a dot followed by at least one digit. *)
Definition match_frac (s : string) : string * string :=
  match s with
  | String "." r =>
      match span_digits r with
      | ("", _) => ("", s)
      | (d, rest) => (String "." d, rest)
      end
  | _ => ("", s)
  end.

(** The optional exponent: e or E, an optional sign, at least one
    digit. *)
Definition match_exp (s : string) : string * string :=
  match s with
  | String e r =>
      if Ascii.eqb e "e" || Ascii.eqb e "E" then
        let '(sign, body) :=
          match r with
          | String "-" r' => ("-", r')
          | String "+" r' => ("+", r')
          | _ => ("", r)
          end in
        match span_digits body with
        | ("", _) => ("", s)
        | (d, rest) => (String e (sign ++ d), rest)
        end
      else ("", s)
  | "" => ("", s)
  end.

(** [int(s)] for the text of an integer part. *)
Definition int_of_literal (s : string) : Z :=
  match s with
  | String "-" r => - ipaddress.int_dec_acc 0 r
  | _ => ipaddress.int_dec_acc 0 s
  end.

Definition digit_count (s : string) : Z :=
  match s with
  | String "-" r => len r
  | _ => len s
  end.

(** [sys.get_int_max_str_digits()]. *)
Definition int_max_str_digits : Z := 4300.

(** A number at the head of [s]; [None] when there is none.  An integer
    literal longer than the interpreter's digit limit raises
    [ValueError]. *)
Definition match_number (s : string) : option (result (value * string)) :=
  match match_int s with
  | None => None
  | Some (integer, r1) =>
      let '(frac, r2) := match_frac r1 in
      let '(exp, r3) := match_exp r2 in
      if String.eqb frac "" && String.eqb exp ""
      then
        if int_max_str_digits <? digit_count integer
        then Some (Raise (ValueError "Exceeds the limit for integer string conversion"))
        else Some (Ok (VInt (int_of_literal integer), r3))
      else Some (Ok (VFloat (integer ++ frac ++ exp), r3))
  end.

Definition hex_value (c : ascii) : option Z :=
  let n := ord c in
  if (48 <=? n) && (n <=? 57) then Some (n - 48)
  else if (97 <=? n) && (n <=? 102) then Some (n - 87)
  else if (65 <=? n) && (n <=? 70) then Some (n - 55)
  else None.

(** The four hex digits after [\u]. *)
Definition hex4 (s : string) : option (Z * string) :=
  match s with
  | String a (String b (String c (String d r))) =>
      match hex_value a, hex_value b, hex_value c, hex_value d with
      | Some x, Some y, Some z, Some w =>
          Some (4096 * x + 256 * y + 16 * z + w, r)
      | _, _, _, _ => None
      end
  | _ => None
  end.

(** A behaviour of Python that lies outside the modelled strings: an
    escape that denotes a character above U+00FF. *)
Definition unmodelled : exn := BackendError "character above U+00FF".

Definition dquote : ascii := chr 34.
Definition backslash : ascii := chr 92.

(** [scanstring]: the text after an opening quote up to the closing
    quote, escapes decoded, control characters refused (strict mode). *)
Fixpoint scanstring (s : string) : result (string * string) :=
  match s with
  | "" => Raise JSONDecodeError
  | String c r =>
      if Ascii.eqb c dquote then Ok ("", r)
      else if ord c <? 32 then Raise JSONDecodeError
      else if Ascii.eqb c backslash then
        match r with
        | "" => Raise JSONDecodeError
        | String e r' =>
            let plain (x : ascii) :=
              do t <- scanstring r'; Ok (String x (fst t), snd t) in
            if Ascii.eqb e dquote then plain dquote
            else if Ascii.eqb e backslash then plain backslash
            else if Ascii.eqb e "/" then plain "/"%char
            else if Ascii.eqb e "b" then plain (chr 8)
            else if Ascii.eqb e "f" then plain (chr 12)
            else if Ascii.eqb e "n" then plain (chr 10)
            else if Ascii.eqb e "r" then plain (chr 13)
            else if Ascii.eqb e "t" then plain (chr 9)
            else if Ascii.eqb e "u" then
              match r' with
              | String _ (String _ (String _ (String _ r''))) =>
                  match hex4 r' with
                  | None => Raise JSONDecodeError
                  | Some (code, _) =>
                      if code <? 256
                      then do t <- scanstring r'';
                           Ok (String (chr code) (fst t), snd t)
                      else Raise unmodelled
                  end
              | _ => Raise JSONDecodeError
              end
            else Raise JSONDecodeError
        end
      else do t <- scanstring r; Ok (String c (fst t), snd t)
  end.

(** The recursion of the scanner is bounded by [fuel], a bound on the depth
    of nesting and on the number of items; [loads] supplies one more than
    the length of the text.  The theorems below take [json.loads] from the
    world and do not depend on this bound. *)
Definition out_of_fuel : exn := BackendError "scanner fuel".

Section Containers.
(** [scan_once] one level down. *)
Variable scan : string -> result (value * string).

(** The items of an array; [s] stands at the start of an item. *)
Fixpoint array_items (fuel : nat) (s : string) (acc : list value)
  : result (list value * string) :=
  match fuel with
  | O => Raise out_of_fuel
  | S f =>
      do vr <- scan s;
      let r := skip_ws (snd vr) in
      let acc := (acc ++ [fst vr])%list in
      match r with
      | String "," r' => array_items f (skip_ws r') acc
      | String "]" r' => Ok (acc, r')
      | _ => Raise JSONDecodeError
      end
  end.

(** The members of an object; [s] stands at the opening quote of a
    key. *)
Fixpoint object_members (fuel : nat) (s : string)
  (acc : list (string * value)) : result (list (string * value) * string) :=
  match fuel with
  | O => Raise out_of_fuel
  | S f =>
      match s with
      | String q r =>
          if negb (Ascii.eqb q dquote) then Raise JSONDecodeError
          else
            do kr <- scanstring r;
            match skip_ws (snd kr) with
            | String ":" r1 =>
                do vr <- scan (skip_ws r1);
                let acc := (acc ++ [(fst kr, fst vr)])%list in
                match skip_ws (snd vr) with
                | String "," r2 => object_members f (skip_ws r2) acc
                | String "}" r2 => Ok (acc, r2)
                | _ => Raise JSONDecodeError
                end
            | _ => Raise JSONDecodeError
            end
      | "" => Raise JSONDecodeError
      end
  end.
End Containers.

(** [scan_once]: the value at the head of [s] and the text after it. *)
Fixpoint scan_once (fuel : nat) (s : string) : result (value * string) :=
  match fuel with
  | O => Raise out_of_fuel
  | S f =>
      match s with
      | "" => Raise JSONDecodeError
      | String c r =>
          if Ascii.eqb c dquote then
            do t <- scanstring r; Ok (VStr (fst t), snd t)
          else if Ascii.eqb c "{" then
            match skip_ws r with
            | String "}" r' => Ok (VDict [], r')
            | r' =>
                do m <- object_members (scan_once f) (String.length s) r' [];
                Ok (VDict (Dict.of_pairs (fst m)), snd m)
            end
          else if Ascii.eqb c "[" then
            match skip_ws r with
            | String "]" r' => Ok (VList [], r')
            | r' =>
                do m <- array_items (scan_once f) (String.length s) r' [];
                Ok (VList (fst m), snd m)
            end
          else if startswith s "null" then Ok (VNone, drop 4 s)
          else if startswith s "true" then Ok (VBool true, drop 4 s)
          else if startswith s "false" then Ok (VBool false, drop 5 s)
          else
            match match_number s with
            | Some r => r
            | None =>
                if startswith s "NaN" then Ok (VFloat "NaN", drop 3 s)
                else if startswith s "Infinity"
                then Ok (VFloat "Infinity", drop 8 s)
                else if startswith s "-Infinity"
                then Ok (VFloat "-Infinity", drop 9 s)
                else Raise JSONDecodeError
            end
      end
  end.

(** [json.loads(s)]: one value, separators allowed around it, nothing
    else.  (The interpreter's recursion limit is not modelled.) *)
Definition loads (s : string) : result value :=
  do vr <- scan_once (S (String.length s)) (skip_ws s);
  match skip_ws (snd vr) with
  | "" => Ok (fst vr)
  | _ => Raise JSONDecodeError
  end.

(** [json.loads(s)] under a recursion limit: the scanner calls itself
    once for every array or object it enters, and raises [RecursionError]
    on a value that lies more than [limit] arrays or objects deep. *)
Definition loads_within (limit : nat) (s : string) : result value :=
  match scan_once (S limit) (skip_ws s) with
  | Raise (BackendError "scanner fuel") => Raise RecursionError
  | Raise e => Raise e
  | Ok vr =>
      match skip_ws (snd vr) with
      | "" => Ok (fst vr)
      | _ => Raise JSONDecodeError
      end
  end.

End json.

(* ================================================================== *)
(** * Parsed HTML documents                                             *)
(* ================================================================== *)

(** The tree [BeautifulSoup(content, 'html.parser')] builds: text nodes
    (the strings that [.text] reports) and elements with their attributes
    and children, in document order. *)
#[warnings="-register-all"]
Inductive node : Type :=
| TextNode (s : string)
| Element (name : string) (attrs : list (string * string))
          (children : list node).

Definition soup : Type := list node.

Module bs4.

Fixpoint attr (attrs : list (string * string)) (k : string)
  : option string :=
  match attrs with
  | [] => None
  | (k', v) :: rest => if String.eqb k k' then Some v else attr rest k
  end.

(** The elements of the tree under [n] (itself included) that satisfy
    [p], in document order. *)
Fixpoint find_all_in (p : string -> list (string * string) -> bool)
  (n : node) : list node :=
  match n with
  | TextNode _ => []
  | Element name attrs children =>
      ((if p name attrs then [n] else [])
         ++ flat_map (find_all_in p) children)%list
  end.

(** [soup.find_all(...)]. *)
Definition find_all (p : string -> list (string * string) -> bool)
  (doc : soup) : list node :=
  flat_map (find_all_in p) doc.

(** [soup.find(...)]: the first match, or [None]. *)
Definition find (p : string -> list (string * string) -> bool)
  (doc : soup) : option node :=
  match find_all p doc with
  | [] => None
  | n :: _ => Some n
  end.

(** [tag.text]. *)
Fixpoint text (n : node) : string :=
  match n with
  | TextNode s => s
  | Element _ _ children =>
      fold_right (fun c acc => text c ++ acc) "" children
  end.

(** [soup.get_text()]. *)
Definition get_text (doc : soup) : string :=
  fold_right (fun c acc => text c ++ acc) "" doc.

(** The document after [decompose()] on every element whose name is in
    [names]. *)
Fixpoint decompose_in (names : list string) (n : node) : list node :=
  match n with
  | TextNode _ => [n]
  | Element name attrs children =>
      if existsb (String.eqb name) names then []
      else [Element name attrs (flat_map (decompose_in names) children)]
  end.

Definition decompose_all (names : list string) (doc : soup) : soup :=
  flat_map (decompose_in names) doc.

(** The number of elements named [name] in the tree under [n]. *)
Fixpoint count_in (name : string) (n : node) : nat :=
  match n with
  | TextNode _ => O
  | Element name' _ children =>
      ((if String.eqb name' name then 1 else 0)
       + fold_right (fun c acc => count_in name c + acc) 0 children)%nat
  end.

Definition count (name : string) (doc : soup) : nat :=
  fold_right (fun c acc => count_in name c + acc)%nat O doc.

Definition named (name : string) : string -> list (string * string) -> bool :=
  fun name' _ => String.eqb name' name.

End bs4.

(* ================================================================== *)
(** * The records of the pipeline and its collaborators                 *)
(* ================================================================== *)

(** The dictionary [WebScraper.scrape_website] returns. *)
Record ScrapedData : Type := mkScrapedData {
  sd_url : string;
  sd_title : string;
  sd_meta_description : string;
  sd_h1_tags : list string;
  sd_h2_tags : list string;
  sd_outbound_links : list string;
  sd_content : string;
  sd_scraped_at : value
}.

(** The dictionary [NewsFetcher.fetch_company_news] builds per article. *)
Record NewsItem : Type := mkNewsItem {
  ni_title : value;
  ni_snippet : value;
  ni_source : value;
  ni_date : value;
  ni_source_name : value
}.

(** The record [SupabaseManager.save_company_profile] inserts. *)
Record ProfileRecord : Type := mkProfileRecord {
  website_url : string;
  company_name : value;
  page_title : value;
  meta_description : value;
  company_summary : value;
  industry_category : value;
  target_audience : value;
  key_problems_solved : value;
  potential_competitors : value;
  news_summary : value;
  h1_tags : value;
  h2_tags : value;
  outbound_links : value;
  latest_news : value;
  scraped_content : value;
  created_at : string;
  updated_at : string
}.

(** A row of the table [company_profiles]: the inserted columns and the
    [id] the database generates. *)
Record Row : Type := mkRow {
  row_id : string;
  columns : ProfileRecord
}.

(** The table and whether the storage backend answers.  The column
    [website_url] is declared [UNIQUE NOT NULL]. *)
Record Store : Type := mkStore {
  rows : list Row;
  online : bool
}.

(** What the program takes from outside: library functions that are not
    modelled, the clock, and the external collaborators. *)
Record World : Type := mkWorld {
  (* the standard library *)
  json_loads : string -> result value;             (* json.loads *)
  urljoin : string -> string -> result string;     (* urllib.parse.urljoin *)
  list_of_set : list string -> list string;        (* list(set(xs)) *)
  capitalize : string -> string;                   (* str.capitalize *)
  time_time : value;                               (* time.time() *)
  utcnow_isoformat : nat -> string;   (* n-th datetime.utcnow().isoformat() *)
  (* the page fetch: requests.get, raise_for_status, BeautifulSoup *)
  fetch_page : string -> result soup;
  (* the search provider: GoogleSearch(params).get_dict() *)
  search : string -> Z -> result dict;
  (* the generative backend on the prompt built from its two inputs:
     model.generate_content(prompt).text *)
  generate_content : ScrapedData -> list NewsItem -> result string;
  (* the storage backend: generated ids, and whether it takes a record *)
  gen_random_uuid : nat -> string;
  accepts : ProfileRecord -> bool
}.

(* ================================================================== *)
(** * The storage client                                                *)
(* ================================================================== *)

Module Supabase.

(** [table.select(...).eq("website_url", key).execute().data]. *)
Definition select_eq (st : Store) (key : string) : result (list Row) :=
  if online st
  then Ok (filter (fun r => String.eqb (website_url (columns r)) key)
             (rows st))
  else Raise (BackendError "storage backend unreachable").

(** [table.insert(record).execute()]: the data returned and the table
    afterwards.  A failed insert leaves the table as it was. *)
Definition insert (w : World) (st : Store) (record : ProfileRecord)
  : result (list Row) * Store :=
  if negb (online st)
  then (Raise (BackendError "storage backend unreachable"), st)
  else if existsb (fun r => String.eqb (website_url (columns r))
                              (website_url record)) (rows st)
  then (Raise (BackendError "duplicate key value violates unique constraint"),
        st)
  else if negb (accepts w record)
  then (Raise (BackendError "record rejected"), st)
  else
    let row := mkRow (gen_random_uuid w (length (rows st))) record in
    (Ok [row], mkStore (rows st ++ [row])%list (online st)).

End Supabase.

(* ================================================================== *)
(** * [SupabaseManager]  (src/models/database.py)                       *)
(* ================================================================== *)

(** What [save_company_profile] returns: [result.data[0]], or the empty
    dictionary when [result.data] is empty. *)
Inductive saved : Type :=
| SavedRow (r : Row)
| SavedEmpty.

Module SupabaseManager.
Import PyStr urllib_parse.

(** [_normalize_url(self, url)]. *)
Definition _normalize_url (url : string) : result string :=
  do parsed <- urlparse (lower url);
  let netloc := replace (netloc parsed) "www." "" in
  let scheme :=
    if in_list (scheme parsed) ["http"; "https"] then "https"
    else scheme parsed in
  Ok (rstrip (scheme ++ "://" ++ netloc ++ path parsed) "/").

(** [check_company_exists(self, website_url)]: every exception is caught
    and answered with [False]. *)
Definition check_company_exists (st : Store) (website_url : string) : bool :=
  match (do normalized_url <- _normalize_url website_url;
         Supabase.select_eq st normalized_url) with
  | Ok data => (0 <? Z.of_nat (length data))
  | Raise _ => false
  end.

(** [profile_data['website_url']] handed to [_normalize_url], which calls
    [.lower()] on it. *)
Definition normalized_key (profile_data : dict) : result string :=
  match Dict.get profile_data "website_url" with
  | None => Raise (KeyError "website_url")
  | Some (VStr url) => _normalize_url url
  | Some _ => Raise (AttributeError "lower")
  end.

(** [save_company_profile(self, profile_data)]: the value returned (or
    the exception re-raised) and the table afterwards. *)
Definition save_company_profile (w : World) (st : Store)
  (profile_data : dict) : result saved * Store :=
  match normalized_key profile_data with
  | Raise e => (Raise e, st)
  | Ok key =>
      let get k default := Dict.get_default profile_data k default in
      let record :=
        {| website_url := key;
           company_name := get "company_name" (VStr "");
           page_title := get "page_title" (VStr "");
           meta_description := get "meta_description" (VStr "");
           company_summary := get "company_summary" (VStr "");
           industry_category := get "industry_category" (VStr "");
           target_audience := get "target_audience" (VStr "");
           key_problems_solved := get "key_problems_solved" (VList []);
           potential_competitors := get "potential_competitors" (VList []);
           news_summary := get "news_summary" (VStr "");
           h1_tags := get "h1_tags" (VList []);
           h2_tags := get "h2_tags" (VList []);
           outbound_links := get "outbound_links" (VList []);
           latest_news := get "latest_news" (VList []);
           scraped_content := get "scraped_content" (VStr "");
           created_at := utcnow_isoformat w 0;
           updated_at := utcnow_isoformat w 1 |} in
      match Supabase.insert w st record with
      | (Raise e, st') => (Raise e, st')
      | (Ok data, st') =>
          (Ok (match data with
               | r :: _ => SavedRow r
               | [] => SavedEmpty
               end), st')
      end
  end.

(** [get_company_profile(self, website_url)]: every exception is caught
    and answered with [None]. *)
Definition get_company_profile (st : Store) (website_url : string)
  : option Row :=
  match (do normalized_url <- _normalize_url website_url;
         Supabase.select_eq st normalized_url) with
  | Ok (r :: _) => Some r
  | Ok [] => None
  | Raise _ => None
  end.

End SupabaseManager.

(* ================================================================== *)
(** * [GeminiAnalyzer]  (src/tools/gemini_analyzer.py)                  *)
(* ================================================================== *)

Module GeminiAnalyzer.
Import PyStr.

(** The default structure returned when the response does not parse. *)
Definition placeholder : value :=
  VDict [("company_summary", VStr "Unable to generate summary");
         ("industry_category", VStr "Unknown");
         ("target_audience", VStr "Unknown");
         ("key_problems_solved", VList []);
         ("potential_competitors", VList []);
         ("news_summary", VStr "Unable to summarize news")].

(** The handler [except json.JSONDecodeError]: that exception is
    answered with the default structure, anything else passes. *)
Definition except_JSONDecodeError (attempt : result value) : result value :=
  match attempt with
  | Raise JSONDecodeError => Ok placeholder
  | r => r
  end.

(** [_parse_response(self, response_text)]. *)
Definition _parse_response (w : World) (response_text : string)
  : result value :=
  let start_idx := find response_text "{" in
  let end_idx := rfind response_text "}" + 1 in
  except_JSONDecodeError
    (if negb (start_idx =? -1) && (start_idx <? end_idx) then
       let json_str := slice response_text start_idx end_idx in
       json_loads w json_str
     else
       json_loads w response_text).

(** [analyze_company(self, scraped_data, news_data)]: the prompt is built
    from the two arguments and sent to the backend, whose text is parsed;
    an exception is logged and re-raised. *)
Definition analyze_company (w : World) (scraped_data : ScrapedData)
  (news_data : list NewsItem) : result value :=
  do response_text <- generate_content w scraped_data news_data;
  _parse_response w response_text.

End GeminiAnalyzer.

(* ================================================================== *)
(** * [NewsFetcher]  (src/tools/news_fetcher.py)                        *)
(* ================================================================== *)

Module NewsFetcher.
Import PyStr.

Fixpoint chars_of (s : string) : list value :=
  match s with
  | "" => []
  | String c r => VStr (String c "") :: chars_of r
  end.

(** The items the loop [for x in v[:num_results]] visits. *)
Definition sliced_items (v : value) (num_results : Z)
  : result (list value) :=
  match v with
  | VList items => Ok (list_slice_to items num_results)
  | VStr s => Ok (chars_of (slice_to s num_results))
  | VDict _ => Raise (TypeError "unhashable type: 'slice'")
  | _ => Raise (TypeError "object is not subscriptable")
  end.

(** [x.get] exists on a dictionary only. *)
Definition as_dict (v : value) : result dict :=
  match v with
  | VDict d => Ok d
  | _ => Raise (AttributeError "get")
  end.

(** The article built from a news-vertical result. *)
Definition news_item_of_news (article : dict) : NewsItem :=
  {| ni_title := Dict.get_default article "title" (VStr "");
     ni_snippet := Dict.get_default article "snippet" (VStr "");
     ni_source := Dict.get_default article "link" (VStr "");
     ni_date := Dict.get_default article "date" (VStr "");
     ni_source_name :=
       match Dict.get article "source" with
       | Some (VDict source) => Dict.get_default source "name" (VStr "")
       | Some other => other
       | None => VStr ""
       end |}.

(** The article built from an organic result. *)
Definition news_item_of_organic (res : dict) : NewsItem :=
  {| ni_title := Dict.get_default res "title" (VStr "");
     ni_snippet := Dict.get_default res "snippet" (VStr "");
     ni_source := Dict.get_default res "link" (VStr "");
     ni_date := Dict.get_default res "date" (VStr "");
     ni_source_name := Dict.get_default res "displayed_link" (VStr "") |}.

(** One of the two loops: every visited item must be a dictionary. *)
Fixpoint collect (mk : dict -> NewsItem) (items : list value)
  : result (list NewsItem) :=
  match items with
  | [] => Ok []
  | x :: rest =>
      do d <- as_dict x;
      do tail <- collect mk rest;
      Ok (mk d :: tail)
  end.

(** The body of the [try] block after the search call. *)
Definition articles_of (results : dict) (num_results : Z)
  : result (list NewsItem) :=
  match Dict.get results "news_results" with
  | Some news_results =>
      do items <- sliced_items news_results num_results;
      collect news_item_of_news items
  | None =>
      match Dict.get results "organic_results" with
      | Some organic_results =>
          do items <- sliced_items organic_results num_results;
          collect news_item_of_organic items
      | None => Ok []
      end
  end.

(** [fetch_company_news(self, company_name, num_results)]: any exception
    is caught and answered with the empty list. *)
Definition fetch_company_news (w : World) (company_name : string)
  (num_results : Z) : list NewsItem :=
  let search_query := company_name ++ " latest news" in
  match (do results <- search w search_query num_results;
         articles_of results num_results) with
  | Ok news_articles => news_articles
  | Raise _ => []
  end.

End NewsFetcher.

(* ================================================================== *)
(** * [WebScraper]  (src/tools/web_scraper.py)                          *)
(* ================================================================== *)

Module WebScraper.
Import PyStr urllib_parse.

(** The [href] of every [a] element that has one, in document order:
    [soup.find_all('a', href=True)]. *)
Definition anchors (doc : soup) : list string :=
  flat_map
    (fun n =>
       match n with
       | Element _ attrs _ =>
           match bs4.attr attrs "href" with
           | Some href => [href]
           | None => []
           end
       | TextNode _ => []
       end)
    (bs4.find_all
       (fun name attrs =>
          String.eqb name "a" &&
          match bs4.attr attrs "href" with
          | Some _ => true
          | None => false
          end)
       doc).

(** The loop of [_extract_outbound_links]. *)
Fixpoint outbound (w : World) (base_url base_domain : string)
  (hrefs : list string) : result (list string) :=
  match hrefs with
  | [] => Ok []
  | href :: rest =>
      do absolute_url <- urljoin w base_url href;
      do parsed <- urlparse absolute_url;
      do tail <- outbound w base_url base_domain rest;
      Ok (if negb (String.eqb (netloc parsed) base_domain)
          then absolute_url :: tail
          else tail)
  end.

(** [_extract_outbound_links(self, soup, base_url)]. *)
Definition _extract_outbound_links (w : World) (doc : soup)
  (base_url : string) : result (list string) :=
  do base <- urlparse base_url;
  let base_domain := netloc base in
  do outbound_links <- outbound w base_url base_domain (anchors doc);
  Ok (list_of_set w outbound_links).

(** The line boundaries of [str.splitlines] on U+0000..U+00FF. *)
Definition is_linebreak (c : ascii) : bool :=
  let n := ord c in
  ((10 <=? n) && (n <=? 13)) || ((28 <=? n) && (n <=? 30)) || (n =? 133).

(** [s.splitlines()]; [after_cr] tells that the previous character was a
    carriage return, [cur] is the line being read, reversed. *)
Fixpoint splitlines_aux (s : string) (after_cr : bool) (cur : string)
  : list string :=
  match s with
  | "" => if String.eqb cur "" then [] else [rev_str "" cur]
  | String c r =>
      if after_cr && Ascii.eqb c (chr 10) then splitlines_aux r false cur
      else if is_linebreak c
      then rev_str "" cur :: splitlines_aux r (Ascii.eqb c (chr 13)) ""
      else splitlines_aux r false (String c cur)
  end.

Definition splitlines (s : string) : list string :=
  splitlines_aux s false "".

(** [_extract_content(self, soup)]. *)
Definition _extract_content (doc : soup) : string :=
  let doc := bs4.decompose_all ["script"; "style"] doc in
  let text := bs4.get_text doc in
  let lines := map strip (splitlines text) in
  let chunks :=
    flat_map (fun line => map strip (split line "  ")) lines in
  join " " (filter (fun chunk => negb (String.eqb chunk "")) chunks).

(** [scrape_website(self, url)]: both handlers log and re-raise. *)
Definition scrape_website (w : World) (url : string) : result ScrapedData :=
  do doc <- fetch_page w url;
  let title_text :=
    match bs4.find (bs4.named "title") doc with
    | Some title => strip (bs4.text title)
    | None => ""
    end in
  let meta_description :=
    match bs4.find
            (fun name attrs =>
               String.eqb name "meta" &&
               match bs4.attr attrs "name" with
               | Some v => String.eqb v "description"
               | None => false
               end) doc with
    | Some (Element _ attrs _) =>
        match bs4.attr attrs "content" with
        | Some c => c
        | None => ""
        end
    | _ => ""
    end in
  let h1_tags :=
    map (fun h1 => strip (bs4.text h1)) (bs4.find_all (bs4.named "h1") doc) in
  let h2_tags :=
    map (fun h2 => strip (bs4.text h2)) (bs4.find_all (bs4.named "h2") doc) in
  do outbound_links <- _extract_outbound_links w doc url;
  let content := _extract_content doc in
  Ok {| sd_url := url;
        sd_title := title_text;
        sd_meta_description := meta_description;
        sd_h1_tags := h1_tags;
        sd_h2_tags := h2_tags;
        sd_outbound_links := list_slice_to outbound_links 20;
        sd_content := slice_to content 5000;
        sd_scraped_at := time_time w |}.

End WebScraper.

(* ================================================================== *)
(** * [StartupProfilerAgent]  (src/agents/startup_profiler_agent.py)    *)
(* ================================================================== *)

(** The calls a profiling run makes on its tools. *)
Inductive call : Type :=
| CallCheckExists (url : string)
| CallGetProfile (url : string)
| CallScrape (url : string)
| CallFetchNews (company_name : string)
| CallAnalyze (scraped_data : ScrapedData) (news_data : list NewsItem)
| CallSave (profile_data : dict).

(** The text of the ["message"] entry: a fixed text or [str(e)]. *)
Inductive message : Type :=
| Fixed (text : string)
| StrOf (e : exn).

(** The ["data"] entry. *)
Inductive data : Type :=
| DataNone
| DataRow (r : Row)
| DataEmptyDict.

(** The dictionary [profile_company] returns. *)
Record ProfileResult : Type := mkProfileResult {
  status : string;
  message_of : message;
  data_of : data
}.

(** A step of a run: it starts from the store, may raise, leaves a store
    and the calls it made. *)
Definition M (A : Type) : Type := Store -> result A * Store * list call.

Definition ret {A : Type} (a : A) : M A := fun st => (Ok a, st, []).

Definition lift {A : Type} (r : result A) : M A := fun st => (r, st, []).

Definition bindM {A B : Type} (m : M A) (k : A -> M B) : M B :=
  fun st =>
    match m st with
    | (Ok a, st1, calls1) =>
        match k a st1 with
        | (r, st2, calls2) => (r, st2, (calls1 ++ calls2)%list)
        end
    | (Raise e, st1, calls1) => (Raise e, st1, calls1)
    end.

Notation "'step' x <- m ; k" := (bindM m (fun x => k))
  (at level 10, x name, m at level 100, k at level 200).

Module StartupProfilerAgent.
Import PyStr urllib_parse.

(** [_extract_company_name(self, url)]. *)
Definition _extract_company_name (w : World) (url : string)
  : result string :=
  do parsed <- urlparse url;
  let domain := replace (netloc parsed) "www." "" in
  let parts := split domain "." in
  if (1 <? length parts)%nat
  then Ok (capitalize w (hd "" parts))
  else Ok (capitalize w domain).

(** The tools, as steps of a run. *)
Definition check_company_exists (url : string) : M bool :=
  fun st =>
    (Ok (SupabaseManager.check_company_exists st url), st,
     [CallCheckExists url]).

Definition get_company_profile (url : string) : M (option Row) :=
  fun st =>
    (Ok (SupabaseManager.get_company_profile st url), st,
     [CallGetProfile url]).

Definition scrape_website (w : World) (url : string) : M ScrapedData :=
  fun st => (WebScraper.scrape_website w url, st, [CallScrape url]).

Definition fetch_company_news (w : World) (company_name : string)
  : M (list NewsItem) :=
  fun st =>
    (Ok (NewsFetcher.fetch_company_news w company_name 5), st,
     [CallFetchNews company_name]).

Definition analyze_company (w : World) (scraped_data : ScrapedData)
  (news_data : list NewsItem) : M value :=
  fun st =>
    (GeminiAnalyzer.analyze_company w scraped_data news_data, st,
     [CallAnalyze scraped_data news_data]).

Definition save_company_profile (w : World) (profile_data : dict)
  : M saved :=
  fun st =>
    match SupabaseManager.save_company_profile w st profile_data with
    | (r, st') => (r, st', [CallSave profile_data])
    end.

Definition value_of_news (n : NewsItem) : value :=
  VDict [("title", ni_title n); ("snippet", ni_snippet n);
         ("source", ni_source n); ("date", ni_date n);
         ("source_name", ni_source_name n)].

(** [x or y] on strings. *)
Definition str_or (x y : string) : string :=
  if String.eqb x "" then y else x.

(** The keyword unpacking of [analysis] into the profile needs a
    mapping. *)
Definition as_mapping (v : value) : result dict :=
  match v with
  | VDict d => Ok d
  | _ => Raise (TypeError "object is not a mapping")
  end.

(** The body of the [try] block of [profile_company]. *)
Definition profile_company_body (w : World) (website_url : string)
  : M ProfileResult :=
  step company_name <- lift (_extract_company_name w website_url);
  step already <- check_company_exists website_url;
  if already : bool then
    step existing <- get_company_profile website_url;
    ret {| status := "exists";
           message_of := Fixed "Company profile already exists in database";
           data_of := match existing with
                      | Some r => DataRow r
                      | None => DataNone
                      end |}
  else
    step scraped_data <- scrape_website w website_url;
    step news_data <- fetch_company_news w
                   (str_or company_name (sd_title scraped_data));
    step analysis <- analyze_company w scraped_data news_data;
    step analysis_items <- lift (as_mapping analysis);
    let profile_data :=
      Dict.merge
        [("website_url", VStr website_url);
         ("company_name",
           VStr (str_or company_name (sd_title scraped_data)));
         ("page_title", VStr (sd_title scraped_data));
         ("meta_description", VStr (sd_meta_description scraped_data));
         ("h1_tags", VList (map VStr (sd_h1_tags scraped_data)));
         ("h2_tags", VList (map VStr (sd_h2_tags scraped_data)));
         ("outbound_links",
           VList (map VStr (sd_outbound_links scraped_data)));
         ("scraped_content", VStr (sd_content scraped_data));
         ("latest_news", VList (map value_of_news news_data))]
        analysis_items in
    step saved_profile <- save_company_profile w profile_data;
    ret {| status := "success";
           message_of := Fixed "Company profile created successfully";
           data_of := match saved_profile with
                      | SavedRow r => DataRow r
                      | SavedEmpty => DataEmptyDict
                      end |}.

(** [profile_company(self, website_url)]: any exception of the body is
    turned into the error result.  Returns the result, the store after
    the run and the calls made. *)
Definition profile_company (w : World) (st : Store) (website_url : string)
  : ProfileResult * Store * list call :=
  match profile_company_body w website_url st with
  | (Ok r, st', calls) => (r, st', calls)
  | (Raise e, st', calls) =>
      ({| status := "error"; message_of := StrOf e; data_of := DataNone |},
       st', calls)
  end.

End StartupProfilerAgent.

(* ================================================================== *)
(** * Sample worlds, stores and documents                               *)
(* ================================================================== *)

Module Samples.
Import PyStr.

(** [str.capitalize] on ASCII text. *)
Definition capitalize_ascii (s : string) : string :=
  match s with
  | "" => ""
  | String c r =>
      let n := ord c in
      String (if (97 <=? n) && (n <=? 122) then chr (n - 32) else c)
             (lower r)
  end.

(** A page with three headings, two links to other hosts and one link to
    its own host. *)
Definition landing_page : soup :=
  [Element "html" []
     [Element "head" []
        [Element "title" [] [TextNode " Example Inc "];
         Element "meta" [("name", "description");
                         ("content", "We make examples")] []];
      Element "body" []
        [Element "h1" [] [TextNode "  Welcome "];
         Element "div" []
           [Element "h1" [] [TextNode "Products"];
            Element "a" [("href", "https://partner.org/deal")]
              [TextNode "partner"];
            Element "a" [("href", "https://example.com/about")]
              [TextNode "about"]];
         Element "h1" [] [Element "span" [] [TextNode "Contact"]];
         Element "a" [("href", "https://news.net/story")]
           [TextNode "press"];
         Element "script" [] [TextNode "var x = 1;"]]]].

(** A page whose only link goes to another port of its own host. *)
Definition admin_page : soup :=
  [Element "html" []
     [Element "body" []
        [Element "h1" [] [TextNode "Example"];
         Element "a" [("href", "https://example.com:8080/admin")]
           [TextNode "admin"]]]].

(** A world in which every collaborator answers: the page fetch with
    [page], the search provider with [results].  [urljoin] is given on
    absolute links only, which it returns as they are. *)
Definition world_with (page : result soup) (results : dict) : World :=
  {| json_loads := json.loads;
     urljoin := fun _ url => Ok url;
     list_of_set := nodup string_dec;
     capitalize := capitalize_ascii;
     time_time := VFloat "1700000000.0";
     utcnow_isoformat := fun _ => "2024-01-01T00:00:00";
     fetch_page := fun _ => page;
     search := fun _ _ => Ok results;
     generate_content := fun _ _ => Ok "{}";
     gen_random_uuid := fun _ => "00000000-0000-0000-0000-000000000000";
     accepts := fun _ => true |}.

Definition world : World := world_with (Ok landing_page) [].

(** The same world with an unreachable web site. *)
Definition offline_world : World :=
  world_with (Raise (BackendError "connection refused")) [].

(** A stored profile under the key [key], other columns empty. *)
Definition profile (key : string) : Row :=
  {| row_id := "11111111-1111-1111-1111-111111111111";
     columns :=
       {| website_url := key;
          company_name := VStr "";
          page_title := VStr "";
          meta_description := VStr "";
          company_summary := VStr "";
          industry_category := VStr "";
          target_audience := VStr "";
          key_problems_solved := VList [];
          potential_competitors := VList [];
          news_summary := VStr "";
          h1_tags := VList [];
          h2_tags := VList [];
          outbound_links := VList [];
          latest_news := VList [];
          scraped_content := VStr "";
          created_at := "2024-01-01T00:00:00";
          updated_at := "2024-01-01T00:00:00" |} |}.

(** The world [world] with a search provider that answers [results]. *)
Definition world_with_results (results : dict) : World :=
  world_with (Ok landing_page) results.

(** An organic search result. *)
Definition organic_hit : dict :=
  [("title", VStr "Acme raises funds");
   ("link", VStr "https://blog.example/acme");
   ("displayed_link", VStr "blog.example")].

Definition empty_store : Store := {| rows := []; online := true |}.

Definition store_with (key : string) : Store :=
  {| rows := [profile key]; online := true |}.

End Samples.

(* ================================================================== *)
(** * [urlsplit] by the parts of the text                               *)
(* ================================================================== *)

(** [urlsplit] works with positions ([find], slices).  The same result is
    written here with the pieces of the text themselves; the two are shown
    equal below ([urlsplit_by_parts]), and the properties of URL keys are
    proved on this form. *)
Module Parts.
Import PyStr urllib_parse.

(** The text before the first [c]; all of [s] when [c] does not occur. *)
Fixpoint before (c : ascii) (s : string) : string :=
  match s with
  | "" => ""
  | String x r => if Ascii.eqb c x then "" else String x (before c r)
  end.

(** The text after the first [c]; empty when [c] does not occur. *)
Fixpoint after (c : ascii) (s : string) : string :=
  match s with
  | "" => ""
  | String x r => if Ascii.eqb c x then r else after c r
  end.

(** The longest prefix without a character satisfying [p], and the rest. *)
Fixpoint until (p : ascii -> bool) (s : string) : string :=
  match s with
  | "" => ""
  | String x r => if p x then "" else String x (until p r)
  end.

Fixpoint from (p : ascii -> bool) (s : string) : string :=
  match s with
  | "" => ""
  | String x r => if p x then s else from p r
  end.

(** [s] without the characters satisfying [p]. *)
Fixpoint remove (p : ascii -> bool) (s : string) : string :=
  match s with
  | "" => ""
  | String x r => if p x then remove p r else String x (remove p r)
  end.

Definition is_delim (c : ascii) : bool := mem_char c "/?#".

Definition is_unsafe (c : ascii) : bool :=
  Ascii.eqb (chr 9) c || Ascii.eqb (chr 13) c || Ascii.eqb (chr 10) c.

(** The URL after the leading control characters and spaces are stripped
    and tabs, carriage returns and line feeds are removed. *)
Definition clean (url : string) : string :=
  remove is_unsafe (lstrip url _WHATWG_C0_CONTROL_OR_SPACE).

(** The scheme, when the text before the first colon is one, and the text
    after it. *)
Definition scheme_split (url : string) : string * string :=
  match url with
  | "" => ("", url)
  | String c0 _ =>
      if mem_char ":" url && negb (String.eqb (before ":" url) "") &&
         (isascii_char c0 && isalpha_ascii c0) &&
         forallb_str (fun c => mem_char c scheme_chars) (before ":" url)
      then (lower (before ":" url), after ":" url)
      else ("", url)
  end.

(** The tests [urlsplit] applies to a netloc with square brackets. *)
Definition check_brackets (netloc : string) : result unit :=
  if (contains netloc "[" && negb (contains netloc "]")) ||
     (contains netloc "]" && negb (contains netloc "["))
  then Raise (ValueError "Invalid IPv6 URL")
  else if contains netloc "[" && contains netloc "]"
  then _check_bracketed_netloc netloc
  else Ok tt.

(** The netloc and what follows it, when the text starts with two
    slashes. *)
Definition netloc_split (rest : string) : result (string * string) :=
  match rest with
  | String "/" (String "/" r2) =>
      do _ <- check_brackets (until is_delim r2);
      Ok (until is_delim r2, from is_delim r2)
  | _ => Ok ("", rest)
  end.

Definition urlsplit_parts (url : string)
  : result (string * string * string * string * string) :=
  do nu <- netloc_split (snd (scheme_split (clean url)));
  Ok (fst (scheme_split (clean url)), fst nu,
      before "?" (before "#" (snd nu)),
      after "?" (before "#" (snd nu)),
      after "#" (snd nu)).

(** A scheme as [urlsplit] accepts and returns it. *)
Definition is_scheme (s : string) : Prop :=
  match s with
  | "" => False
  | String c0 _ => isascii_char c0 && isalpha_ascii c0 = true
  end /\
  forallb_str (fun c => mem_char c scheme_chars) s = true /\
  lower s = s.

End Parts.

(* ================================================================== *)
(** * What a run assembles and returns                                  *)
(* ================================================================== *)

Module Assembled.
Import StartupProfilerAgent.

(** The dictionary [profile_data] that [profile_company] puts together
    from the URL, the extracted name, the scraped page, the news and the
    analysis, and hands to [save_company_profile]. *)
Definition profile_data (website_url company_name : string)
  (scraped_data : ScrapedData) (news_data : list NewsItem)
  (analysis : dict) : dict :=
  Dict.merge
    [("website_url", VStr website_url);
     ("company_name", VStr (str_or company_name (sd_title scraped_data)));
     ("page_title", VStr (sd_title scraped_data));
     ("meta_description", VStr (sd_meta_description scraped_data));
     ("h1_tags", VList (map VStr (sd_h1_tags scraped_data)));
     ("h2_tags", VList (map VStr (sd_h2_tags scraped_data)));
     ("outbound_links", VList (map VStr (sd_outbound_links scraped_data)));
     ("scraped_content", VStr (sd_content scraped_data));
     ("latest_news", VList (map value_of_news news_data))]
    analysis.

(** The three dictionaries [profile_company] returns. *)
Definition error_result (e : exn) : ProfileResult :=
  {| status := "error"; message_of := StrOf e; data_of := DataNone |}.

Definition exists_result (existing : option Row) : ProfileResult :=
  {| status := "exists";
     message_of := Fixed "Company profile already exists in database";
     data_of := match existing with
                | Some r => DataRow r
                | None => DataNone
                end |}.

Definition success_result (saved_profile : saved) : ProfileResult :=
  {| status := "success";
     message_of := Fixed "Company profile created successfully";
     data_of := match saved_profile with
                | SavedRow r => DataRow r
                | SavedEmpty => DataEmptyDict
                end |}.

End Assembled.

(* ================================================================== *)
(** * The web page of the application  (app.py)                         *)
(* ================================================================== *)

Module App.
Import PyStr.

(** The URL the analysis runs on: the text typed, stripped, with
    [https://] put before it unless it starts with [http://] or
    [https://]. *)
Definition entered_url (website_url : string) : string :=
  let website_url := strip website_url in
  if negb (startswith website_url "http://" ||
           startswith website_url "https://")
  then "https://" ++ website_url
  else website_url.

(** The run that a press of the button starts, when there is one: the
    button was pressed and the field is not empty. *)
Definition analyze (w : World) (st : Store) (analyze_button : bool)
  (website_url : string) : option (ProfileResult * Store * list call) :=
  if analyze_button && negb (String.eqb website_url "")
  then Some (StartupProfilerAgent.profile_company w st
               (entered_url website_url))
  else None.

End App.

(* ================================================================== *)
(** * More sample worlds                                                *)
(* ================================================================== *)

Module Scenarios.

(** [s] between double quotes. *)
Definition quoted (s : string) : string :=
  String json.dquote (s ++ String json.dquote "").

(** The world [Samples.world] with a generative backend that answers
    [text]. *)
Definition world_answering (text : string) : World :=
  {| json_loads := json_loads Samples.world;
     urljoin := urljoin Samples.world;
     list_of_set := list_of_set Samples.world;
     capitalize := capitalize Samples.world;
     time_time := time_time Samples.world;
     utcnow_isoformat := utcnow_isoformat Samples.world;
     fetch_page := fetch_page Samples.world;
     search := search Samples.world;
     generate_content := fun _ _ => Ok text;
     gen_random_uuid := gen_random_uuid Samples.world;
     accepts := accepts Samples.world |}.

(** A response that is an object with a page title and a URL of its own,
    after a few words. *)
Definition opinionated_response : string :=
  "Profile: {" ++ quoted "page_title" ++ ": " ++ quoted "Overridden" ++ ", "
  ++ quoted "website_url" ++ ": " ++ quoted "https://other.org/x" ++ "}".

(** The world [Samples.world] with the page [page] behind every URL and
    a [urljoin] that, on the absolute links it is given, parses the link
    (and raises when that fails) and returns it as it is. *)
Definition world_serving (page : soup) : World :=
  {| json_loads := json_loads Samples.world;
     urljoin := fun _ url => do _ <- urllib_parse.urlparse url; Ok url;
     list_of_set := list_of_set Samples.world;
     capitalize := capitalize Samples.world;
     time_time := time_time Samples.world;
     utcnow_isoformat := utcnow_isoformat Samples.world;
     fetch_page := fun _ => Ok page;
     search := search Samples.world;
     generate_content := generate_content Samples.world;
     gen_random_uuid := gen_random_uuid Samples.world;
     accepts := accepts Samples.world |}.

(** A page with one link that parses and one that does not. *)
Definition broken_link_page : soup :=
  [Element "html" []
     [Element "body" []
        [Element "a" [("href", "https://partner.org/deal")]
           [TextNode "partner"];
         Element "a" [("href", "http://[")] [TextNode "broken"]]]].

(** [s * n]. *)
Fixpoint times (s : string) (n : nat) : string :=
  match n with
  | O => ""
  | S k => s ++ times s k
  end.

(** The world [Samples.world] with a [json.loads] that works under the
    recursion limit [limit] (1000 is the interpreter's default). *)
Definition world_with_recursion_limit (limit : nat) : World :=
  {| json_loads := json.loads_within limit;
     urljoin := urljoin Samples.world;
     list_of_set := list_of_set Samples.world;
     capitalize := capitalize Samples.world;
     time_time := time_time Samples.world;
     utcnow_isoformat := utcnow_isoformat Samples.world;
     fetch_page := fetch_page Samples.world;
     search := search Samples.world;
     generate_content := generate_content Samples.world;
     gen_random_uuid := gen_random_uuid Samples.world;
     accepts := accepts Samples.world |}.

(** A store that does not answer. *)
Definition unreachable_store : Store := {| rows := []; online := false |}.

End Scenarios.

(* ================================================================== *)
(** * Properties: the insight parser                                    *)
(* ================================================================== *)

Section InsightParser.
Import PyStr GeminiAnalyzer.

(** Whether the parser tries the whole text or the span between the
    first opening and the last closing brace. *)
Lemma parse_response_cases (w : World) (text : string) :
  let start_idx := find text "{" in
  let end_idx := rfind text "}" + 1 in
  (start_idx <> -1 /\ start_idx < end_idx /\
   _parse_response w text =
     except_JSONDecodeError (json_loads w (slice text start_idx end_idx)))
  \/
  ((start_idx = -1 \/ end_idx <= start_idx) /\
   _parse_response w text = except_JSONDecodeError (json_loads w text)).
Proof.
  intros start_idx end_idx. unfold _parse_response.
  fold start_idx. fold end_idx.
  destruct (start_idx =? -1) eqn:Hs; simpl.
  - right. split; [left; now apply Z.eqb_eq | reflexivity].
  - apply Z.eqb_neq in Hs.
    destruct (start_idx <? end_idx) eqn:He.
    + left. apply Z.ltb_lt in He. repeat split; assumption.
    + right. apply Z.ltb_ge in He. split; [right; assumption | reflexivity].
Qed.

(** Without a brace span the whole response is what gets decoded. *)
Lemma parse_response_without_span (w : World) (text : string) :
  find text "{" = -1 \/ rfind text "}" + 1 <= find text "{" ->
  _parse_response w text = except_JSONDecodeError (json_loads w text).
Proof.
  intros H. destruct (parse_response_cases w text) as [[H1 [H2 _]] | [_ E]].
  - destruct H; [contradiction | lia].
  - exact E.
Qed.

End InsightParser.

(** C5, as stated, fails: the parser can raise on a response that holds
    no JSON.  The response made of 1500 opening square brackets is not
    JSON (a decoder without a limit rejects it with [JSONDecodeError]),
    but under the interpreter's recursion limit of 1000 [json.loads]
    raises [RecursionError] while it descends; the handler catches
    [JSONDecodeError] only, so the parser raises [RecursionError] and
    returns no placeholder.  The same happens when the brace span is
    nested too deeply, as in [Here: ] followed by 1500 times [{"a":] and
    a closing brace. *)
Lemma C5_counterexample :
  let w := Scenarios.world_with_recursion_limit 1000 in
  let brackets := Scenarios.times "[" 1500 in
  let braces :=
    "Here: " ++ Scenarios.times ("{" ++ Scenarios.quoted "a" ++ ":") 1500
    ++ "}" in
  (PyStr.find brackets "{" = -1 /\
   json.loads brackets = Raise JSONDecodeError /\
   json_loads w brackets = Raise RecursionError /\
   GeminiAnalyzer._parse_response w brackets = Raise RecursionError) /\
  (PyStr.find braces "{" = 6 /\
   json.loads braces = Raise JSONDecodeError /\
   json.loads (PyStr.slice braces 6 (PyStr.rfind braces "}" + 1))
     = Raise JSONDecodeError /\
   json_loads w (PyStr.slice braces 6 (PyStr.rfind braces "}" + 1))
     = Raise RecursionError /\
   GeminiAnalyzer._parse_response w braces = Raise RecursionError).
Proof.
  vm_compute. repeat split.
Qed.

(** C5, amended.  Let the text handed to the decoder be the span from the
    first opening brace to the last closing brace when the first opening
    brace comes before the last closing brace, and the whole response
    otherwise.  When the decoder raises [JSONDecodeError] on that text,
    the parser returns, without raising, exactly the fixed placeholder:
    summary "Unable to generate summary", industry and audience
    "Unknown", two empty lists, news summary "Unable to summarize news".
    When the decoder raises any other exception on it ([RecursionError]
    on text nested deeper than the interpreter's recursion limit), the
    parser raises that exception. *)
Theorem C5_decode_error_gives_placeholder :
  forall (w : World) (text : string),
    let start_idx := PyStr.find text "{" in
    let end_idx := PyStr.rfind text "}" + 1 in
    let json_str :=
      if negb (start_idx =? -1) && (start_idx <? end_idx)
      then PyStr.slice text start_idx end_idx
      else text in
    (json_loads w json_str = Raise JSONDecodeError ->
     GeminiAnalyzer._parse_response w text =
       Ok (VDict [("company_summary", VStr "Unable to generate summary");
                  ("industry_category", VStr "Unknown");
                  ("target_audience", VStr "Unknown");
                  ("key_problems_solved", VList []);
                  ("potential_competitors", VList []);
                  ("news_summary", VStr "Unable to summarize news")]))
    /\
    (forall e : exn,
        e <> JSONDecodeError ->
        json_loads w json_str = Raise e ->
        GeminiAnalyzer._parse_response w text = Raise e).
Proof.
  intros w text start_idx end_idx json_str.
  assert (E : GeminiAnalyzer._parse_response w text
              = GeminiAnalyzer.except_JSONDecodeError (json_loads w json_str)).
  { unfold GeminiAnalyzer._parse_response, json_str.
    fold start_idx. fold end_idx.
    destruct (negb (start_idx =? -1) && (start_idx <? end_idx));
      reflexivity. }
  split.
  - intros H. rewrite E, H. reflexivity.
  - intros e Hne H. rewrite E, H.
    destruct e; try reflexivity. contradiction Hne. reflexivity.
Qed.

Lemma C5_witness :
  GeminiAnalyzer._parse_response Samples.world "Sorry, I cannot help {yet}." =
    Ok (VDict [("company_summary", VStr "Unable to generate summary");
               ("industry_category", VStr "Unknown");
               ("target_audience", VStr "Unknown");
               ("key_problems_solved", VList []);
               ("potential_competitors", VList []);
               ("news_summary", VStr "Unable to summarize news")]) /\
  GeminiAnalyzer._parse_response
    (Scenarios.world_with_recursion_limit 1000) (Scenarios.times "[" 1500)
    = Raise RecursionError.
Proof.
  split.
  - apply (proj1 (C5_decode_error_gives_placeholder
                    Samples.world "Sorry, I cannot help {yet}.")).
    vm_compute. reflexivity.
  - apply (proj2 (C5_decode_error_gives_placeholder
                    (Scenarios.world_with_recursion_limit 1000)
                    (Scenarios.times "[" 1500))).
    + discriminate.
    + vm_compute. reflexivity.
Defined.

(** C4, as stated, fails: on the response [[{}, {}]] the span from the
    first opening brace to the last closing brace is [{}, {}], which does
    not decode, while the whole response decodes to a list of two empty
    objects; the parser returns the placeholder and not the decoded whole
    response. *)
Lemma C4_counterexample :
  let w := Samples.world in
  let text := "[{}, {}]" in
  let start_idx := PyStr.find text "{" in
  let end_idx := PyStr.rfind text "}" + 1 in
  start_idx <> -1 /\ start_idx < end_idx /\
  PyStr.slice text start_idx end_idx = "{}, {}" /\
  json_loads w (PyStr.slice text start_idx end_idx) = Raise JSONDecodeError /\
  json_loads w text = Ok (VList [VDict []; VDict []]) /\
  GeminiAnalyzer._parse_response w text = Ok GeminiAnalyzer.placeholder /\
  GeminiAnalyzer._parse_response w text <> json_loads w text.
Proof.
  vm_compute. repeat split; try reflexivity; try discriminate.
Qed.

(** C4, amended.  When the first opening brace comes before the last
    closing brace, the parser decodes the span between them and nothing
    else; it never falls back to the whole response.  If the decoder
    raises [JSONDecodeError] on the span, the parser returns the
    placeholder at once, whatever the whole response is; if the decoder
    raises another exception on it ([RecursionError] on a span nested too
    deeply), the parser raises that exception; if the span decodes, the
    parser returns the decoded value. *)
Theorem C4_failed_span_gives_placeholder :
  forall (w : World) (text : string),
    PyStr.find text "{" <> -1 ->
    PyStr.find text "{" < PyStr.rfind text "}" + 1 ->
    let json_str :=
      PyStr.slice text (PyStr.find text "{") (PyStr.rfind text "}" + 1) in
    (json_loads w json_str = Raise JSONDecodeError ->
     GeminiAnalyzer._parse_response w text = Ok GeminiAnalyzer.placeholder)
    /\
    (forall e : exn,
        e <> JSONDecodeError ->
        json_loads w json_str = Raise e ->
        GeminiAnalyzer._parse_response w text = Raise e)
    /\
    (forall v : value,
        json_loads w json_str = Ok v ->
        GeminiAnalyzer._parse_response w text = Ok v).
Proof.
  intros w text Hs He json_str.
  assert (E : GeminiAnalyzer._parse_response w text
              = GeminiAnalyzer.except_JSONDecodeError (json_loads w json_str)).
  { destruct (parse_response_cases w text) as [[_ [_ E]] | [[H | H] _]].
    - exact E.
    - contradiction.
    - lia. }
  split; [| split].
  - intros H. rewrite E, H. reflexivity.
  - intros e Hne H. rewrite E, H.
    destruct e; try reflexivity. contradiction Hne. reflexivity.
  - intros v H. rewrite E, H. reflexivity.
Qed.

Lemma C4_witness :
  GeminiAnalyzer._parse_response Samples.world "[{}, {}]" =
    Ok GeminiAnalyzer.placeholder /\
  GeminiAnalyzer._parse_response Samples.world "Profile: {} (end)" =
    Ok (VDict []).
Proof.
  split.
  - refine (proj1 (C4_failed_span_gives_placeholder Samples.world "[{}, {}]"
                     _ _) _).
    + vm_compute. discriminate.
    + vm_compute. reflexivity.
    + vm_compute. reflexivity.
  - refine (proj2 (proj2 (C4_failed_span_gives_placeholder Samples.world
                            "Profile: {} (end)" _ _)) _ _).
    + vm_compute. discriminate.
    + vm_compute. reflexivity.
    + vm_compute. reflexivity.
Defined.

(* ================================================================== *)
(** * Properties: the news fetcher                                      *)
(* ================================================================== *)

Section News.
Import NewsFetcher.

Lemma collect_dicts (mk : dict -> NewsItem) (ds : list dict) :
  collect mk (map VDict ds) = Ok (map mk ds).
Proof.
  induction ds as [| d ds IH]; simpl.
  - reflexivity.
  - rewrite IH. reflexivity.
Qed.

Lemma list_slice_to_pos {A : Type} (xs : list A) (n : Z) :
  0 <= n -> list_slice_to xs n = firstn (Z.to_nat n) xs.
Proof.
  intros Hn. unfold list_slice_to.
  destruct (n <? 0) eqn:E; [apply Z.ltb_lt in E; lia | reflexivity].
Qed.


End News.

(** C6, as stated, fails in two ways.  A response whose [news_results]
    entry is present and empty holds zero news results, yet the organic
    results are not used and the output is empty; and with a requested
    limit of 0 the output is empty although an organic result exists. *)
Lemma C6_counterexample :
  NewsFetcher.fetch_company_news
    (Samples.world_with_results
       [("news_results", VList []);
        ("organic_results", VList [VDict Samples.organic_hit])])
    "Acme" 5 = []
  /\
  NewsFetcher.fetch_company_news
    (Samples.world_with_results
       [("organic_results", VList [VDict Samples.organic_hit])])
    "Acme" 0 = [].
Proof.
  split; vm_compute; reflexivity.
Qed.

(** C6, amended.  When the search response has no [news_results] entry and
    its [organic_results] entry is a list of result objects, at least one,
    and the requested limit is at least 1, the output is non-empty, no
    longer than the limit, and is the first [limit] organic results mapped
    into the article shape: title, snippet and date copied, the page link
    as [source], the displayed link as [source_name] (the empty string for
    a missing field). *)
Theorem C6_organic_results_fallback :
  forall (w : World) (company_name : string) (num_results : Z)
         (results : dict) (organic : list dict),
    search w (company_name ++ " latest news") num_results = Ok results ->
    Dict.get results "news_results" = None ->
    Dict.get results "organic_results" = Some (VList (map VDict organic)) ->
    organic <> [] ->
    1 <= num_results ->
    let output := NewsFetcher.fetch_company_news w company_name num_results in
    output <> [] /\
    Z.of_nat (length output) <= num_results /\
    output =
      map (fun res =>
             {| ni_title := Dict.get_default res "title" (VStr "");
                ni_snippet := Dict.get_default res "snippet" (VStr "");
                ni_source := Dict.get_default res "link" (VStr "");
                ni_date := Dict.get_default res "date" (VStr "");
                ni_source_name :=
                  Dict.get_default res "displayed_link" (VStr "") |})
          (firstn (Z.to_nat num_results) organic).
Proof.
  intros w name n results organic Hsearch Hnews Horg Hne Hn output.
  assert (E : output =
              map NewsFetcher.news_item_of_organic
                (firstn (Z.to_nat n) organic)).
  { unfold output, NewsFetcher.fetch_company_news.
    rewrite Hsearch. simpl. unfold NewsFetcher.articles_of.
    rewrite Hnews, Horg. simpl.
    rewrite list_slice_to_pos by lia.
    rewrite firstn_map, collect_dicts. reflexivity. }
  repeat split.
  - rewrite E. destruct organic as [| d ds]; [contradiction |].
    destruct (Z.to_nat n) eqn:En; [lia | simpl; discriminate].
  - rewrite E, length_map, length_firstn. lia.
  - exact E.
Qed.

Lemma C6_witness :
  let output :=
    NewsFetcher.fetch_company_news
      (Samples.world_with_results
         [("organic_results", VList (map VDict [Samples.organic_hit]))])
      "Acme" 5 in
  output <> [] /\
  Z.of_nat (length output) <= 5 /\
  output =
    map (fun res =>
           {| ni_title := Dict.get_default res "title" (VStr "");
              ni_snippet := Dict.get_default res "snippet" (VStr "");
              ni_source := Dict.get_default res "link" (VStr "");
              ni_date := Dict.get_default res "date" (VStr "");
              ni_source_name :=
                Dict.get_default res "displayed_link" (VStr "") |})
        (firstn (Z.to_nat 5) [Samples.organic_hit]).
Proof.
  apply (C6_organic_results_fallback
           (Samples.world_with_results
              [("organic_results", VList (map VDict [Samples.organic_hit]))])
           "Acme" 5
           [("organic_results", VList (map VDict [Samples.organic_hit]))]
           [Samples.organic_hit]).
  - reflexivity.
  - reflexivity.
  - reflexivity.
  - discriminate.
  - lia.
Defined.

(* ================================================================== *)
(** * Properties: the profile store                                     *)
(* ================================================================== *)

Section ProfileStore.
Import SupabaseManager.

(** The rows a lookup returns are rows of the table stored under the key
    asked for. *)
Lemma select_eq_sound (st : Store) (key : string) (data : list Row) :
  Supabase.select_eq st key = Ok data ->
  online st = true /\
  forall r, In r data -> In r (rows st) /\ website_url (columns r) = key.
Proof.
  unfold Supabase.select_eq. destruct (online st); [| discriminate].
  intros H. injection H as <-. split; [reflexivity |].
  intros r Hr. apply filter_In in Hr. destruct Hr as [Hin Heq].
  split; [assumption | now apply String.eqb_eq].
Qed.

(** An insert either fails and leaves the table alone, or appends one row
    that holds the record. *)
Lemma insert_cases (w : World) (st : Store) (record : ProfileRecord) :
  (exists e, Supabase.insert w st record = (Raise e, st)) \/
  (exists row,
      Supabase.insert w st record
        = (Ok [row], mkStore (rows st ++ [row])%list (online st)) /\
      columns row = record).
Proof.
  unfold Supabase.insert.
  destruct (negb (online st)); [left; eauto |].
  destruct (existsb _ (rows st)); [left; eauto |].
  destruct (negb (accepts w record)); [left; eauto |].
  right. eexists. split; reflexivity.
Qed.

(** A save either re-raises and leaves the table alone, or appends one row
    whose key is the normalized form of the URL it was given. *)
Lemma save_cases (w : World) (st : Store) (profile_data : dict) :
  (exists e, save_company_profile w st profile_data = (Raise e, st)) \/
  (exists row key,
      save_company_profile w st profile_data
        = (Ok (SavedRow row), mkStore (rows st ++ [row]) (online st)) /\
      normalized_key profile_data = Ok key /\
      website_url (columns row) = key).
Proof.
  unfold save_company_profile.
  destruct (normalized_key profile_data) as [key | e]; [| left; eauto].
  match goal with
  | |- context [Supabase.insert w st ?r] =>
      destruct (insert_cases w st r) as [[e E] | [row [E Hc]]]; rewrite E
  end.
  - left. eauto.
  - right. exists row, key. repeat split. rewrite Hc. reflexivity.
Qed.

Lemma save_succeeds (w : World) (st : Store) (profile_data : dict)
  (key : string) :
  normalized_key profile_data = Ok key ->
  online st = true ->
  (forall r, In r (rows st) -> website_url (columns r) <> key) ->
  (forall record, accepts w record = true) ->
  exists row,
    save_company_profile w st profile_data
      = (Ok (SavedRow row), mkStore (rows st ++ [row]) (online st)) /\
    website_url (columns row) = key.
Proof.
  intros Hkey Hon Hfresh Hacc.
  unfold save_company_profile. rewrite Hkey.
  unfold Supabase.insert. rewrite Hon, Hacc. simpl.
  match goal with
  | |- context [existsb ?f (rows st)] =>
      assert (Hex : existsb f (rows st) = false)
  end.
  { apply not_true_is_false. intros Hex. apply existsb_exists in Hex.
    destruct Hex as [r [Hin Heq]]. apply String.eqb_eq in Heq.
    simpl in Heq. exact (Hfresh r Hin Heq). }
  rewrite Hex. eexists. split; reflexivity.
Qed.

End ProfileStore.

(** ** Lookups by key *)

Section StoreLookups.
Import SupabaseManager.

(** What the two lookups answer, by the key of the URL asked for. *)
Lemma lookups_by_key (st : Store) (u key : string) :
  _normalize_url u = Ok key ->
  online st = true ->
  let found :=
    filter (fun r => String.eqb (website_url (columns r)) key) (rows st) in
  check_company_exists st u = negb (Nat.eqb (length found) 0) /\
  get_company_profile st u = hd_error found.
Proof.
  intros Hn Hon found.
  unfold check_company_exists, get_company_profile.
  rewrite Hn. cbv beta iota delta [bind]. unfold Supabase.select_eq.
  rewrite Hon. fold found. destruct found; split; reflexivity.
Qed.

Lemma lookups_unreachable (st : Store) (u : string) :
  online st = false ->
  check_company_exists st u = false /\ get_company_profile st u = None.
Proof.
  intros Hoff. unfold check_company_exists, get_company_profile.
  destruct (_normalize_url u) as [key | e]; [| split; reflexivity].
  cbv beta iota delta [bind]. unfold Supabase.select_eq. rewrite Hoff.
  split; reflexivity.
Qed.

Lemma lookups_no_key (st : Store) (u : string) (e : exn) :
  _normalize_url u = Raise e ->
  check_company_exists st u = false /\ get_company_profile st u = None.
Proof.
  intros Hn. unfold check_company_exists, get_company_profile.
  rewrite Hn. split; reflexivity.
Qed.

Lemma filter_no_match {A : Type} (f : A -> bool) (xs : list A) :
  (forall x, In x xs -> f x = false) -> filter f xs = [].
Proof.
  induction xs as [| x xs IH]; intros H; [reflexivity |].
  simpl. rewrite (H x (or_introl eq_refl)). apply IH.
  intros y Hy. apply H. right. exact Hy.
Qed.

(** A successful insert: the store was reachable, the key was new, and
    one row holding the record was appended. *)
Lemma insert_ok (w : World) (st st' : Store) (record : ProfileRecord)
  (data : list Row) :
  Supabase.insert w st record = (Ok data, st') ->
  online st = true /\
  (forall r, In r (rows st) ->
     website_url (columns r) <> website_url record) /\
  exists row,
    data = [row] /\ columns row = record /\
    st' = mkStore (rows st ++ [row]) true.
Proof.
  unfold Supabase.insert.
  destruct (online st) eqn:Hon; [| discriminate]. cbn [negb].
  destruct (existsb _ (rows st)) eqn:Hex; [discriminate |].
  destruct (negb (accepts w record)); [discriminate |].
  intros H. injection H as <- <-.
  split; [reflexivity |]. split.
  - intros r Hin Heq.
    assert (Ht : existsb
                   (fun r => String.eqb (website_url (columns r))
                               (website_url record)) (rows st) = true).
    { apply existsb_exists. exists r. split; [exact Hin |].
      apply String.eqb_eq. exact Heq. }
    rewrite Ht in Hex. discriminate.
  - eexists. repeat split.
Qed.

(** A successful save. *)
Lemma save_ok (w : World) (st st' : Store) (profile_data : dict)
  (sv : saved) :
  save_company_profile w st profile_data = (Ok sv, st') ->
  exists row key,
    sv = SavedRow row /\
    normalized_key profile_data = Ok key /\
    website_url (columns row) = key /\
    online st = true /\
    (forall r, In r (rows st) -> website_url (columns r) <> key) /\
    st' = mkStore (rows st ++ [row]) true.
Proof.
  unfold save_company_profile.
  destruct (normalized_key profile_data) as [key | e]; [| discriminate].
  match goal with
  | |- context [Supabase.insert w st ?r] =>
      destruct (Supabase.insert w st r) as [[data | e] st1] eqn:E;
        [| discriminate];
        destruct (insert_ok w st st1 r data E) as [Hon [Hfresh [row [-> [Hc ->]]]]]
  end.
  intros H. injection H as <- <-.
  exists row, key. rewrite Hc.
  split; [reflexivity |]. split; [reflexivity |]. split; [reflexivity |].
  split; [exact Hon |]. split; [exact Hfresh | reflexivity].
Qed.

(** The lookups on a store that has just taken one more row. *)
Lemma lookups_after_append (st : Store) (row : Row) (u key : string) :
  _normalize_url u = Ok key ->
  (forall r, In r (rows st) ->
     website_url (columns r) <> website_url (columns row)) ->
  let st' := mkStore (rows st ++ [row]) true in
  (website_url (columns row) = key ->
   check_company_exists st' u = true /\
   get_company_profile st' u = Some row) /\
  (website_url (columns row) <> key -> online st = true ->
   check_company_exists st' u = check_company_exists st u /\
   get_company_profile st' u = get_company_profile st u).
Proof.
  intros Hn Hfresh st'.
  destruct (lookups_by_key st' u key Hn eq_refl) as [Hc Hg].
  cbv zeta in Hc, Hg. unfold st' in Hc at 2, Hg at 2.
  cbn [rows] in Hc, Hg.
  rewrite filter_app in Hc, Hg. cbn [filter] in Hc, Hg.
  split.
  - intros Hk.
    rewrite filter_no_match in Hc, Hg.
    + apply String.eqb_eq in Hk. rewrite Hk in Hc, Hg.
      split; assumption.
    + intros r Hr. apply String.eqb_neq. rewrite <- Hk.
      apply Hfresh. exact Hr.
    + intros r Hr. apply String.eqb_neq. rewrite <- Hk.
      apply Hfresh. exact Hr.
  - intros Hk Hon.
    apply String.eqb_neq in Hk. rewrite Hk in Hc, Hg.
    rewrite app_nil_r in Hc, Hg.
    destruct (lookups_by_key st u key Hn Hon) as [Hc0 Hg0].
    cbv zeta in Hc0, Hg0. rewrite Hc, Hg, Hc0, Hg0. split; reflexivity.
Qed.

(** The existence check answers [True] exactly when the store is
    reachable, the URL has a key, and a row is stored under that key. *)
Lemma check_exists_iff (st : Store) (u : string) :
  check_company_exists st u = true <->
  online st = true /\
  exists key row,
    _normalize_url u = Ok key /\
    In row (rows st) /\ website_url (columns row) = key.
Proof.
  destruct (online st) eqn:Hon.
  2: { destruct (lookups_unreachable st u Hon) as [-> _].
       split; [discriminate | intros [H _]; discriminate]. }
  destruct (_normalize_url u) as [key | e] eqn:Hn.
  2: { destruct (lookups_no_key st u e Hn) as [-> _].
       split; [discriminate |].
       intros [_ [key [row [H _]]]]. discriminate. }
  destruct (lookups_by_key st u key Hn Hon) as [-> _].
  remember (filter (fun r => String.eqb (website_url (columns r)) key)
              (rows st)) as found eqn:Ef.
  assert (Hin : forall r, In r found <->
                  In r (rows st) /\ website_url (columns r) = key).
  { intros r. rewrite Ef, filter_In, String.eqb_eq. reflexivity. }
  destruct found as [| r0 rest]; cbn [length Nat.eqb negb].
  - split; [discriminate |].
    intros [_ [key' [row [Hk [Hr Hw]]]]]. injection Hk as <-.
    destruct (proj2 (Hin row) (conj Hr Hw)).
  - split; [| reflexivity].
    intros _. split; [reflexivity |]. exists key, r0.
    destruct (proj1 (Hin r0) (or_introl eq_refl)) as [H1 H2].
    split; [reflexivity | split; assumption].
Qed.

End StoreLookups.

(** C1.  The operations of the profile store key on the normalized URL.
    Saving a profile whose URL is [raw] either persists nothing (the
    call re-raises and the table is unchanged) or appends exactly one row,
    and the [website_url] of that row is [normalize(raw)]; the save does
    succeed when [normalize(raw)] is defined and new to a reachable store
    that accepts the record.  The existence check answers [True] exactly
    when the store is reachable and holds a row whose [website_url] is
    [normalize(u)].  So two raw URLs with the same normalized form get the
    same answer from the existence check (and from the lookup) on every
    store; and after a successful save of [raw], every URL whose
    normalized form is [normalize(raw)] is found by the existence check,
    and the lookup returns the saved row: they collide on
    deduplication. *)
Theorem C1_store_keys_on_normalized_url :
  forall (w : World) (st : Store) (profile_data : dict) (raw : string),
    Dict.get profile_data "website_url" = Some (VStr raw) ->
    ((exists e,
         SupabaseManager.save_company_profile w st profile_data
           = (Raise e, st))
     \/
     (exists row,
         SupabaseManager.save_company_profile w st profile_data
           = (Ok (SavedRow row), mkStore (rows st ++ [row]) (online st)) /\
         SupabaseManager._normalize_url raw
           = Ok (website_url (columns row))))
    /\
    (forall key,
        SupabaseManager._normalize_url raw = Ok key ->
        online st = true ->
        (forall r, In r (rows st) -> website_url (columns r) <> key) ->
        (forall record, accepts w record = true) ->
        exists row,
          SupabaseManager.save_company_profile w st profile_data
            = (Ok (SavedRow row), mkStore (rows st ++ [row]) (online st)) /\
          website_url (columns row) = key)
    /\
    (forall (any : Store) (u : string),
        SupabaseManager.check_company_exists any u = true <->
        online any = true /\
        exists row,
          In row (rows any) /\
          SupabaseManager._normalize_url u
            = Ok (website_url (columns row)))
    /\
    (forall (any : Store) (u1 u2 : string),
        SupabaseManager._normalize_url u1 = SupabaseManager._normalize_url u2 ->
        SupabaseManager.check_company_exists any u1
          = SupabaseManager.check_company_exists any u2 /\
        SupabaseManager.get_company_profile any u1
          = SupabaseManager.get_company_profile any u2)
    /\
    (forall (row : Row) (st' : Store),
        SupabaseManager.save_company_profile w st profile_data
          = (Ok (SavedRow row), st') ->
        forall u : string,
          SupabaseManager._normalize_url u
            = SupabaseManager._normalize_url raw ->
          SupabaseManager.check_company_exists st' u = true /\
          SupabaseManager.get_company_profile st' u = Some row).
Proof.
  intros w st pd raw Hget.
  assert (Hkey : SupabaseManager.normalized_key pd
                 = SupabaseManager._normalize_url raw).
  { unfold SupabaseManager.normalized_key. rewrite Hget. reflexivity. }
  split; [| split; [| split; [| split]]].
  - destruct (save_cases w st pd) as [H | [row [key [E [Hk Hu]]]]].
    + left. exact H.
    + right. exists row. split; [exact E |].
      rewrite <- Hkey, Hk, Hu. reflexivity.
  - intros key Hn. apply save_succeeds. rewrite Hkey. exact Hn.
  - intros any u. rewrite check_exists_iff. split.
    + intros [Hon [key [row [Hn [Hin Hw]]]]].
      split; [exact Hon |]. exists row. split; [exact Hin |].
      rewrite Hw. exact Hn.
    + intros [Hon [row [Hin Hn]]].
      split; [exact Hon |].
      exists (website_url (columns row)), row.
      split; [exact Hn | split; [exact Hin | reflexivity]].
  - intros any u1 u2 E.
    unfold SupabaseManager.check_company_exists,
      SupabaseManager.get_company_profile.
    rewrite E. split; reflexivity.
  - intros row st' Hsave u Hu.
    destruct (save_ok w st st' pd _ Hsave)
      as [row' [key [Hsv [Hk [Hw [_ [Hfresh ->]]]]]]].
    injection Hsv as <-.
    rewrite Hkey in Hk. rewrite Hk in Hu. rewrite <- Hw in Hfresh.
    exact (proj1 (lookups_after_append st row u key Hu Hfresh) Hw).
Qed.

Lemma C1_witness :
  exists row,
    SupabaseManager.save_company_profile Samples.world Samples.empty_store
      [("website_url", VStr "HTTP://WWW.Example.com/Path/")]
      = (Ok (SavedRow row), mkStore [row] true) /\
    website_url (columns row) = "https://example.com/path" /\
    SupabaseManager.check_company_exists (mkStore [row] true)
      "https://EXAMPLE.com/path/" = true /\
    SupabaseManager.get_company_profile (mkStore [row] true)
      "https://EXAMPLE.com/path/" = Some row.
Proof.
  destruct (C1_store_keys_on_normalized_url
              Samples.world Samples.empty_store
              [("website_url", VStr "HTTP://WWW.Example.com/Path/")]
              "HTTP://WWW.Example.com/Path/" eq_refl)
    as [_ [Hsave [_ [_ Hfound]]]].
  destruct (Hsave "https://example.com/path") as [row [E K]].
  - vm_compute. reflexivity.
  - reflexivity.
  - intros r [].
  - reflexivity.
  - exists row. split; [exact E |]. split; [exact K |].
    apply (Hfound row _ E "https://EXAMPLE.com/path/").
    vm_compute. reflexivity.
Defined.

(* ================================================================== *)
(** * Properties: the profiling pipeline                                *)
(* ================================================================== *)

Section Pipeline.
Import StartupProfilerAgent.

(** A [step] that raises ends the run. *)
Lemma bindM_raise {A B : Type} (m : M A) (k : A -> M B) (st st1 : Store)
  (e : exn) (calls1 : list call) :
  m st = (Raise e, st1, calls1) ->
  bindM m k st = (Raise e, st1, calls1).
Proof.
  intros E. unfold bindM. rewrite E. reflexivity.
Qed.

(** The run when the URL does not parse as written: nothing is called. *)
Lemma run_name_fails (w : World) (st : Store) (url : string) (e : exn) :
  _extract_company_name w url = Raise e ->
  profile_company w st url =
    ({| status := "error"; message_of := StrOf e; data_of := DataNone |},
     st, []).
Proof.
  intros E. unfold profile_company, profile_company_body.
  rewrite (bindM_raise _ _ st st e []); [reflexivity |].
  unfold lift. rewrite E. reflexivity.
Qed.

(** The run when the existence check answers [True]. *)
Lemma run_exists (w : World) (st : Store) (url name : string) :
  _extract_company_name w url = Ok name ->
  SupabaseManager.check_company_exists st url = true ->
  profile_company w st url =
    ({| status := "exists";
        message_of := Fixed "Company profile already exists in database";
        data_of := match SupabaseManager.get_company_profile st url with
                   | Some r => DataRow r
                   | None => DataNone
                   end |},
     st, [CallCheckExists url; CallGetProfile url]).
Proof.
  intros En Ex. unfold profile_company, profile_company_body.
  unfold bindM, lift, check_company_exists, get_company_profile, ret.
  rewrite En, Ex. simpl. reflexivity.
Qed.

(** The run when the existence check answers [False] and the scraper
    raises. *)
Lemma run_scrape_fails (w : World) (st : Store) (url name : string)
  (e : exn) :
  _extract_company_name w url = Ok name ->
  SupabaseManager.check_company_exists st url = false ->
  WebScraper.scrape_website w url = Raise e ->
  profile_company w st url =
    ({| status := "error"; message_of := StrOf e; data_of := DataNone |},
     st, [CallCheckExists url; CallScrape url]).
Proof.
  intros En Ex Es. unfold profile_company, profile_company_body.
  unfold bindM, lift, check_company_exists, scrape_website.
  rewrite En, Ex, Es. simpl. reflexivity.
Qed.

(** Every run leaves the store as it was, unless it ends with status
    "success". *)
Lemma run_store (w : World) (st : Store) (url : string) :
  snd (fst (profile_company w st url)) = st \/
  status (fst (fst (profile_company w st url))) = "success".
Proof.
  unfold profile_company, profile_company_body.
  unfold bindM, lift, check_company_exists, get_company_profile, ret,
    scrape_website, fetch_company_news, analyze_company,
    save_company_profile.
  destruct (_extract_company_name w url) as [name | e]; [| left; reflexivity].
  destruct (SupabaseManager.check_company_exists st url);
    [left; reflexivity |].
  destruct (WebScraper.scrape_website w url) as [sd | e];
    [| left; reflexivity].
  destruct (GeminiAnalyzer.analyze_company w sd _) as [analysis | e];
    [| left; reflexivity].
  destruct (as_mapping analysis) as [items | e]; [| left; reflexivity].
  match goal with
  | |- context [SupabaseManager.save_company_profile w st ?pd] =>
      destruct (save_cases w st pd) as [[e E] | [row [key [E _]]]];
        rewrite E
  end.
  - left. reflexivity.
  - right. reflexivity.
Qed.

End Pipeline.

(** C7.  In a run whose page fetch raises [e] (the run did call the
    scraper), [profile_company] returns status "error" with the text of
    [e] as message and no data, and the store is left as it was.  More
    generally, every run that ends with status "error", on any URL, leaves
    the store as it was. *)
Theorem C7_fetch_error_is_reported_and_nothing_is_stored :
  forall (w : World) (st : Store) (url : string) (e : exn),
    fetch_page w url = Raise e ->
    In (CallScrape url)
       (snd (StartupProfilerAgent.profile_company w st url)) ->
    fst (fst (StartupProfilerAgent.profile_company w st url))
      = {| status := "error"; message_of := StrOf e; data_of := DataNone |}
    /\
    snd (fst (StartupProfilerAgent.profile_company w st url)) = st
    /\
    (forall any_url,
        status (fst (fst (StartupProfilerAgent.profile_company w st any_url)))
          = "error" ->
        snd (fst (StartupProfilerAgent.profile_company w st any_url)) = st).
Proof.
  intros w st url e Hfetch Hcalled.
  assert (Hscrape : WebScraper.scrape_website w url = Raise e).
  { unfold WebScraper.scrape_website. rewrite Hfetch. reflexivity. }
  split; [| split].
  - destruct (StartupProfilerAgent._extract_company_name w url)
      as [name | e0] eqn:En.
    + destruct (SupabaseManager.check_company_exists st url) eqn:Ex.
      * rewrite (run_exists w st url name En Ex) in Hcalled.
        simpl in Hcalled.
        destruct Hcalled as [H | [H | []]]; discriminate.
      * rewrite (run_scrape_fails w st url name e En Ex Hscrape).
        reflexivity.
    + rewrite (run_name_fails w st url e0 En) in Hcalled.
      destruct Hcalled.
  - destruct (StartupProfilerAgent._extract_company_name w url)
      as [name | e0] eqn:En.
    + destruct (SupabaseManager.check_company_exists st url) eqn:Ex.
      * rewrite (run_exists w st url name En Ex). reflexivity.
      * rewrite (run_scrape_fails w st url name e En Ex Hscrape).
        reflexivity.
    + rewrite (run_name_fails w st url e0 En). reflexivity.
  - intros any_url Herr.
    destruct (run_store w st any_url) as [H | H]; [exact H |].
    rewrite H in Herr. discriminate.
Qed.

Lemma C7_witness :
  fst (fst (StartupProfilerAgent.profile_company
              Samples.offline_world Samples.empty_store
              "https://example.com"))
    = {| status := "error";
         message_of := StrOf (BackendError "connection refused");
         data_of := DataNone |}
  /\
  snd (fst (StartupProfilerAgent.profile_company
              Samples.offline_world Samples.empty_store
              "https://example.com"))
    = Samples.empty_store.
Proof.
  destruct (C7_fetch_error_is_reported_and_nothing_is_stored
              Samples.offline_world Samples.empty_store
              "https://example.com" (BackendError "connection refused"))
    as [H1 [H2 _]].
  - reflexivity.
  - vm_compute. right. left. reflexivity.
  - split; assumption.
Defined.

(** C8, as stated, fails: the key [https://[v1.x]] is stored and the
    existence check on [http://[V1.x]] answers [True], but the run on that
    URL ends with status "error" (the company name is derived first, from
    the URL as written, and [urlparse] rejects the upper-case IPvFuture
    literal). *)
Lemma C8_counterexample :
  let st := Samples.store_with "https://[v1.x]" in
  let url := "http://[V1.x]" in
  SupabaseManager._normalize_url url = Ok "https://[v1.x]" /\
  SupabaseManager.check_company_exists st url = true /\
  StartupProfilerAgent.profile_company Samples.world st url =
    ({| status := "error";
        message_of := StrOf (ValueError "V1.x");
        data_of := DataNone |}, st, []).
Proof.
  vm_compute. repeat split.
Qed.

(** C8, amended.  For every URL that [urlparse] accepts as written and for
    which the existence check answers [True], [profile_company] returns
    status "exists" with the stored profile (the first row whose key is the
    normalized URL) as data; the only calls of the run are the existence
    check and the lookup, so the scraper, the news fetcher and the insight
    generator are not invoked and nothing is saved; the store is
    unchanged. *)
Theorem C8_existing_profile_short_circuits :
  forall (w : World) (st : Store) (url : string),
    is_ok (urllib_parse.urlparse url) = true ->
    SupabaseManager.check_company_exists st url = true ->
    exists row,
      In row (rows st) /\
      SupabaseManager._normalize_url url = Ok (website_url (columns row)) /\
      SupabaseManager.get_company_profile st url = Some row /\
      StartupProfilerAgent.profile_company w st url =
        ({| status := "exists";
            message_of := Fixed "Company profile already exists in database";
            data_of := DataRow row |},
         st, [CallCheckExists url; CallGetProfile url]).
Proof.
  intros w st url Hparse Hex.
  assert (Hname : exists name,
             StartupProfilerAgent._extract_company_name w url = Ok name).
  { unfold StartupProfilerAgent._extract_company_name.
    destruct (urllib_parse.urlparse url) as [p | e]; [| discriminate].
    simpl. destruct (_ <? _)%nat; eauto. }
  destruct Hname as [name Hname].
  assert (Hrow : exists row key,
             SupabaseManager._normalize_url url = Ok key /\
             SupabaseManager.get_company_profile st url = Some row /\
             In row (rows st) /\ website_url (columns row) = key).
  { unfold SupabaseManager.check_company_exists in Hex.
    unfold SupabaseManager.get_company_profile.
    destruct (SupabaseManager._normalize_url url) as [key | e];
      [| discriminate].
    simpl in *.
    destruct (Supabase.select_eq st key) as [data | e] eqn:Hsel;
      [| discriminate].
    destruct data as [| row rest]; [discriminate |].
    exists row, key. repeat split.
    - apply (select_eq_sound st key _ Hsel). left. reflexivity.
    - apply (select_eq_sound st key _ Hsel). left. reflexivity. }
  destruct Hrow as [row [key [Hn [Hg [Hin Hk]]]]].
  exists row. repeat split.
  - exact Hin.
  - rewrite Hn, Hk. reflexivity.
  - exact Hg.
  - rewrite (run_exists w st url name Hname Hex), Hg. reflexivity.
Qed.

Lemma C8_witness :
  exists row,
    In row (rows (Samples.store_with "https://example.com")) /\
    SupabaseManager._normalize_url "HTTP://WWW.Example.com/"
      = Ok (website_url (columns row)) /\
    SupabaseManager.get_company_profile
      (Samples.store_with "https://example.com") "HTTP://WWW.Example.com/"
      = Some row /\
    StartupProfilerAgent.profile_company Samples.world
      (Samples.store_with "https://example.com") "HTTP://WWW.Example.com/" =
      ({| status := "exists";
          message_of := Fixed "Company profile already exists in database";
          data_of := DataRow row |},
       Samples.store_with "https://example.com",
       [CallCheckExists "HTTP://WWW.Example.com/";
        CallGetProfile "HTTP://WWW.Example.com/"]).
Proof.
  apply (C8_existing_profile_short_circuits Samples.world
           (Samples.store_with "https://example.com")
           "HTTP://WWW.Example.com/").
  - vm_compute. reflexivity.
  - vm_compute. reflexivity.
Defined.

(* ================================================================== *)
(** * Properties: the page scraper                                      *)
(* ================================================================== *)

Section Scraper.
Import PyStr urllib_parse WebScraper.

Lemma in_firstn {A : Type} (x : A) (n : nat) (l : list A) :
  In x (firstn n l) -> In x l.
Proof.
  revert n. induction l as [| y l IH]; intros [| n]; simpl; try tauto.
  intros [H | H]; [left; assumption | right; exact (IH n H)].
Qed.

Lemma NoDup_firstn {A : Type} (n : nat) (l : list A) :
  NoDup l -> NoDup (firstn n l).
Proof.
  revert n. induction l as [| y l IH]; intros [| n] H; simpl;
    try constructor.
  - intros Hin. apply in_firstn in Hin.
    apply NoDup_cons_iff in H. tauto.
  - apply IH. apply NoDup_cons_iff in H. tauto.
Qed.

Lemma take_length (n : nat) (s : string) :
  (String.length (take n s) <= n)%nat.
Proof.
  revert s. induction n as [| n IH]; intros [| c s]; simpl; try lia.
  specialize (IH s). lia.
Qed.

Lemma clip_bound (s : string) (b : Z) :
  0 <= b -> (clip s b <= Z.to_nat b)%nat.
Proof.
  intros Hb. unfold clip.
  destruct (b <? 0) eqn:E; [apply Z.ltb_lt in E; lia | lia].
Qed.

(** One entry per element: the elements found are as many as the elements
    counted. *)
Lemma find_all_in_count (name : string) :
  forall n : node,
    length (bs4.find_all_in (bs4.named name) n) = bs4.count_in name n.
Proof.
  fix IH 1. intros [s | name' attrs children].
  - reflexivity.
  - simpl. rewrite length_app. f_equal.
    + unfold bs4.named. destruct (String.eqb name' name); reflexivity.
    + induction children as [| c cs IHcs]; simpl.
      * reflexivity.
      * rewrite length_app, IH, IHcs. reflexivity.
Qed.

Lemma find_all_count (name : string) (doc : soup) :
  length (bs4.find_all (bs4.named name) doc) = bs4.count name doc.
Proof.
  unfold bs4.find_all, bs4.count.
  induction doc as [| c cs IH]; simpl.
  - reflexivity.
  - rewrite length_app, find_all_in_count, IH. reflexivity.
Qed.

(** The loop keeps exactly the resolved links whose netloc is not the
    page's. *)
Lemma outbound_sound (w : World) (base_url base_domain : string)
  (hrefs links : list string) :
  outbound w base_url base_domain hrefs = Ok links ->
  forall link, In link links ->
    exists href parsed,
      In href hrefs /\ urljoin w base_url href = Ok link /\
      urlparse link = Ok parsed /\ netloc parsed <> base_domain.
Proof.
  revert links. induction hrefs as [| href rest IH]; simpl; intros links H.
  - injection H as <-. intros link [].
  - destruct (urljoin w base_url href) as [a | e] eqn:Ej; [| discriminate].
    simpl in H.
    destruct (urlparse a) as [p | e] eqn:Ep; [| discriminate].
    simpl in H.
    destruct (outbound w base_url base_domain rest) as [tail | e];
      [| discriminate].
    simpl in H. injection H as <-.
    intros link Hin.
    destruct (String.eqb (netloc p) base_domain) eqn:Ed; simpl in Hin.
    + destruct (IH tail eq_refl link Hin) as [h [q [H1 H2]]].
      exists h, q. tauto.
    + destruct Hin as [<- | Hin].
      * exists href, p. apply String.eqb_neq in Ed. tauto.
      * destruct (IH tail eq_refl link Hin) as [h [q [H1 H2]]].
        exists h, q. tauto.
Qed.

Lemma outbound_complete (w : World) (base_url base_domain : string)
  (hrefs links : list string) :
  outbound w base_url base_domain hrefs = Ok links ->
  forall href link parsed,
    In href hrefs -> urljoin w base_url href = Ok link ->
    urlparse link = Ok parsed -> netloc parsed <> base_domain ->
    In link links.
Proof.
  revert links. induction hrefs as [| h rest IH]; simpl; intros links H.
  - intros href link parsed [].
  - destruct (urljoin w base_url h) as [a | e] eqn:Ej; [| discriminate].
    simpl in H.
    destruct (urlparse a) as [p | e] eqn:Ep; [| discriminate].
    simpl in H.
    destruct (outbound w base_url base_domain rest) as [tail | e];
      [| discriminate].
    simpl in H. injection H as <-.
    intros href link parsed [<- | Hin] Hj Hp Hd.
    + rewrite Ej in Hj. injection Hj as <-.
      rewrite Ep in Hp. injection Hp as <-.
      apply String.eqb_neq in Hd. rewrite Hd. left. reflexivity.
    + specialize (IH tail eq_refl href link parsed Hin Hj Hp Hd).
      destruct (negb _); [right |]; assumption.
Qed.

Lemma outbound_total (w : World) (base_url base_domain : string)
  (hrefs : list string) :
  (forall href, In href hrefs ->
     exists link parsed,
       urljoin w base_url href = Ok link /\ urlparse link = Ok parsed) ->
  exists links, outbound w base_url base_domain hrefs = Ok links.
Proof.
  induction hrefs as [| h rest IH]; simpl; intros H.
  - eauto.
  - destruct (H h (or_introl eq_refl)) as [a [p [Ej Ep]]].
    rewrite Ej. simpl. rewrite Ep. simpl.
    destruct IH as [tail Et]; [intros; apply H; right; assumption |].
    rewrite Et. simpl. eauto.
Qed.

End Scraper.

(** C9, as stated, fails on the host test: the page [https://example.com]
    links to [https://example.com:8080/admin], which is on the page's own
    host ([hostname] is [example.com] for both), yet the link is kept as
    an outbound link, because the code compares the netloc, and
    [example.com:8080] is not [example.com]. *)
Lemma C9_counterexample :
  let w := Samples.world_with (Ok Samples.admin_page) [] in
  let page := "https://example.com" in
  let link := "https://example.com:8080/admin" in
  match WebScraper.scrape_website w page with
  | Ok out => sd_outbound_links out = [link]
  | Raise _ => False
  end /\
  urljoin w page link = Ok link /\
  match urllib_parse.urlparse page, urllib_parse.urlparse link with
  | Ok p, Ok l =>
      urllib_parse.hostname p = Some "example.com" /\
      urllib_parse.hostname l = Some "example.com" /\
      urllib_parse.netloc p = "example.com" /\
      urllib_parse.netloc l = "example.com:8080"
  | _, _ => False
  end.
Proof.
  vm_compute. repeat split.
Qed.

(** C9, amended.  Let the page at [url] be fetched as the document [doc],
    and let [list(set(xs))] list the distinct members of [xs] once each.
    Then whenever the scraper returns an output: [h1_tags] holds the
    trimmed text of each [h1] element in document order, one entry per
    element; every outbound link is a resolved anchor whose netloc (the
    authority part [urlparse] reports: user information, host and port as
    written) differs from the page's own netloc, no link occurs twice,
    there are at most 20 of them, and when at most 20 distinct ones exist
    every resolved anchor with a different netloc is among them; the
    content holds at most 5000 characters.  The scraper does return an
    output when the page URL parses and every anchor resolves to a URL
    that parses. *)
Theorem C9_scraper_output_shape :
  forall (w : World) (url : string) (doc : soup),
    fetch_page w url = Ok doc ->
    (forall xs, NoDup (list_of_set w xs) /\
                forall x, In x (list_of_set w xs) <-> In x xs) ->
    (forall out,
        WebScraper.scrape_website w url = Ok out ->
        sd_h1_tags out
          = map (fun h1 => PyStr.strip (bs4.text h1))
                (bs4.find_all (bs4.named "h1") doc) /\
        length (sd_h1_tags out) = bs4.count "h1" doc /\
        (forall link, In link (sd_outbound_links out) ->
           exists href parsed base,
             In href (WebScraper.anchors doc) /\
             urljoin w url href = Ok link /\
             urllib_parse.urlparse link = Ok parsed /\
             urllib_parse.urlparse url = Ok base /\
             urllib_parse.netloc parsed <> urllib_parse.netloc base) /\
        NoDup (sd_outbound_links out) /\
        (length (sd_outbound_links out) <= 20)%nat /\
        (forall links,
           WebScraper._extract_outbound_links w doc url = Ok links ->
           (length links <= 20)%nat ->
           forall href link parsed base,
             In href (WebScraper.anchors doc) ->
             urljoin w url href = Ok link ->
             urllib_parse.urlparse link = Ok parsed ->
             urllib_parse.urlparse url = Ok base ->
             urllib_parse.netloc parsed <> urllib_parse.netloc base ->
             In link (sd_outbound_links out)) /\
        (String.length (sd_content out) <= 5000)%nat)
    /\
    (is_ok (urllib_parse.urlparse url) = true ->
     (forall href, In href (WebScraper.anchors doc) ->
        exists link parsed,
          urljoin w url href = Ok link /\
          urllib_parse.urlparse link = Ok parsed) ->
     exists out, WebScraper.scrape_website w url = Ok out).
Proof.
  intros w url doc Hfetch Hset. split.
  - intros out Hout.
    unfold WebScraper.scrape_website in Hout. rewrite Hfetch in Hout.
    simpl in Hout.
    destruct (WebScraper._extract_outbound_links w doc url)
      as [links | e] eqn:El; [| discriminate].
    simpl in Hout. injection Hout as <-. simpl.
    unfold WebScraper._extract_outbound_links in El.
    destruct (urllib_parse.urlparse url) as [base | e] eqn:Eb;
      [| discriminate].
    simpl in El.
    destruct (WebScraper.outbound w url (urllib_parse.netloc base)
                (WebScraper.anchors doc)) as [raw | e] eqn:Eo;
      [| discriminate].
    simpl in El. injection El as <-.
    destruct (Hset raw) as [Hnd Hin].
    rewrite (list_slice_to_pos _ 20) by lia.
    repeat split.
    + rewrite length_map. apply find_all_count.
    + intros link Hl. apply in_firstn in Hl. apply Hin in Hl.
      destruct (outbound_sound w url _ _ raw Eo link Hl)
        as [href [parsed [H1 [H2 [H3 H4]]]]].
      exists href, parsed, base. tauto.
    + apply NoDup_firstn. exact Hnd.
    + rewrite length_firstn. lia.
    + intros links El Hlen href link parsed base' Hh Hj Hp Hb Hd.
      injection El as <-. injection Hb as <-.
      rewrite firstn_all2 by exact Hlen.
      apply Hin.
      exact (outbound_complete w url _ _ raw Eo href link parsed Hh Hj Hp Hd).
    + unfold PyStr.slice_to.
      pose proof (take_length (PyStr.clip (WebScraper._extract_content doc) 5000)
                    (WebScraper._extract_content doc)).
      pose proof (clip_bound (WebScraper._extract_content doc) 5000).
      lia.
  - intros Hbase Hres.
    unfold WebScraper.scrape_website. rewrite Hfetch. simpl.
    unfold WebScraper._extract_outbound_links.
    destruct (urllib_parse.urlparse url) as [base | e]; [| discriminate].
    simpl.
    destruct (outbound_total w url (urllib_parse.netloc base)
                (WebScraper.anchors doc) Hres) as [raw Eo].
    rewrite Eo. simpl. eauto.
Qed.

Lemma C9_witness :
  exists out,
    WebScraper.scrape_website Samples.world "https://example.com" = Ok out /\
    length (sd_h1_tags out) = 3%nat /\
    NoDup (sd_outbound_links out) /\
    (length (sd_outbound_links out) <= 20)%nat /\
    ~ In "https://example.com/about" (sd_outbound_links out) /\
    (String.length (sd_content out) <= 5000)%nat.
Proof.
  destruct (C9_scraper_output_shape Samples.world "https://example.com"
              Samples.landing_page) as [Hshape Htotal].
  - reflexivity.
  - intros xs. split.
    + apply NoDup_nodup.
    + intros x. apply nodup_In.
  - destruct Htotal as [out Hout].
    + vm_compute. reflexivity.
    + intros href Hin. clear Hshape. vm_compute in Hin.
      destruct Hin as [E | [E | [E | []]]]; rewrite <- E; clear E;
        [ exists "https://partner.org/deal"
        | exists "https://example.com/about"
        | exists "https://news.net/story" ];
        (eexists; split; [reflexivity | vm_compute; reflexivity]).
    + exists out. split; [exact Hout |].
      destruct (Hshape out Hout) as [_ [Hh1 [Honly [Hnd [Hlen [_ Hc]]]]]].
      repeat split; try assumption.
      intros Hin. destruct (Honly _ Hin)
        as [href [parsed [base [_ [_ [Hp [Hb Hd]]]]]]].
      vm_compute in Hp. vm_compute in Hb.
      injection Hp as <-. injection Hb as <-.
      apply Hd. reflexivity.
Defined.

(* ================================================================== *)
(** * Properties: strings                                               *)
(* ================================================================== *)

Section StringFacts.
Import PyStr Parts.

Lemma append_nil_r (s : string) : s ++ "" = s.
Proof. induction s as [| c s IH]; simpl; [| rewrite IH]; reflexivity. Qed.


Lemma length_append (a b : string) :
  String.length (a ++ b) = (String.length a + String.length b)%nat.
Proof. induction a as [| x a IH]; simpl; [| rewrite IH]; reflexivity. Qed.




Lemma drop_add (n m : nat) (s : string) : drop (n + m) s = drop m (drop n s).
Proof.
  revert s. induction n as [| n IH]; intros s; simpl.
  - reflexivity.
  - destruct s as [| c s]; [destruct m; reflexivity | apply IH].
Qed.

Lemma clip_nat (s : string) (n : nat) :
  (n <= String.length s)%nat -> clip s (Z.of_nat n) = n.
Proof.
  intros H. unfold clip, len.
  destruct (Z.of_nat n <? 0) eqn:E; [apply Z.ltb_lt in E |]; lia.
Qed.

(** ** One-character needles *)

Lemma startswith_char (s : string) (c : ascii) :
  startswith s (String c "") =
    match s with
    | "" => false
    | String x _ => Ascii.eqb c x
    end.
Proof.
  destruct s as [| x r]; simpl; [reflexivity |].
  destruct (Ascii.eqb c x); simpl; [destruct r |]; reflexivity.
Qed.

Lemma contains_char (s : string) (c : ascii) :
  contains s (String c "") = mem_char c s.
Proof.
  induction s as [| x r IH].
  - reflexivity.
  - cbn [contains mem_char]. rewrite startswith_char, IH. reflexivity.
Qed.

Lemma before_absent (c : ascii) (s : string) :
  mem_char c s = false -> before c s = s.
Proof.
  induction s as [| x r IH]; simpl; [reflexivity |].
  destruct (Ascii.eqb c x); simpl; [discriminate |].
  intros H. rewrite IH by assumption. reflexivity.
Qed.

Lemma after_absent (c : ascii) (s : string) :
  mem_char c s = false -> after c s = "".
Proof.
  induction s as [| x r IH]; simpl; [reflexivity |].
  destruct (Ascii.eqb c x); simpl; [discriminate | assumption].
Qed.

Lemma mem_before (c : ascii) (s : string) : mem_char c (before c s) = false.
Proof.
  induction s as [| x r IH]; simpl; [reflexivity |].
  destruct (Ascii.eqb c x) eqn:E; simpl; [reflexivity |].
  rewrite E. assumption.
Qed.

Lemma before_after (c : ascii) (s : string) :
  mem_char c s = true -> s = before c s ++ String c (after c s).
Proof.
  induction s as [| x r IH]; simpl; [discriminate |].
  destruct (Ascii.eqb c x) eqn:E; simpl.
  - intros _. apply Ascii.eqb_eq in E. subst. reflexivity.
  - intros H. rewrite <- IH by assumption. reflexivity.
Qed.

Lemma length_before (c : ascii) (s : string) :
  (String.length (before c s) <= String.length s)%nat.
Proof.
  induction s as [| x r IH]; simpl; [lia |].
  destruct (Ascii.eqb c x); simpl; lia.
Qed.

Lemma take_before (c : ascii) (s : string) :
  take (String.length (before c s)) s = before c s.
Proof.
  induction s as [| x r IH]; simpl; [reflexivity |].
  destruct (Ascii.eqb c x); simpl; [| rewrite IH]; reflexivity.
Qed.

Lemma drop_before (c : ascii) (s : string) :
  mem_char c s = true ->
  drop (S (String.length (before c s))) s = after c s.
Proof.
  induction s as [| x r IH]; simpl; [discriminate |].
  destruct (Ascii.eqb c x); simpl.
  - reflexivity.
  - intros H. destruct r; [discriminate | apply IH; assumption].
Qed.

Lemma find_at_char (s : string) (c : ascii) (start pos : nat) :
  (start <= pos)%nat ->
  find_at s (String c "") start pos =
    if mem_char c s then Z.of_nat (pos + String.length (before c s)) else -1.
Proof.
  revert pos. induction s as [| x r IH]; intros pos H.
  - simpl. rewrite andb_false_r. reflexivity.
  - cbn [find_at mem_char before]. rewrite startswith_char.
    assert (E : (start <=? pos)%nat = true) by (apply Nat.leb_le; lia).
    rewrite E. simpl andb.
    destruct (Ascii.eqb c x); simpl.
    + f_equal. lia.
    + rewrite IH by lia. destruct (mem_char c r); [f_equal; lia | reflexivity].
Qed.

Lemma find_char (s : string) (c : ascii) :
  find s (String c "") =
    if mem_char c s then len (before c s) else -1.
Proof.
  unfold find, find_from.
  assert (E : (len s <? 0) = false) by (apply Z.ltb_ge; unfold len; lia).
  rewrite E. change 0 with (Z.of_nat 0) at 1. rewrite clip_nat by lia.
  rewrite find_at_char by lia. reflexivity.
Qed.

Lemma slice_to_before (c : ascii) (s : string) :
  slice_to s (len (before c s)) = before c s.
Proof.
  unfold slice_to, len. rewrite clip_nat by apply length_before.
  apply take_before.
Qed.

Lemma slice_from_after (c : ascii) (s : string) :
  mem_char c s = true ->
  slice_from s (len (before c s) + 1) = after c s.
Proof.
  intros H. unfold slice_from, len.
  replace (Z.of_nat (String.length (before c s)) + 1)
    with (Z.of_nat (S (String.length (before c s)))) by lia.
  rewrite clip_nat.
  - apply drop_before. assumption.
  - rewrite (before_after c s H) at 2. rewrite length_append. simpl. lia.
Qed.

Lemma partition_char (s : string) (c : ascii) :
  partition s (String c "") = (before c s, mem_char c s, after c s).
Proof.
  unfold partition. rewrite find_char.
  destruct (mem_char c s) eqn:E.
  - assert (L : (len (before c s) <? 0) = false)
      by (apply Z.ltb_ge; unfold len; lia).
    rewrite L, slice_to_before.
    change (len (String c "")) with 1.
    rewrite slice_from_after by assumption. reflexivity.
  - simpl. rewrite before_absent, after_absent by assumption. reflexivity.
Qed.

Lemma replace_char (s : string) (c : ascii) :
  replace s (String c "") "" = remove (Ascii.eqb c) s.
Proof.
  unfold replace.
  induction s as [| x r IH]; [reflexivity |].
  cbn [replace_aux remove]. rewrite startswith_char.
  destruct (Ascii.eqb c x); simpl; rewrite IH; reflexivity.
Qed.

Lemma remove_remove (p q : ascii -> bool) (s : string) :
  remove q (remove p s) = remove (fun c => p c || q c) s.
Proof.
  induction s as [| x r IH]; simpl; [reflexivity |].
  destruct (p x); simpl; [assumption |].
  destruct (q x); simpl; rewrite IH; reflexivity.
Qed.

Lemma remove_ext (p q : ascii -> bool) (s : string) :
  (forall c, p c = q c) -> remove p s = remove q s.
Proof.
  intros H. induction s as [| x r IH]; simpl; [reflexivity |].
  rewrite H, IH. reflexivity.
Qed.

Lemma remove_unsafe (s : string) :
  fold_left (fun u b => replace u b "") urllib_parse._UNSAFE_URL_BYTES_TO_REMOVE s
    = remove is_unsafe s.
Proof.
  unfold urllib_parse._UNSAFE_URL_BYTES_TO_REMOVE, urllib_parse.TAB,
    urllib_parse.CR, urllib_parse.LF. cbn [fold_left].
  rewrite !replace_char, !remove_remove.
  apply remove_ext. intros c. unfold is_unsafe.
  destruct (Ascii.eqb (chr 9) c), (Ascii.eqb (chr 13) c),
    (Ascii.eqb (chr 10) c); reflexivity.
Qed.

Lemma mem_char_all (d : ascii) (s : string) :
  mem_char d s = false <->
  forallb_str (fun c => negb (Ascii.eqb d c)) s = true.
Proof.
  induction s as [| x r IH]; simpl; [tauto |].
  destruct (Ascii.eqb d x); simpl; [split; discriminate | exact IH].
Qed.

Lemma mem_char_append (c : ascii) (a b : string) :
  mem_char c (a ++ b) = mem_char c a || mem_char c b.
Proof.
  induction a as [| x a IH]; cbn [append mem_char]; [reflexivity |].
  rewrite IH. apply orb_assoc.
Qed.

Lemma before_append (c : ascii) (a b : string) :
  before c (a ++ b) =
    if mem_char c a then before c a else a ++ before c b.
Proof.
  induction a as [| x a IH]; cbn [append before mem_char]; [reflexivity |].
  destruct (Ascii.eqb c x); cbn [orb]; [reflexivity |].
  rewrite IH. destruct (mem_char c a); reflexivity.
Qed.

Lemma after_append (c : ascii) (a b : string) :
  after c (a ++ b) =
    if mem_char c a then after c a ++ b else after c b.
Proof.
  induction a as [| x a IH]; cbn [append after mem_char]; [reflexivity |].
  destruct (Ascii.eqb c x); cbn [orb]; [reflexivity | exact IH].
Qed.

End StringFacts.

(* ================================================================== *)
(** * Properties: [urlsplit] by parts                                   *)
(* ================================================================== *)

Section UrlsplitByParts.
Import PyStr urllib_parse Parts.

Lemma take_until (p : ascii -> bool) (s : string) :
  take (String.length (until p s)) s = until p s.
Proof.
  induction s as [| x r IH]; simpl; [reflexivity |].
  destruct (p x); simpl; [| rewrite IH]; reflexivity.
Qed.

Lemma drop_until (p : ascii -> bool) (s : string) :
  drop (String.length (until p s)) s = from p s.
Proof.
  induction s as [| x r IH]; simpl; [reflexivity |].
  destruct (p x); simpl; [reflexivity | assumption].
Qed.


Lemma is_delim_eq (x : ascii) :
  is_delim x = Ascii.eqb "/" x || Ascii.eqb "?" x || Ascii.eqb "#" x.
Proof.
  unfold is_delim. cbn [mem_char].
  rewrite (Ascii.eqb_sym x "/"), (Ascii.eqb_sym x "?"), (Ascii.eqb_sym x "#").
  destruct (Ascii.eqb "/" x), (Ascii.eqb "?" x), (Ascii.eqb "#" x);
    reflexivity.
Qed.

Lemma length_until_delim (s : string) :
  String.length (until is_delim s) =
    Nat.min (String.length (before "/" s))
      (Nat.min (String.length (before "?" s)) (String.length (before "#" s))).
Proof.
  induction s as [| x r IH]; [reflexivity |].
  cbn [until before]. rewrite is_delim_eq.
  destruct (Ascii.eqb "/" x), (Ascii.eqb "?" x), (Ascii.eqb "#" x);
    simpl; try lia.
Qed.

Lemma find_from_2 (a b c : ascii) (r2 : string) :
  find_from (String a (String b r2)) (String c "") 2 =
    if mem_char c r2 then 2 + len (before c r2) else -1.
Proof.
  unfold find_from.
  assert (E : (len (String a (String b r2)) <? 2) = false).
  { apply Z.ltb_ge. unfold len. simpl String.length. lia. }
  rewrite E. change 2 with (Z.of_nat 2) at 1.
  rewrite clip_nat by (simpl; lia).
  cbn [find_at]. simpl Nat.leb. cbn [andb].
  rewrite find_at_char by lia.
  destruct (mem_char c r2); [unfold len; lia | reflexivity].
Qed.

(** One step of the loop of [_splitnetloc]. *)
Lemma splitnetloc_step (c : ascii) (r2 : string) (d : Z) :
  d <= 2 + len r2 ->
  (if 0 <=? (if mem_char c r2 then 2 + len (before c r2) else -1)
   then Z.min d (if mem_char c r2 then 2 + len (before c r2) else -1)
   else d)
  = Z.min d (2 + len (before c r2)).
Proof.
  intros Hd. destruct (mem_char c r2) eqn:E.
  - assert (L : (0 <=? 2 + len (before c r2)) = true)
      by (apply Z.leb_le; unfold len; lia).
    rewrite L. reflexivity.
  - change (0 <=? -1) with false. cbv iota.
    rewrite before_absent by assumption. lia.
Qed.

Lemma splitnetloc_parts (a b : ascii) (r2 : string) :
  _splitnetloc (String a (String b r2)) 2 =
    (until is_delim r2, from is_delim r2).
Proof.
  unfold _splitnetloc. cbn [fold_left]. cbv beta zeta.
  rewrite !find_from_2.
  assert (L : len (String a (String b r2)) = 2 + len r2).
  { unfold len. simpl String.length. lia. }
  rewrite L.
  pose proof (length_before "/" r2) as B1.
  pose proof (length_before "?" r2) as B2.
  pose proof (length_before "#" r2) as B3.
  rewrite (splitnetloc_step "/" r2 (2 + len r2)) by lia.
  rewrite (splitnetloc_step "?" r2) by (unfold len; lia).
  rewrite (splitnetloc_step "#" r2) by (unfold len; lia).
  pose proof (length_until_delim r2) as U.
  match goal with
  | |- context [slice _ 2 ?d] =>
      replace d with (Z.of_nat (2 + String.length (until is_delim r2)))
        by (unfold len; lia)
  end.
  unfold slice, slice_from.
  change 2 with (Z.of_nat 2) at 1 2.
  rewrite !clip_nat by (simpl String.length; lia).
  replace (2 + String.length (until is_delim r2) - 2)%nat
    with (String.length (until is_delim r2)) by lia.
  rewrite drop_add. simpl drop.
  rewrite take_until, drop_until. reflexivity.
Qed.

End UrlsplitByParts.

Section UrlsplitEqualsParts.
Import PyStr urllib_parse Parts.

Lemma scheme_split_eq (url : string) :
  (if (0 <? find url ":") &&
      match url with
      | String c0 _ => isascii_char c0 && isalpha_ascii c0
      | "" => false
      end
   then
     if forallb_str (fun c => mem_char c scheme_chars)
          (slice_to url (find url ":"))
     then (lower (slice_to url (find url ":")),
           slice_from url (find url ":" + 1))
     else ("", url)
   else ("", url))
  = scheme_split url.
Proof.
  unfold scheme_split. rewrite find_char.
  destruct url as [| c0 r]; [reflexivity |].
  destruct (mem_char ":" (String c0 r)) eqn:M.
  - rewrite slice_to_before, slice_from_after by assumption.
    assert (P : (0 <? len (before ":" (String c0 r)))
                = negb (String.eqb (before ":" (String c0 r)) "")).
    { destruct (before ":" (String c0 r)); reflexivity. }
    rewrite P. cbn [andb].
    destruct (negb _), (isascii_char c0 && isalpha_ascii c0),
      (forallb_str _ _); reflexivity.
  - reflexivity.
Qed.

Lemma slice_to_2 (url : string) :
  String.eqb (slice_to url 2) "//" =
    match url with
    | String a (String b _) => Ascii.eqb a "/" && Ascii.eqb b "/"
    | _ => false
    end.
Proof.
  unfold slice_to.
  destruct url as [| a [| b r]].
  - reflexivity.
  - change (clip (String a "") 2) with 1%nat. cbn [take String.eqb].
    destruct (Ascii.eqb a "/"); reflexivity.
  - change 2 with (Z.of_nat 2). rewrite clip_nat by (simpl; lia).
    cbn [take String.eqb].
    destruct (Ascii.eqb a "/"), (Ascii.eqb b "/"); reflexivity.
Qed.

Lemma netloc_split_eq (rest : string) :
  (if String.eqb (slice_to rest 2) "//" then
     let '(netloc, url) := _splitnetloc rest 2 in
     if (contains netloc "[" && negb (contains netloc "]")) ||
        (contains netloc "]" && negb (contains netloc "["))
     then Raise (ValueError "Invalid IPv6 URL")
     else
       do _ <- (if contains netloc "[" && contains netloc "]"
                then _check_bracketed_netloc netloc
                else Ok tt);
       Ok (netloc, url)
   else Ok ("", rest))
  = netloc_split rest.
Proof.
  rewrite slice_to_2. unfold netloc_split.
  destruct rest as [| a [| b r2]]; try reflexivity.
  - destruct a as [[] [] [] [] [] [] [] []]; reflexivity.
  - destruct (Ascii.eqb_spec a "/"); [subst a | ].
    + destruct (Ascii.eqb_spec b "/"); [subst b |].
      * cbn [andb]. rewrite splitnetloc_parts. unfold check_brackets.
        destruct (_ || _); [reflexivity |].
        destruct (_ && _); [| reflexivity].
        destruct (_check_bracketed_netloc _); reflexivity.
      * cbn [andb].
        destruct b as [[] [] [] [] [] [] [] []]; try reflexivity.
        contradiction n; reflexivity.
    + cbn [andb].
      destruct a as [[] [] [] [] [] [] [] []]; try reflexivity.
      contradiction n; reflexivity.
Qed.

(** Splitting at the first [c] under the guard [c in url]. *)
Lemma cut_eq (c : ascii) (url : string) :
  (if contains url (String c "")
   then let '(a, _, b) := partition url (String c "") in (a, b)
   else (url, ""))
  = (before c url, after c url).
Proof.
  rewrite contains_char, partition_char.
  destruct (mem_char c url) eqn:M; [reflexivity |].
  rewrite before_absent, after_absent by assumption. reflexivity.
Qed.

(** The position-based [urlsplit] and its form by parts agree on every
    input. *)
Theorem urlsplit_by_parts (url : string) : urlsplit url = urlsplit_parts url.
Proof.
  unfold urlsplit, urlsplit_parts.
  rewrite remove_unsafe. fold (clean url).
  rewrite scheme_split_eq.
  destruct (scheme_split (clean url)) as [sch rest]. cbn [fst snd].
  rewrite netloc_split_eq.
  destruct (netloc_split rest) as [[nl r3] | e]; [| reflexivity].
  cbn [bind fst snd].
  rewrite (cut_eq "#" r3). rewrite (cut_eq "?" (before "#" r3)).
  reflexivity.
Qed.

End UrlsplitEqualsParts.

(* ================================================================== *)
(** * Properties: what the pieces of a URL are made of                  *)
(* ================================================================== *)

Section Pieces.
Import PyStr urllib_parse Parts.

Variable P : ascii -> bool.

Let all (s : string) : Prop := forallb_str P s = true.

Lemma all_append (a b : string) : all (a ++ b) <-> all a /\ all b.
Proof.
  unfold all. induction a as [| x a IH]; simpl.
  - tauto.
  - rewrite !andb_true_iff, IH. tauto.
Qed.

Lemma all_take (n : nat) (s : string) : all s -> all (take n s).
Proof.
  unfold all. revert n. induction s as [| x r IH]; intros [| n];
    simpl; try reflexivity.
  rewrite !andb_true_iff. intros [H1 H2]. split; [assumption | now apply IH].
Qed.

Lemma all_drop (n : nat) (s : string) : all s -> all (drop n s).
Proof.
  unfold all. revert n. induction s as [| x r IH]; intros [| n];
    simpl; try reflexivity; try tauto.
  rewrite !andb_true_iff. intros [H1 H2]. now apply IH.
Qed.

Lemma all_slice_to (s : string) (i : Z) : all s -> all (slice_to s i).
Proof. apply all_take. Qed.


Lemma all_before (c : ascii) (s : string) : all s -> all (before c s).
Proof.
  unfold all. induction s as [| x r IH]; simpl; [reflexivity |].
  rewrite andb_true_iff. intros [H1 H2].
  destruct (Ascii.eqb c x); simpl; [reflexivity |].
  rewrite H1. now apply IH.
Qed.

Lemma all_after (c : ascii) (s : string) : all s -> all (after c s).
Proof.
  unfold all. induction s as [| x r IH]; simpl; [reflexivity |].
  rewrite andb_true_iff. intros [H1 H2].
  destruct (Ascii.eqb c x); [assumption | now apply IH].
Qed.

Lemma all_until (p : ascii -> bool) (s : string) : all s -> all (until p s).
Proof.
  unfold all. induction s as [| x r IH]; simpl; [reflexivity |].
  rewrite andb_true_iff. intros [H1 H2].
  destruct (p x); simpl; [reflexivity |].
  rewrite H1. now apply IH.
Qed.

Lemma all_from (p : ascii -> bool) (s : string) : all s -> all (from p s).
Proof.
  unfold all. induction s as [| x r IH]; simpl; [reflexivity |].
  rewrite andb_true_iff. intros [H1 H2].
  destruct (p x); [simpl; rewrite H1; assumption | now apply IH].
Qed.

Lemma all_remove (p : ascii -> bool) (s : string) : all s -> all (remove p s).
Proof.
  unfold all. induction s as [| x r IH]; simpl; [reflexivity |].
  rewrite andb_true_iff. intros [H1 H2].
  destruct (p x); simpl; [now apply IH |].
  rewrite H1. now apply IH.
Qed.

Lemma all_lstrip (s chars : string) : all s -> all (lstrip s chars).
Proof.
  unfold all. induction s as [| x r IH]; simpl; [reflexivity |].
  rewrite andb_true_iff. intros [H1 H2].
  destruct (mem_char x chars); [now apply IH |].
  simpl. rewrite H1. assumption.
Qed.

Lemma all_rstrip (s chars : string) : all s -> all (rstrip s chars).
Proof.
  unfold all. induction s as [| x r IH]; simpl; [reflexivity |].
  rewrite andb_true_iff. intros [H1 H2]. specialize (IH H2).
  destruct (rstrip r chars) as [| y t].
  - destruct (mem_char x chars); simpl; [reflexivity |].
    rewrite H1. reflexivity.
  - cbn [forallb_str]. rewrite H1. exact IH.
Qed.

Lemma all_replace_aux (s old : string) (k : nat) :
  all s -> all (replace_aux s old "" k).
Proof.
  unfold all. revert k. induction s as [| x r IH]; intros k;
    [reflexivity |].
  cbn [forallb_str replace_aux].
  rewrite andb_true_iff. intros [H1 H2].
  destruct k as [| k]; [| now apply IH].
  destruct (startswith (String x r) old); cbn [append forallb_str].
  - now apply IH.
  - rewrite H1. now apply IH.
Qed.

Lemma all_clean (url : string) : all url -> all (clean url).
Proof. intros H. unfold clean. apply all_remove, all_lstrip, H. Qed.

Lemma all_netloc_split (rest nl r3 : string) :
  all rest -> netloc_split rest = Ok (nl, r3) -> all nl /\ all r3.
Proof.
  intros H. unfold netloc_split.
  assert (Kno : Ok ("", rest) = Ok (nl, r3) -> all nl /\ all r3).
  { intros E. injection E as <- <-. split; [reflexivity | assumption]. }
  destruct rest as [| a [| b r2]].
  - exact Kno.
  - destruct a as [[] [] [] [] [] [] [] []]; exact Kno.
  - assert (H2 : all r2).
    { unfold all in *. simpl in H. rewrite !andb_true_iff in H. tauto. }
    assert (K : (do _ <- check_brackets (until is_delim r2);
                 Ok (until is_delim r2, from is_delim r2)) = Ok (nl, r3) ->
                all nl /\ all r3).
    { destruct (check_brackets (until is_delim r2)) as [[] | e];
        [| discriminate].
      simpl. intros E. injection E as <- <-.
      split; [now apply all_until | now apply all_from]. }
    destruct a as [[] [] [] [] [] [] [] []]; try exact Kno.
    destruct b as [[] [] [] [] [] [] [] []]; try exact Kno.
    exact K.
Qed.

(** The netloc and the path that [urlsplit] returns consist of characters
    of the cleaned URL. *)
Lemma all_urlsplit (url sch nl p q f : string) :
  all (clean url) ->
  urlsplit url = Ok (sch, nl, p, q, f) ->
  all nl /\ all p.
Proof.
  intros H. rewrite urlsplit_by_parts. unfold urlsplit_parts.
  assert (Hrest : all (snd (scheme_split (clean url)))).
  { unfold scheme_split. destruct (clean url) as [| c0 r] eqn:E;
      [reflexivity |].
    destruct (_ && _); cbn [snd]; [now apply all_after | assumption]. }
  destruct (netloc_split (snd (scheme_split (clean url))))
    as [[nl' r3] | e] eqn:En; [| discriminate].
  simpl. intros E. injection E as _ <- <- _ _.
  destruct (all_netloc_split _ _ _ Hrest En) as [Hn Hr].
  split; [assumption |]. now apply all_before, all_before.
Qed.

Lemma all_splitparams (p : string) : all p -> all (fst (_splitparams p)).
Proof.
  intros H. unfold _splitparams.
  destruct (contains p "/").
  - destruct (_ <? 0); cbn [fst]; [assumption | now apply all_slice_to].
  - cbn [fst]. now apply all_slice_to.
Qed.

Lemma all_urlparse (url : string) (r : ParseResult) :
  all (clean url) ->
  urlparse url = Ok r ->
  all (netloc r) /\ all (path r).
Proof.
  intros H. unfold urlparse.
  destruct (urlsplit url) as [[[[[sch nl] p] q] f] | e] eqn:E;
    [| discriminate].
  destruct (all_urlsplit _ _ _ _ _ _ H E) as [Hn Hp].
  cbv beta iota delta [bind].
  destruct (in_list sch uses_params && contains p ";").
  - pose proof (all_splitparams p Hp) as Hs.
    destruct (_splitparams p) as [p' ps]. cbv beta iota.
    intros K. injection K as <-. simpl. split; assumption.
  - cbv beta iota. intros K. injection K as <-. simpl. split; assumption.
Qed.

End Pieces.

(* ================================================================== *)
(** * Properties: URL keys are lower-case                               *)
(* ================================================================== *)

Section LowerCase.
Import PyStr urllib_parse Parts SupabaseManager.

Lemma lower_char_not_upper (c : ascii) : is_upper (lower_char c) = false.
Proof. destruct c as [[] [] [] [] [] [] [] []]; reflexivity. Qed.

Lemma lower_all_not_upper (s : string) :
  forallb_str (fun c => negb (is_upper c)) (lower s) = true.
Proof.
  induction s as [| x r IH]; simpl; [reflexivity |].
  rewrite lower_char_not_upper, IH. reflexivity.
Qed.

Lemma lower_fixed (s : string) :
  forallb_str (fun c => negb (is_upper c)) s = true -> lower s = s.
Proof.
  induction s as [| x r IH]; simpl; [reflexivity |].
  rewrite andb_true_iff. intros [H1 H2].
  rewrite IH by assumption. unfold lower_char.
  destruct (is_upper x); [discriminate | reflexivity].
Qed.

Lemma lower_idempotent (s : string) : lower (lower s) = lower s.
Proof. apply lower_fixed, lower_all_not_upper. Qed.

(** The scheme [urlparse] reports is the one found by [scheme_split]. *)
Lemma urlparse_scheme (url : string) (r : ParseResult) :
  urlparse url = Ok r -> scheme r = fst (scheme_split (clean url)).
Proof.
  unfold urlparse. rewrite urlsplit_by_parts. unfold urlsplit_parts.
  destruct (netloc_split _) as [[nl r3] | e]; [| discriminate].
  cbv beta iota delta [bind fst snd].
  destruct (in_list _ uses_params && contains _ ";").
  - destruct (_splitparams _) as [p' ps]. cbv beta iota.
    intros K. injection K as <-. reflexivity.
  - cbv beta iota. intros K. injection K as <-. reflexivity.
Qed.

Lemma scheme_split_not_upper (url : string) :
  forallb_str (fun c => negb (is_upper c)) (fst (scheme_split url)) = true.
Proof.
  unfold scheme_split. destruct url as [| c0 r]; [reflexivity |].
  destruct (_ && _); cbn [fst]; [apply lower_all_not_upper | reflexivity].
Qed.

(** Every key is in lower case. *)
Lemma normalize_lower_case (url key : string) :
  _normalize_url url = Ok key -> lower key = key.
Proof.
  unfold _normalize_url.
  destruct (urlparse (lower url)) as [r | e] eqn:E; [| discriminate].
  cbn [bind]. intros K. injection K as <-.
  apply lower_fixed.
  destruct (all_urlparse (fun c => negb (is_upper c)) (lower url) r)
    as [Hn Hp]; [apply all_clean, lower_all_not_upper | exact E |].
  apply all_rstrip.
  apply all_append. split.
  - match goal with
    | |- context [if ?b then "https" else _] => destruct b
    end; [reflexivity |].
    rewrite (urlparse_scheme _ _ E). apply scheme_split_not_upper.
  - apply (proj2 (all_append _ "://"
                    (replace (netloc r) "www." "" ++ path r))).
    split; [reflexivity |].
    apply (proj2 (all_append _ (replace (netloc r) "www." "") (path r))).
    split; [| exact Hp].
    unfold replace. apply all_replace_aux. exact Hn.
Qed.

End LowerCase.

(** C2, as stated, fails: the path of [https://example.com/Path] is
    [/Path], but its key is [https://example.com/path], whose path is
    [/path]; the case of the path is not preserved. *)
Lemma C2_counterexample :
  match urllib_parse.urlparse "https://example.com/Path" with
  | Ok r => urllib_parse.path r = "/Path"
  | Raise _ => False
  end /\
  SupabaseManager._normalize_url "https://example.com/Path"
    = Ok "https://example.com/path" /\
  match urllib_parse.urlparse "https://example.com/path" with
  | Ok r => urllib_parse.path r = "/path"
  | Raise _ => False
  end /\
  "/path" <> "/Path".
Proof.
  vm_compute. repeat split. discriminate.
Qed.

(** C2, amended.  [normalize] lower-cases the whole URL, path included:
    every key is entirely in lower case and is also the key of the
    lower-cased URL, so the case of the path is not preserved.  In
    particular [HTTP://WWW.Example.com/Path/] and
    [https://example.com/Path] both have the key
    [https://example.com/path]. *)
Theorem C2_normalize_lowercases_whole_url :
  forall (url key : string),
    SupabaseManager._normalize_url url = Ok key ->
    PyStr.lower key = key /\
    SupabaseManager._normalize_url (PyStr.lower url) = Ok key /\
    SupabaseManager._normalize_url "HTTP://WWW.Example.com/Path/"
      = Ok "https://example.com/path" /\
    SupabaseManager._normalize_url "https://example.com/Path"
      = Ok "https://example.com/path".
Proof.
  intros url key H. repeat split.
  - exact (normalize_lower_case url key H).
  - unfold SupabaseManager._normalize_url in *.
    rewrite lower_idempotent. exact H.
Qed.

Lemma C2_witness :
  PyStr.lower "https://example.com/path" = "https://example.com/path" /\
  SupabaseManager._normalize_url (PyStr.lower "HTTP://WWW.Example.com/Path/")
    = Ok "https://example.com/path" /\
  SupabaseManager._normalize_url "HTTP://WWW.Example.com/Path/"
    = Ok "https://example.com/path" /\
  SupabaseManager._normalize_url "https://example.com/Path"
    = Ok "https://example.com/path".
Proof.
  apply (C2_normalize_lowercases_whole_url "HTTP://WWW.Example.com/Path/").
  vm_compute. reflexivity.
Defined.

(* ================================================================== *)
(** * Properties: keys of plain URLs                                    *)
(* ================================================================== *)

Section PlainKeys.
Import PyStr urllib_parse Parts SupabaseManager.

Lemma rstrip_app (a b chars : string) :
  rstrip (a ++ b) chars =
    match rstrip b chars with
    | "" => rstrip a chars
    | t => a ++ t
    end.
Proof.
  induction a as [| x a IH].
  - simpl. destruct (rstrip b chars); reflexivity.
  - cbn [append rstrip]. rewrite IH.
    destruct (rstrip b chars) as [| y t]; [reflexivity |].
    destruct a; reflexivity.
Qed.

Lemma rstrip_fixed (s chars : string) :
  forallb_str (fun c => negb (mem_char c chars)) s = true ->
  rstrip s chars = s.
Proof.
  induction s as [| x r IH]; [reflexivity |].
  cbn [forallb_str rstrip]. rewrite andb_true_iff. intros [H1 H2].
  rewrite IH by assumption.
  destruct r; [| reflexivity].
  destruct (mem_char x chars); [discriminate | reflexivity].
Qed.

Lemma rstrip_idempotent (s chars : string) :
  rstrip (rstrip s chars) chars = rstrip s chars.
Proof.
  induction s as [| x r IH]; [reflexivity |].
  cbn [rstrip].
  destruct (rstrip r chars) as [| y t] eqn:E.
  - destruct (mem_char x chars) eqn:M; [reflexivity |].
    cbn [rstrip]. rewrite M. reflexivity.
  - cbn [rstrip]. cbn [rstrip] in IH. rewrite IH. reflexivity.
Qed.

Lemma rstrip_head (x : ascii) (r chars : string) :
  rstrip (String x r) chars = "" \/
  exists t, rstrip (String x r) chars = String x t.
Proof.
  cbn [rstrip]. destruct (rstrip r chars).
  - destruct (mem_char x chars); [left | right; eexists]; reflexivity.
  - right. eexists. reflexivity.
Qed.

Lemma until_app_stop (p : ascii -> bool) (a b : string) :
  forallb_str (fun c => negb (p c)) a = true ->
  (b = "" \/ exists c t, b = String c t /\ p c = true) ->
  until p (a ++ b) = a /\ from p (a ++ b) = b.
Proof.
  intros Ha Hb. induction a as [| x a IH].
  - simpl. destruct Hb as [-> | [c [t [-> Hc]]]]; simpl.
    + split; reflexivity.
    + rewrite Hc. split; reflexivity.
  - cbn [forallb_str] in Ha. apply andb_true_iff in Ha. destruct Ha as [H1 H2].
    cbn [append until from].
    destruct (p x); [discriminate |].
    destruct (IH H2) as [-> ->]. split; reflexivity.
Qed.

Lemma remove_fixed (p : ascii -> bool) (s : string) :
  forallb_str (fun c => negb (p c)) s = true -> remove p s = s.
Proof.
  induction s as [| x r IH]; [reflexivity |].
  cbn [forallb_str remove]. rewrite andb_true_iff. intros [H1 H2].
  destruct (p x); [discriminate |]. rewrite IH by assumption. reflexivity.
Qed.

Lemma all_remove_not (p : ascii -> bool) (s : string) :
  forallb_str (fun c => negb (p c)) (remove p s) = true.
Proof.
  induction s as [| x r IH]; [reflexivity |].
  cbn [remove]. destruct (p x) eqn:E; [assumption |].
  cbn [forallb_str]. rewrite E. assumption.
Qed.

Lemma all_until_not (p : ascii -> bool) (s : string) :
  forallb_str (fun c => negb (p c)) (until p s) = true.
Proof.
  induction s as [| x r IH]; [reflexivity |].
  cbn [until]. destruct (p x) eqn:E; [reflexivity |].
  cbn [forallb_str]. rewrite E. assumption.
Qed.

Lemma all_weaken (P Q : ascii -> bool) (s : string) :
  (forall c, P c = true -> Q c = true) ->
  forallb_str P s = true -> forallb_str Q s = true.
Proof.
  intros H. induction s as [| x r IH]; simpl; [reflexivity |].
  rewrite !andb_true_iff. intros [H1 H2]. split; auto.
Qed.

Lemma contains_absent_tail (x : ascii) (r old : string) :
  contains (String x r) old = false ->
  startswith (String x r) old = false /\ contains r old = false.
Proof.
  cbn [contains]. apply orb_false_iff.
Qed.

Lemma replace_absent (s old new : string) :
  old <> "" -> contains s old = false -> replace s old new = s.
Proof.
  intros Hold. unfold replace. destruct old as [| o old']; [contradiction |].
  induction s as [| x r IH]; [reflexivity |].
  intros H. apply contains_absent_tail in H. destruct H as [H1 H2].
  cbn [replace_aux]. rewrite H1. rewrite IH by assumption. reflexivity.
Qed.



(** What [urlparse] returns, in terms of the parts. *)
Lemma urlparse_shape (url : string) (r : ParseResult) :
  urlparse url = Ok r ->
  exists nl r3,
    netloc_split (snd (scheme_split (clean url))) = Ok (nl, r3) /\
    scheme r = fst (scheme_split (clean url)) /\
    netloc r = nl /\
    (path r = before "?" (before "#" r3) \/
     path r = fst (_splitparams (before "?" (before "#" r3)))).
Proof.
  unfold urlparse. rewrite urlsplit_by_parts. unfold urlsplit_parts.
  destruct (netloc_split _) as [[nl r3] | e]; [| discriminate].
  cbv beta iota delta [bind fst snd].
  intros H. exists nl, r3. split; [reflexivity |].
  destruct (in_list _ uses_params && contains _ ";").
  - destruct (_splitparams _) as [p' ps] eqn:Es. cbv beta iota in H.
    injection H as <-. simpl. repeat split. right. reflexivity.
  - cbv beta iota in H. injection H as <-. simpl. repeat split.
    left. reflexivity.
Qed.

Lemma netloc_split_no_delim (rest nl r3 : string) :
  netloc_split rest = Ok (nl, r3) ->
  forallb_str (fun c => negb (is_delim c)) nl = true.
Proof.
  unfold netloc_split.
  assert (Kno : Ok ("", rest) = Ok (nl, r3) ->
                forallb_str (fun c => negb (is_delim c)) nl = true).
  { intros E. injection E as <- <-. reflexivity. }
  destruct rest as [| a [| b r2]].
  - exact Kno.
  - destruct a as [[] [] [] [] [] [] [] []]; exact Kno.
  - assert (K : (do _ <- check_brackets (until is_delim r2);
                 Ok (until is_delim r2, from is_delim r2)) = Ok (nl, r3) ->
                forallb_str (fun c => negb (is_delim c)) nl = true).
    { destruct (check_brackets (until is_delim r2)) as [[] | e];
        [| discriminate].
      simpl. intros E. injection E as <- <-. apply all_until_not. }
    destruct a as [[] [] [] [] [] [] [] []]; try exact Kno.
    destruct b as [[] [] [] [] [] [] [] []]; try exact Kno.
    exact K.
Qed.

Lemma all_before_not (c : ascii) (s : string) :
  forallb_str (fun x => negb (Ascii.eqb c x)) (before c s) = true.
Proof. apply mem_char_all, mem_before. Qed.

(** The netloc has no slash, question mark or hash; the path has no
    question mark or hash; neither has a tab, carriage return or line
    feed. *)
Lemma urlparse_pieces (url : string) (r : ParseResult) :
  urlparse url = Ok r ->
  forallb_str (fun c => negb (is_delim c)) (netloc r) = true /\
  forallb_str (fun c => negb (is_unsafe c)) (netloc r) = true /\
  forallb_str (fun c => negb (is_unsafe c)) (path r) = true /\
  mem_char "?" (path r) = false /\
  mem_char "#" (path r) = false.
Proof.
  intros H.
  destruct (urlparse_shape url r H) as [nl [r3 [En [_ [Hn Hp]]]]].
  destruct (all_urlparse (fun c => negb (is_unsafe c)) url r) as [U1 U2];
    [unfold clean; apply all_remove_not | exact H |].
  repeat split; try assumption.
  - rewrite Hn. exact (netloc_split_no_delim _ _ _ En).
  - apply mem_char_all.
    destruct Hp as [-> | ->]; [| apply all_splitparams]; apply all_before_not.
  - apply mem_char_all.
    destruct Hp as [-> | ->]; [| apply all_splitparams];
      apply all_before, all_before_not.
Qed.


Lemma check_brackets_none (n : string) :
  contains n "[" = false -> contains n "]" = false ->
  check_brackets n = Ok tt.
Proof. intros H1 H2. unfold check_brackets. rewrite H1, H2. reflexivity. Qed.

Lemma not_delim_not_slash (s : string) :
  forallb_str (fun c => negb (is_delim c)) s = true ->
  forallb_str (fun c => negb (mem_char c "/")) s = true.
Proof.
  apply all_weaken. intros c. unfold is_delim. cbn [mem_char].
  destruct (Ascii.eqb c "/"); [discriminate | reflexivity].
Qed.

Lemma contains_char_false_replace (c : ascii) (s : string) :
  contains s (String c "") = false ->
  contains (replace s "www." "") (String c "") = false.
Proof.
  rewrite !contains_char. intros H. apply mem_char_all.
  unfold replace. apply all_replace_aux. apply mem_char_all. exact H.
Qed.

Lemma scheme_char_lower (c : ascii) :
  mem_char c scheme_chars = true ->
  mem_char (lower_char c) scheme_chars = true.
Proof. destruct c as [[] [] [] [] [] [] [] []]; vm_compute; intros H; exact H || reflexivity. Qed.

Lemma alpha_lower (c : ascii) :
  isascii_char c && isalpha_ascii c = true ->
  isascii_char (lower_char c) && isalpha_ascii (lower_char c) = true.
Proof. destruct c as [[] [] [] [] [] [] [] []]; vm_compute; intros H; exact H || reflexivity. Qed.

Lemma scheme_char_safe (c : ascii) :
  mem_char c scheme_chars = true ->
  negb (is_unsafe c) = true /\ Ascii.eqb ":" c = false.
Proof.
  destruct c as [[] [] [] [] [] [] [] []]; vm_compute; intros H;
    (discriminate H || (split; reflexivity)).
Qed.

Lemma alpha_not_stripped (c : ascii) :
  isascii_char c && isalpha_ascii c = true ->
  mem_char c _WHATWG_C0_CONTROL_OR_SPACE = false.
Proof.
  destruct c as [[] [] [] [] [] [] [] []]; vm_compute; intros H;
    (discriminate H || reflexivity).
Qed.

Lemma is_scheme_https : is_scheme "https".
Proof. repeat split. Qed.

Lemma scheme_split_is_scheme (url : string) :
  fst (scheme_split url) = "" \/ is_scheme (fst (scheme_split url)).
Proof.
  unfold scheme_split. destruct url as [| c0 r0]; [left; reflexivity |].
  destruct (mem_char ":" (String c0 r0) &&
            negb (String.eqb (before ":" (String c0 r0)) "") &&
            (isascii_char c0 && isalpha_ascii c0) &&
            forallb_str (fun c => mem_char c scheme_chars)
              (before ":" (String c0 r0))) eqn:C;
    [| left; reflexivity].
  right. cbn [fst].
  apply andb_true_iff in C. destruct C as [C Hall].
  apply andb_true_iff in C. destruct C as [C Halpha].
  apply andb_true_iff in C. destruct C as [_ Hne].
  unfold is_scheme. repeat split.
  - cbn [before] in *. destruct (Ascii.eqb ":" c0); [discriminate |].
    cbn [lower]. apply alpha_lower. exact Halpha.
  - clear Hne. induction (before ":" (String c0 r0)) as [| x t IH];
      [reflexivity |].
    cbn [forallb_str lower] in *. apply andb_true_iff in Hall.
    destruct Hall as [H1 H2].
    rewrite (scheme_char_lower x H1). cbn [andb]. exact (IH H2).
  - apply lower_idempotent.
Qed.

Lemma scheme_no_colon (s : string) :
  forallb_str (fun c => mem_char c scheme_chars) s = true ->
  mem_char ":" s = false.
Proof.
  intros H. apply mem_char_all.
  revert H. apply all_weaken. intros c Hc.
  rewrite (proj2 (scheme_char_safe c Hc)). reflexivity.
Qed.

Lemma scheme_split_scheme (s rest : string) :
  is_scheme s -> scheme_split (s ++ String ":" rest) = (s, rest).
Proof.
  intros [H0 [Hall Hlow]].
  pose proof (scheme_no_colon s Hall) as Hc.
  unfold scheme_split.
  destruct s as [| c0 r0]; [contradiction |].
  cbn [append].
  change (String c0 (r0 ++ String ":" rest))
    with (String c0 r0 ++ String ":" rest).
  rewrite mem_char_append, before_append, after_append, Hc.
  cbn [mem_char before after]. change (Ascii.eqb ":" ":") with true.
  cbv iota. rewrite orb_true_r, append_nil_r, H0, Hall, Hlow.
  reflexivity.
Qed.

Lemma clean_scheme (s rest : string) :
  is_scheme s ->
  forallb_str (fun c => negb (is_unsafe c)) rest = true ->
  clean (s ++ String ":" rest) = s ++ String ":" rest.
Proof.
  intros [H0 [Hall _]] Hrest. unfold clean.
  destruct s as [| c0 r0]; [contradiction |].
  cbn [append]. cbn [lstrip]. rewrite (alpha_not_stripped c0 H0).
  change (String c0 (r0 ++ String ":" rest))
    with (String c0 r0 ++ String ":" rest).
  apply remove_fixed. apply all_append. split.
  - revert Hall. apply all_weaken. intros c Hc.
    exact (proj1 (scheme_char_safe c Hc)).
  - cbn [forallb_str]. rewrite Hrest. reflexivity.
Qed.

(** Parsing a scheme, a colon, and a rest whose netloc and path are
    known. *)
Lemma urlparse_scheme_rest (s rest n p : string) :
  is_scheme s ->
  forallb_str (fun c => negb (is_unsafe c)) rest = true ->
  netloc_split rest = Ok (n, p) ->
  mem_char "?" p = false -> mem_char "#" p = false ->
  in_list s uses_params && contains p ";" = false ->
  urlparse (s ++ String ":" rest) = Ok (mkParseResult s n p "" "" "").
Proof.
  intros Hs Hrest Hn Q H S.
  unfold urlparse. rewrite urlsplit_by_parts. unfold urlsplit_parts.
  rewrite (clean_scheme s rest Hs Hrest), (scheme_split_scheme s rest Hs).
  cbn [fst snd]. rewrite Hn. cbv beta iota delta [bind fst snd].
  rewrite (before_absent "#" p H), (after_absent "#" p H).
  rewrite (before_absent "?" p Q), (after_absent "?" p Q).
  rewrite S. reflexivity.
Qed.

Lemma netloc_split_plain (n p : string) :
  forallb_str (fun c => negb (is_delim c)) n = true ->
  contains n "[" = false -> contains n "]" = false ->
  (p = "" \/ exists t, p = String "/" t) ->
  netloc_split ("//" ++ n ++ p) = Ok (n, p).
Proof.
  intros Dn B1 B2 Hp. unfold netloc_split. cbn [append].
  destruct (until_app_stop is_delim n p Dn) as [-> ->].
  - destruct Hp as [-> | [t ->]]; [left; reflexivity |].
    right. exists "/"%char, t. split; reflexivity.
  - rewrite check_brackets_none by assumption. reflexivity.
Qed.

Lemma in_http_https (s : string) :
  in_list s ["http"; "https"] = true -> s = "http" \/ s = "https".
Proof.
  unfold in_list. cbn [existsb]. rewrite !orb_true_iff, !String.eqb_eq.
  intros [H | [H | H]]; [left | right | discriminate]; assumption.
Qed.

End PlainKeys.

(** C10, as stated, fails.  A path parameter is dropped only from the last
    path segment, and stripping the trailing slash changes which segment
    is last: the key of [https://example.com/a;b/] is
    [https://example.com/a;b], whose own key is [https://example.com/a].
    A URL without a scheme gets the prefix [://] again at every pass; a
    path without a leading slash becomes the netloc of the key; removing
    [www.] can bring a new [www.] together, or leave a bracketed host that
    no longer parses. *)
Lemma C10_counterexample :
  (SupabaseManager._normalize_url "https://example.com/a;b/"
     = Ok "https://example.com/a;b" /\
   SupabaseManager._normalize_url "https://example.com/a;b"
     = Ok "https://example.com/a") /\
  (SupabaseManager._normalize_url "example.com" = Ok "://example.com" /\
   SupabaseManager._normalize_url "://example.com"
     = Ok "://://example.com") /\
  (SupabaseManager._normalize_url "http:www.x" = Ok "https://www.x" /\
   SupabaseManager._normalize_url "https://www.x" = Ok "https://x") /\
  (SupabaseManager._normalize_url "http://wwwwww..com"
     = Ok "https://www.com" /\
   SupabaseManager._normalize_url "https://www.com" = Ok "https://com") /\
  (SupabaseManager._normalize_url "http://[v1.www.]" = Ok "https://[v1.]" /\
   SupabaseManager._normalize_url "https://[v1.]"
     = Raise (ValueError "v1.")).
Proof.
  vm_compute. repeat split.
Qed.

Section IdempotentKeys.
Import PyStr urllib_parse Parts SupabaseManager.

(** C10, amended.  Let the lower-cased URL parse with a scheme, a path
    that is empty or starts with a slash, no semicolon in the path when
    the scheme is one of those with path parameters, and a netloc without
    square brackets from which removing [www.] leaves no [www.].  Then the
    key of the URL is its own key:
    [normalize(normalize(u)) == normalize(u)]. *)
Theorem C10_normalize_idempotent_on_plain_urls :
  forall (url key : string) (r : urllib_parse.ParseResult),
    urllib_parse.urlparse (PyStr.lower url) = Ok r ->
    urllib_parse.scheme r <> "" ->
    (urllib_parse.path r = "" \/
     PyStr.startswith (urllib_parse.path r) "/" = true) ->
    urllib_parse.in_list (urllib_parse.scheme r) urllib_parse.uses_params
      && PyStr.contains (urllib_parse.path r) ";" = false ->
    PyStr.contains (urllib_parse.netloc r) "[" = false ->
    PyStr.contains (urllib_parse.netloc r) "]" = false ->
    PyStr.contains (PyStr.replace (urllib_parse.netloc r) "www." "") "www."
      = false ->
    SupabaseManager._normalize_url url = Ok key ->
    SupabaseManager._normalize_url key = Ok key.
Proof.
  intros url key r.
  intros Hparse Hsch Hpath Hsemi Hb1 Hb2 Hwww Hkey.
  pose proof (normalize_lower_case url key Hkey) as Hl.
  set (s := if in_list (scheme r) ["http"; "https"]
            then "https" else scheme r).
  assert (Hs : is_scheme s).
  { unfold s. destruct (in_list (scheme r) ["http"; "https"]);
      [exact is_scheme_https |].
    rewrite (urlparse_scheme _ _ Hparse) in *.
    destruct (scheme_split_is_scheme (clean (lower url))) as [E | E];
      [contradiction | exact E]. }
  assert (Hs1 : (if in_list s ["http"; "https"] then "https" else s) = s).
  { unfold s. destruct (in_list (scheme r) ["http"; "https"]) eqn:E;
      [reflexivity | rewrite E; reflexivity]. }
  assert (Hs2 : in_list s uses_params = in_list (scheme r) uses_params).
  { unfold s. destruct (in_list (scheme r) ["http"; "https"]) eqn:E;
      [| reflexivity].
    destruct (in_http_https _ E) as [-> | ->]; reflexivity. }
  unfold _normalize_url in Hkey. rewrite Hparse in Hkey.
  cbn [bind] in Hkey. injection Hkey as Hkey.
  assert (Hk : key = rstrip (s ++ "://" ++ (replace (netloc r) "www." ""
                                              ++ path r)) "/")
    by (symmetry; exact Hkey).
  clear Hkey.
  destruct (urlparse_pieces _ _ Hparse) as [D [U1 [U2 [Q1 Q2]]]].
  set (n := replace (netloc r) "www." "") in *.
  assert (Dn : forallb_str (fun c => negb (is_delim c)) n = true)
    by (unfold n, replace; apply all_replace_aux; exact D).
  assert (Un : forallb_str (fun c => negb (is_unsafe c)) n = true)
    by (unfold n, replace; apply all_replace_aux; exact U1).
  assert (B1 : contains n "[" = false)
    by (apply contains_char_false_replace; exact Hb1).
  assert (B2 : contains n "]" = false)
    by (apply contains_char_false_replace; exact Hb2).
  set (p' := rstrip (path r) "/").
  assert (Up : forallb_str (fun c => negb (is_unsafe c)) p' = true)
    by (apply all_rstrip; exact U2).
  assert (Qp : mem_char "?" p' = false)
    by (apply mem_char_all, all_rstrip, mem_char_all; exact Q1).
  assert (Hp : mem_char "#" p' = false)
    by (apply mem_char_all, all_rstrip, mem_char_all; exact Q2).
  assert (Sp : in_list s uses_params && contains p' ";" = false).
  { rewrite Hs2. apply andb_false_iff.
    apply andb_false_iff in Hsemi. destruct Hsemi as [H | H];
      [left; exact H | right].
    rewrite contains_char in *.
    apply mem_char_all, all_rstrip, mem_char_all; exact H. }
  assert (Fp : p' = "" \/ exists t, p' = String "/" t).
  { unfold p'. destruct Hpath as [-> | Hx]; [left; reflexivity |].
    destruct (path r) as [| x rest]; [left; reflexivity |].
    rewrite startswith_char in Hx. apply Ascii.eqb_eq in Hx. subst x.
    destruct (rstrip_head "/" rest "/") as [-> | [t ->]];
      [left; reflexivity | right; exists t; reflexivity]. }
  assert (E : rstrip (n ++ path r) "/" = n ++ p').
  { rewrite rstrip_app. fold p'.
    destruct p'; [| reflexivity].
    rewrite append_nil_r. apply rstrip_fixed, not_delim_not_slash, Dn. }
  assert (K : key = s ++ String ":" match n ++ p' with
                                    | "" => ""
                                    | t => "//" ++ t
                                    end).
  { rewrite Hk, rstrip_app.
    change ("://" ++ n ++ path r) with ("://" ++ (n ++ path r)).
    rewrite (rstrip_app "://"), E.
    destruct (n ++ p'); reflexivity. }
  unfold _normalize_url. rewrite Hl.
  destruct (n ++ p') as [| y t] eqn:En.
  - rewrite K at 1.
    rewrite (urlparse_scheme_rest s "" "" "" Hs eq_refl eq_refl eq_refl
               eq_refl) by (rewrite andb_false_r; reflexivity).
    cbn [bind netloc scheme path]. rewrite Hs1.
    change (replace "" "www." "") with "".
    rewrite rstrip_app. rewrite K. reflexivity.
  - assert (K2 : key = s ++ "://" ++ n ++ p')
      by (rewrite K, <- En; reflexivity).
    rewrite K2 at 1.
    change (s ++ "://" ++ n ++ p') with (s ++ String ":" ("//" ++ n ++ p')).
    rewrite (urlparse_scheme_rest s ("//" ++ n ++ p') n p' Hs).
    + cbn [bind netloc scheme path]. rewrite Hs1.
      rewrite (replace_absent n "www." "") by (assumption || discriminate).
      rewrite <- K2. f_equal.
      rewrite Hk. apply rstrip_idempotent.
    + cbn [append forallb_str].
      change (negb (is_unsafe "/")) with true. cbn [andb].
      apply all_append. split; assumption.
    + apply netloc_split_plain; assumption.
    + exact Qp.
    + exact Hp.
    + exact Sp.
Qed.

End IdempotentKeys.

Lemma C10_witness :
  SupabaseManager._normalize_url "https://example.com/path"
    = Ok "https://example.com/path".
Proof.
  apply (C10_normalize_idempotent_on_plain_urls
           "HTTP://WWW.Example.com/Path/" "https://example.com/path"
           (urllib_parse.mkParseResult
              "http" "www.example.com" "/path/" "" "" "")).
  - vm_compute. reflexivity.
  - discriminate.
  - right. vm_compute. reflexivity.
  - vm_compute. reflexivity.
  - vm_compute. reflexivity.
  - vm_compute. reflexivity.
  - vm_compute. reflexivity.
  - vm_compute. reflexivity.
Defined.

(* ================================================================== *)
(** * Properties: the query string                                      *)
(* ================================================================== *)

Section Query.
Import PyStr urllib_parse Parts SupabaseManager.

Lemma lower_append (a b : string) : lower (a ++ b) = lower a ++ lower b.
Proof. induction a as [| x a IH]; simpl; [| rewrite IH]; reflexivity. Qed.

Lemma mem_char_lower (c : ascii) (s : string) :
  (forall x, Ascii.eqb c (lower_char x) = Ascii.eqb c x) ->
  mem_char c (lower s) = mem_char c s.
Proof.
  intros H. induction s as [| x r IH]; simpl; [reflexivity |].
  rewrite H, IH. reflexivity.
Qed.

Lemma lower_char_question (x : ascii) :
  Ascii.eqb "?" (lower_char x) = Ascii.eqb "?" x.
Proof. destruct x as [[] [] [] [] [] [] [] []]; reflexivity. Qed.

Lemma lower_char_hash (x : ascii) :
  Ascii.eqb "#" (lower_char x) = Ascii.eqb "#" x.
Proof. destruct x as [[] [] [] [] [] [] [] []]; reflexivity. Qed.

Lemma lstrip_app_stop (a r chars : string) (c : ascii) :
  mem_char c chars = false ->
  lstrip (a ++ String c r) chars = lstrip a chars ++ String c r.
Proof.
  intros H. induction a as [| x a IH]; cbn [append lstrip].
  - rewrite H. reflexivity.
  - destruct (mem_char x chars); [exact IH | reflexivity].
Qed.

Lemma remove_append (p : ascii -> bool) (a b : string) :
  remove p (a ++ b) = remove p a ++ remove p b.
Proof.
  induction a as [| x a IH]; cbn [append remove]; [reflexivity |].
  destruct (p x); rewrite IH; reflexivity.
Qed.

Lemma until_app_delim (p : ascii -> bool) (a t : string) (c : ascii) :
  p c = true -> until p (a ++ String c t) = until p a.
Proof.
  intros H. induction a as [| x a IH]; cbn [append until].
  - rewrite H. reflexivity.
  - destruct (p x); [| rewrite IH]; reflexivity.
Qed.

Lemma from_app_delim (p : ascii -> bool) (a t : string) (c : ascii) :
  p c = true -> from p (a ++ String c t) = from p a ++ String c t.
Proof.
  intros H. induction a as [| x a IH]; cbn [append from].
  - rewrite H. reflexivity.
  - destruct (p x); [reflexivity | exact IH].
Qed.

Lemma forallb_append (P : ascii -> bool) (a b : string) :
  forallb_str P (a ++ b) = forallb_str P a && forallb_str P b.
Proof.
  induction a as [| x a IH]; cbn [append forallb_str]; [reflexivity |].
  rewrite IH. apply andb_assoc.
Qed.

(** What follows a question mark does not reach the scheme. *)
Lemma scheme_split_query (b q : string) :
  scheme_split (b ++ String "?" q) =
    (fst (scheme_split b), snd (scheme_split b) ++ String "?" q).
Proof.
  unfold scheme_split.
  destruct b as [| c0 r0].
  - cbn [append]. change (isalpha_ascii "?") with false.
    rewrite !andb_false_r. reflexivity.
  - cbn [append]. change (String c0 (r0 ++ String "?" q))
      with (String c0 r0 ++ String "?" q).
    rewrite mem_char_append, before_append, after_append.
    destruct (mem_char ":" (String c0 r0)) eqn:M.
    + cbn [orb]. destruct (_ && _); reflexivity.
    + cbn [orb fst snd].
      assert (F : forallb_str (fun c => mem_char c scheme_chars)
                    (String c0 r0 ++ before ":" (String "?" q)) = false).
      { rewrite forallb_append. cbn [before].
        change (Ascii.eqb ":" "?") with false. cbv iota.
        cbn [forallb_str]. change (mem_char "?" scheme_chars) with false.
        cbn [andb]. apply andb_false_r. }
      rewrite F, andb_false_r. reflexivity.
Qed.


(** What follows a question mark does not reach the netloc. *)
Lemma netloc_split_query (rest q : string) :
  netloc_split (rest ++ String "?" q) =
    match netloc_split rest with
    | Ok (nl, r3) => Ok (nl, r3 ++ String "?" q)
    | Raise e => Raise e
    end.
Proof.
  unfold netloc_split.
  destruct rest as [| a [| b r2]].
  - reflexivity.
  - destruct a as [[] [] [] [] [] [] [] []]; reflexivity.
  - cbn [append].
    assert (K : (do _ <- check_brackets (until is_delim (r2 ++ String "?" q));
                 Ok (until is_delim (r2 ++ String "?" q),
                     from is_delim (r2 ++ String "?" q)))
                = match (do _ <- check_brackets (until is_delim r2);
                         Ok (until is_delim r2, from is_delim r2)) with
                  | Ok (nl, r3) => Ok (nl, r3 ++ String "?" q)
                  | Raise e => Raise e
                  end).
    { rewrite until_app_delim, from_app_delim by reflexivity.
      destruct (check_brackets (until is_delim r2)) as [[] | e];
        reflexivity. }
    destruct a as [[] [] [] [] [] [] [] []]; try reflexivity.
    destruct b as [[] [] [] [] [] [] [] []]; try reflexivity.
    exact K.
Qed.

Lemma clean_query (b q : string) :
  clean (b ++ String "?" q) = clean b ++ String "?" (remove is_unsafe q).
Proof.
  unfold clean. rewrite lstrip_app_stop by reflexivity.
  rewrite remove_append. reflexivity.
Qed.

(** Scheme, netloc and path of [b?q] are those of [b], when [b] holds no
    question mark and no hash. *)
Lemma urlsplit_parts_query (b q : string) :
  mem_char "?" b = false -> mem_char "#" b = false ->
  match urlsplit_parts b, urlsplit_parts (b ++ String "?" q) with
  | Ok (s1, n1, p1, _, _), Ok (s2, n2, p2, _, _) =>
      s1 = s2 /\ n1 = n2 /\ p1 = p2
  | Raise e1, Raise e2 => e1 = e2
  | _, _ => False
  end.
Proof.
  intros Hq Hh. unfold urlsplit_parts.
  rewrite clean_query, scheme_split_query. cbn [fst snd].
  rewrite netloc_split_query.
  assert (Cq : forallb_str (fun c => negb (Ascii.eqb "?" c)) (clean b) = true)
    by (apply all_clean, mem_char_all, Hq).
  assert (Ch : forallb_str (fun c => negb (Ascii.eqb "#" c)) (clean b) = true)
    by (apply all_clean, mem_char_all, Hh).
  assert (Rq : forallb_str (fun c => negb (Ascii.eqb "?" c))
                 (snd (scheme_split (clean b))) = true).
  { unfold scheme_split. destruct (clean b) as [| c0 r0]; [reflexivity |].
    destruct (_ && _); cbn [snd]; [apply all_after |]; assumption. }
  assert (Rh : forallb_str (fun c => negb (Ascii.eqb "#" c))
                 (snd (scheme_split (clean b))) = true).
  { unfold scheme_split. destruct (clean b) as [| c0 r0]; [reflexivity |].
    destruct (_ && _); cbn [snd]; [apply all_after |]; assumption. }
  destruct (netloc_split (snd (scheme_split (clean b))))
    as [[nl r3] | e] eqn:En; [| reflexivity].
  cbv beta iota delta [bind fst snd].
  destruct (all_netloc_split _ _ _ _ Rq En) as [_ Q3].
  destruct (all_netloc_split _ _ _ _ Rh En) as [_ H3].
  apply mem_char_all in Q3. apply mem_char_all in H3.
  split; [reflexivity | split; [reflexivity |]].
  rewrite (before_absent "#" r3 H3), (before_absent "?" r3 Q3).
  rewrite (before_append "#"), H3.
  rewrite (before_append "?"), Q3.
  cbn [before]. change (Ascii.eqb "#" "?") with false. cbv iota.
  cbn [before]. change (Ascii.eqb "?" "?") with true. cbv iota.
  rewrite append_nil_r. reflexivity.
Qed.

Lemma urlparse_query (b q : string) :
  mem_char "?" b = false -> mem_char "#" b = false ->
  match urlparse b, urlparse (b ++ String "?" q) with
  | Ok r1, Ok r2 =>
      scheme r1 = scheme r2 /\ netloc r1 = netloc r2 /\ path r1 = path r2
  | Raise e1, Raise e2 => e1 = e2
  | _, _ => False
  end.
Proof.
  intros Hq Hh. unfold urlparse. rewrite !urlsplit_by_parts.
  pose proof (urlsplit_parts_query b q Hq Hh) as K.
  destruct (urlsplit_parts b) as [[[[[s1 n1] p1] q1] f1] | e1];
    destruct (urlsplit_parts (b ++ String "?" q))
      as [[[[[s2 n2] p2] q2] f2] | e2]; try contradiction.
  - destruct K as [<- [<- <-]]. cbv beta iota delta [bind].
    destruct (in_list s1 uses_params && contains p1 ";").
    + destruct (_splitparams p1) as [p' ps]. cbv beta iota. simpl. tauto.
    + cbv beta iota. simpl. tauto.
  - exact K.
Qed.

(** The query string does not reach the key. *)
Theorem normalize_drops_query (b q : string) :
  contains b "?" = false -> contains b "#" = false ->
  _normalize_url (b ++ "?" ++ q) = _normalize_url b.
Proof.
  rewrite !contains_char. intros Hq Hh.
  unfold _normalize_url.
  rewrite lower_append. change (lower ("?" ++ q)) with (String "?" (lower q)).
  assert (Lq : mem_char "?" (lower b) = false)
    by (rewrite mem_char_lower; [exact Hq | apply lower_char_question]).
  assert (Lh : mem_char "#" (lower b) = false)
    by (rewrite mem_char_lower; [exact Hh | apply lower_char_hash]).
  pose proof (urlparse_query (lower b) (lower q) Lq Lh) as K.
  destruct (urlparse (lower b)) as [r1 | e1];
    destruct (urlparse (lower b ++ String "?" (lower q))) as [r2 | e2];
    try contradiction.
  - destruct K as [E1 [E2 E3]]. cbn [bind]. rewrite E1, E2, E3. reflexivity.
  - cbn [bind]. rewrite K. reflexivity.
Qed.

End Query.

(** C3, as stated, fails: two URLs that differ only in their query string
    have the same key, and the existence check that finds one finds the
    other. *)
Lemma C3_counterexample :
  SupabaseManager._normalize_url "https://example.com/pricing?utm_source=news"
    = Ok "https://example.com/pricing" /\
  SupabaseManager._normalize_url "https://example.com/pricing?utm_source=mail"
    = Ok "https://example.com/pricing" /\
  SupabaseManager._normalize_url "https://example.com/pricing"
    = Ok "https://example.com/pricing" /\
  SupabaseManager.check_company_exists
    (Samples.store_with "https://example.com/pricing")
    "https://example.com/pricing?utm_source=news" = true /\
  SupabaseManager.check_company_exists
    (Samples.store_with "https://example.com/pricing")
    "https://example.com/pricing?utm_source=mail" = true.
Proof.
  vm_compute. repeat split.
Qed.

(** C3, amended.  The query string does not reach the key: for a text
    [base] without question mark and hash, the URLs [base?q1] and
    [base?q2] have the key of [base] itself (or all three fail to parse
    alike), so they are one profile for the existence check and for the
    lookup, on every store. *)
Theorem C3_query_string_is_dropped :
  forall (base q1 q2 : string),
    PyStr.contains base "?" = false ->
    PyStr.contains base "#" = false ->
    SupabaseManager._normalize_url (base ++ "?" ++ q1)
      = SupabaseManager._normalize_url base /\
    SupabaseManager._normalize_url (base ++ "?" ++ q1)
      = SupabaseManager._normalize_url (base ++ "?" ++ q2) /\
    (forall st : Store,
        SupabaseManager.check_company_exists st (base ++ "?" ++ q1)
          = SupabaseManager.check_company_exists st (base ++ "?" ++ q2) /\
        SupabaseManager.get_company_profile st (base ++ "?" ++ q1)
          = SupabaseManager.get_company_profile st (base ++ "?" ++ q2)).
Proof.
  intros base q1 q2 Hq Hh.
  pose proof (normalize_drops_query base q1 Hq Hh) as E1.
  pose proof (normalize_drops_query base q2 Hq Hh) as E2.
  split; [exact E1 |].
  split; [rewrite E1, E2; reflexivity |].
  intros st.
  unfold SupabaseManager.check_company_exists,
    SupabaseManager.get_company_profile.
  rewrite E1, E2. split; reflexivity.
Qed.

Lemma C3_witness :
  SupabaseManager._normalize_url
    ("https://example.com/pricing" ++ "?" ++ "utm_source=news")
    = SupabaseManager._normalize_url "https://example.com/pricing" /\
  SupabaseManager._normalize_url
    ("https://example.com/pricing" ++ "?" ++ "utm_source=news")
    = SupabaseManager._normalize_url
        ("https://example.com/pricing" ++ "?" ++ "utm_source=mail") /\
  (forall st : Store,
      SupabaseManager.check_company_exists st
        ("https://example.com/pricing" ++ "?" ++ "utm_source=news")
        = SupabaseManager.check_company_exists st
            ("https://example.com/pricing" ++ "?" ++ "utm_source=mail") /\
      SupabaseManager.get_company_profile st
        ("https://example.com/pricing" ++ "?" ++ "utm_source=news")
        = SupabaseManager.get_company_profile st
            ("https://example.com/pricing" ++ "?" ++ "utm_source=mail")).
Proof.
  apply (C3_query_string_is_dropped "https://example.com/pricing"
           "utm_source=news" "utm_source=mail").
  - vm_compute. reflexivity.
  - vm_compute. reflexivity.
Defined.

(* ================================================================== *)
(** * Properties: lookups and saves of the profile store                *)
(* ================================================================== *)

(** X1.  The existence check and the lookup agree.
    [check_company_exists] answers [True] exactly when
    [get_company_profile] returns a profile, and exactly when the store
    is reachable, the URL has a key and some row is stored under that
    key.  The profile returned is a row of the table, and its
    [website_url] is the key of the URL asked for.  (An unreachable store
    and a URL without a key give [False] and [None].) *)
Theorem lookup_agrees_with_existence_check :
  forall (st : Store) (u : string),
    (SupabaseManager.check_company_exists st u = true <->
     exists row, SupabaseManager.get_company_profile st u = Some row)
    /\
    (SupabaseManager.check_company_exists st u = true <->
     online st = true /\
     exists key row,
       SupabaseManager._normalize_url u = Ok key /\
       In row (rows st) /\ website_url (columns row) = key)
    /\
    (forall row,
       SupabaseManager.get_company_profile st u = Some row ->
       In row (rows st) /\
       SupabaseManager._normalize_url u = Ok (website_url (columns row))).
Proof.
  intros st u.
  destruct (online st) eqn:Hon.
  2: { destruct (lookups_unreachable st u Hon) as [-> ->].
       split; [| split].
       - split; [discriminate | intros [row H]; discriminate].
       - split; [discriminate | intros [H _]; discriminate].
       - intros row H. discriminate. }
  destruct (SupabaseManager._normalize_url u) as [key | e] eqn:Hn.
  2: { destruct (lookups_no_key st u e Hn) as [-> ->].
       split; [| split].
       - split; [discriminate | intros [row H]; discriminate].
       - split; [discriminate |].
         intros [_ [key [row [H _]]]]. discriminate.
       - intros row H. discriminate. }
  destruct (lookups_by_key st u key Hn Hon) as [-> ->].
  remember (filter (fun r => String.eqb (website_url (columns r)) key)
              (rows st)) as found eqn:Ef.
  assert (Hin : forall r, In r found <->
                  In r (rows st) /\ website_url (columns r) = key).
  { intros r. rewrite Ef, filter_In, String.eqb_eq. reflexivity. }
  destruct found as [| r0 rest]; cbn [length hd_error Nat.eqb negb].
  - split; [| split].
    + split; [discriminate | intros [row H]; discriminate].
    + split; [discriminate |].
      intros [_ [key' [row [Hk [Hr Hw]]]]].
      injection Hk as <-.
      destruct (proj2 (Hin row) (conj Hr Hw)).
    + intros row H. discriminate.
  - split; [| split].
    + split; [intros _; exists r0; reflexivity | reflexivity].
    + split; [| reflexivity].
      intros _. split; [reflexivity |]. exists key, r0.
      destruct (proj1 (Hin r0) (or_introl eq_refl)) as [H1 H2].
      repeat split; assumption.
    + intros row H. injection H as <-.
      destruct (proj1 (Hin r0) (or_introl eq_refl)) as [H1 H2].
      split; [exact H1 | rewrite H2; reflexivity].
Qed.

Lemma lookup_agrees_with_existence_check_witness :
  In (Samples.profile "https://example.com")
     (rows (Samples.store_with "https://example.com")) /\
  SupabaseManager._normalize_url "HTTP://WWW.Example.com/"
    = Ok (website_url (columns (Samples.profile "https://example.com"))).
Proof.
  apply (proj2 (proj2 (lookup_agrees_with_existence_check
                         (Samples.store_with "https://example.com")
                         "HTTP://WWW.Example.com/"))).
  vm_compute. reflexivity.
Defined.

(** X2.  Save, then look up.  After a successful save of a profile whose
    URL is [raw], for every URL with the key of [raw] the existence check
    answers [True] and the lookup returns the saved row; for a URL with
    another key, or with none, both answer as they did before the save. *)
Theorem saved_profile_is_found :
  forall (w : World) (st st' : Store) (profile_data : dict) (raw : string)
         (row : Row),
    Dict.get profile_data "website_url" = Some (VStr raw) ->
    SupabaseManager.save_company_profile w st profile_data
      = (Ok (SavedRow row), st') ->
    forall u : string,
      (SupabaseManager._normalize_url u = SupabaseManager._normalize_url raw ->
       SupabaseManager.check_company_exists st' u = true /\
       SupabaseManager.get_company_profile st' u = Some row)
      /\
      (SupabaseManager._normalize_url u <> SupabaseManager._normalize_url raw ->
       SupabaseManager.check_company_exists st' u
         = SupabaseManager.check_company_exists st u /\
       SupabaseManager.get_company_profile st' u
         = SupabaseManager.get_company_profile st u).
Proof.
  intros w st st' pd raw row Hget Hsave u.
  destruct (save_ok w st st' pd _ Hsave)
    as [row' [key [Hsv [Hkey [Hw [Hon [Hfresh ->]]]]]]].
  injection Hsv as <-.
  assert (Hraw : SupabaseManager._normalize_url raw = Ok key).
  { unfold SupabaseManager.normalized_key in Hkey.
    rewrite Hget in Hkey. exact Hkey. }
  rewrite Hraw. rewrite <- Hw in Hfresh.
  split.
  - intros Hu.
    apply (proj1 (lookups_after_append st row u key Hu Hfresh)). exact Hw.
  - intros Hu.
    destruct (SupabaseManager._normalize_url u) as [k | e] eqn:Hn.
    + apply (proj2 (lookups_after_append st row u k Hn Hfresh)).
      * intros E. apply Hu. rewrite <- E, Hw. reflexivity.
      * exact Hon.
    + destruct (lookups_no_key st u e Hn) as [-> ->].
      destruct (lookups_no_key (mkStore (rows st ++ [row]) true) u e Hn)
        as [-> ->].
      split; reflexivity.
Qed.

Lemma saved_profile_is_found_witness :
  exists row st',
    SupabaseManager.save_company_profile Samples.world Samples.empty_store
      [("website_url", VStr "HTTP://WWW.Example.com/")]
      = (Ok (SavedRow row), st') /\
    SupabaseManager.check_company_exists st' "https://example.com" = true /\
    SupabaseManager.get_company_profile st' "https://example.com" = Some row.
Proof.
  pose (res := SupabaseManager.save_company_profile Samples.world
                 Samples.empty_store
                 [("website_url", VStr "HTTP://WWW.Example.com/")]).
  pose (row := match fst res with
               | Ok (SavedRow r) => r
               | _ => Samples.profile ""
               end).
  assert (E : SupabaseManager.save_company_profile Samples.world
                Samples.empty_store
                [("website_url", VStr "HTTP://WWW.Example.com/")]
              = (Ok (SavedRow row), snd res)) by (vm_compute; reflexivity).
  exists row, (snd res). split; [exact E |].
  apply (proj1 (saved_profile_is_found Samples.world Samples.empty_store
                  (snd res) [("website_url", VStr "HTTP://WWW.Example.com/")]
                  "HTTP://WWW.Example.com/" row eq_refl E
                  "https://example.com")).
  vm_compute. reflexivity.
Defined.

(** X3.  A profile is inserted, never updated: saving a profile whose URL
    the existence check already finds raises, and the table is left as it
    was (the column [website_url] is unique). *)
Theorem save_rejects_known_key :
  forall (w : World) (st : Store) (profile_data : dict) (raw : string),
    Dict.get profile_data "website_url" = Some (VStr raw) ->
    SupabaseManager.check_company_exists st raw = true ->
    exists e,
      SupabaseManager.save_company_profile w st profile_data = (Raise e, st).
Proof.
  intros w st pd raw Hget Hex.
  destruct (save_cases w st pd) as [H | [row [key [E [Hk Hw]]]]];
    [exact H | exfalso].
  destruct (save_ok w st _ pd _ E)
    as [row' [key' [_ [Hkey [_ [Hon [Hfresh _]]]]]]].
  rewrite Hk in Hkey. injection Hkey as <-.
  unfold SupabaseManager.normalized_key in Hk. rewrite Hget in Hk.
  destruct (lookups_by_key st raw key Hk Hon) as [Hc _].
  cbv zeta in Hc. rewrite Hex in Hc.
  destruct (filter _ (rows st)) as [| r rest] eqn:Ef; [discriminate |].
  assert (Hin : In r (filter
                        (fun r => String.eqb (website_url (columns r)) key)
                        (rows st))).
  { rewrite Ef. left. reflexivity. }
  apply filter_In in Hin. destruct Hin as [Hin Hr].
  apply String.eqb_eq in Hr. exact (Hfresh r Hin Hr).
Qed.

Lemma save_rejects_known_key_witness :
  exists e,
    SupabaseManager.save_company_profile Samples.world
      (Samples.store_with "https://example.com")
      [("website_url", VStr "http://www.example.com/")]
    = (Raise e, Samples.store_with "https://example.com").
Proof.
  apply (save_rejects_known_key Samples.world
           (Samples.store_with "https://example.com")
           [("website_url", VStr "http://www.example.com/")]
           "http://www.example.com/").
  - reflexivity.
  - vm_compute. reflexivity.
Defined.

(* ================================================================== *)
(** * Properties: merged dictionaries                                   *)
(* ================================================================== *)

Section Dictionaries.

Lemma get_set (d : dict) (k k' : string) (v : value) :
  Dict.get (Dict.set d k v) k'
  = if String.eqb k' k then Some v else Dict.get d k'.
Proof.
  induction d as [| [k0 v0] d IH]; cbn [Dict.set Dict.get].
  - reflexivity.
  - destruct (String.eqb k k0) eqn:E; cbn [Dict.get].
    + apply String.eqb_eq in E. subst k0.
      destruct (String.eqb k' k); reflexivity.
    + rewrite IH. destruct (String.eqb k' k0) eqn:E0; [| reflexivity].
      apply String.eqb_eq in E0. subst k0.
      rewrite String.eqb_sym, E. reflexivity.
Qed.

Lemma get_absent (d : dict) (k : string) :
  Dict.get d k = None <-> ~ In k (map fst d).
Proof.
  induction d as [| [k0 v0] d IH]; cbn [Dict.get map fst In].
  - tauto.
  - destruct (String.eqb k k0) eqn:E.
    + apply String.eqb_eq in E. split; [discriminate | intros H].
      exfalso. apply H. left. symmetry. exact E.
    + apply String.eqb_neq in E. rewrite IH. split.
      * intros H [H1 | H1]; [apply E; symmetry; exact H1 | exact (H H1)].
      * intros H H1. apply H. right. exact H1.
Qed.

(** An entry of the second dictionary is in the merged one, an entry
    missing there is taken from the first. *)
Lemma get_merge (a b : dict) (k : string) :
  NoDup (map fst b) ->
  Dict.get (Dict.merge a b) k
  = match Dict.get b k with
    | Some v => Some v
    | None => Dict.get a k
    end.
Proof.
  unfold Dict.merge. revert a.
  induction b as [| [k0 v0] b IH]; intros a Hnd; cbn [fold_left Dict.get].
  - reflexivity.
  - cbn [map fst] in Hnd. apply NoDup_cons_iff in Hnd.
    destruct Hnd as [Hk0 Hnd]. cbn [fst snd].
    rewrite (IH _ Hnd), get_set.
    destruct (String.eqb k k0) eqn:E; [| reflexivity].
    apply String.eqb_eq in E. subst k0.
    apply get_absent in Hk0. rewrite Hk0. reflexivity.
Qed.

Lemma get_merge_absent (a b : dict) (k : string) :
  Dict.get b k = None ->
  Dict.get (Dict.merge a b) k = Dict.get a k.
Proof.
  unfold Dict.merge. revert a.
  induction b as [| [k0 v0] b IH]; intros a Hb; cbn [fold_left].
  - reflexivity.
  - cbn [Dict.get] in Hb. cbn [fst snd].
    destruct (String.eqb k k0) eqn:E; [discriminate |].
    rewrite (IH _ Hb), get_set, E. reflexivity.
Qed.

End Dictionaries.

(* ================================================================== *)
(** * Properties: the cases of a run                                    *)
(* ================================================================== *)

Section Runs.
Import StartupProfilerAgent Assembled.

(** Every run is one of six: the URL does not parse; the profile exists;
    the scraper raises; the analysis raises or is no mapping; the save
    raises; the save succeeds. *)
Lemma run_cases (w : World) (st : Store) (url : string) :
  (exists e,
      _extract_company_name w url = Raise e /\
      profile_company w st url = (error_result e, st, []))
  \/
  (exists name,
      _extract_company_name w url = Ok name /\
      SupabaseManager.check_company_exists st url = true /\
      profile_company w st url =
        (exists_result (SupabaseManager.get_company_profile st url), st,
         [CallCheckExists url; CallGetProfile url]))
  \/
  (exists name e,
      _extract_company_name w url = Ok name /\
      SupabaseManager.check_company_exists st url = false /\
      WebScraper.scrape_website w url = Raise e /\
      profile_company w st url =
        (error_result e, st, [CallCheckExists url; CallScrape url]))
  \/
  (exists name sd e,
      let company := str_or name (sd_title sd) in
      let news := NewsFetcher.fetch_company_news w company 5 in
      _extract_company_name w url = Ok name /\
      SupabaseManager.check_company_exists st url = false /\
      WebScraper.scrape_website w url = Ok sd /\
      (do analysis <- GeminiAnalyzer.analyze_company w sd news;
       as_mapping analysis) = Raise e /\
      profile_company w st url =
        (error_result e, st,
         [CallCheckExists url; CallScrape url; CallFetchNews company;
          CallAnalyze sd news]))
  \/
  (exists name sd items e,
      let company := str_or name (sd_title sd) in
      let news := NewsFetcher.fetch_company_news w company 5 in
      let pd := profile_data url name sd news items in
      _extract_company_name w url = Ok name /\
      SupabaseManager.check_company_exists st url = false /\
      WebScraper.scrape_website w url = Ok sd /\
      GeminiAnalyzer.analyze_company w sd news = Ok (VDict items) /\
      SupabaseManager.save_company_profile w st pd = (Raise e, st) /\
      profile_company w st url =
        (error_result e, st,
         [CallCheckExists url; CallScrape url; CallFetchNews company;
          CallAnalyze sd news; CallSave pd]))
  \/
  (exists name sd items row st',
      let company := str_or name (sd_title sd) in
      let news := NewsFetcher.fetch_company_news w company 5 in
      let pd := profile_data url name sd news items in
      _extract_company_name w url = Ok name /\
      SupabaseManager.check_company_exists st url = false /\
      WebScraper.scrape_website w url = Ok sd /\
      GeminiAnalyzer.analyze_company w sd news = Ok (VDict items) /\
      SupabaseManager.save_company_profile w st pd
        = (Ok (SavedRow row), st') /\
      profile_company w st url =
        (success_result (SavedRow row), st',
         [CallCheckExists url; CallScrape url; CallFetchNews company;
          CallAnalyze sd news; CallSave pd])).
Proof.
  unfold profile_company, profile_company_body.
  unfold bindM, lift, check_company_exists, get_company_profile, ret,
    scrape_website, fetch_company_news, analyze_company,
    save_company_profile.
  destruct (_extract_company_name w url) as [name | e];
    [| left; exists e; split; reflexivity].
  right.
  destruct (SupabaseManager.check_company_exists st url);
    [left; exists name; repeat split |].
  right.
  destruct (WebScraper.scrape_website w url) as [sd | e];
    [| left; exists name, e; repeat split].
  right.
  destruct (GeminiAnalyzer.analyze_company w sd _) as [analysis | e] eqn:Ea;
    [| left; exists name, sd, e; cbv zeta; rewrite Ea; repeat split].
  destruct analysis as [| b | n | f | s | xs | items];
    try solve [left; exists name, sd; eexists; cbv zeta; rewrite Ea;
               repeat split].
  right. cbn [as_mapping].
  fold (profile_data url name sd
          (NewsFetcher.fetch_company_news w (str_or name (sd_title sd)) 5)
          items).
  destruct (save_cases w st
              (profile_data url name sd
                 (NewsFetcher.fetch_company_news w
                    (str_or name (sd_title sd)) 5) items))
    as [[e E] | [row [key [E _]]]]; rewrite E.
  - left. exists name, sd, items, e. cbv zeta. rewrite Ea, E.
    repeat split.
  - right. exists name, sd, items, row. eexists. cbv zeta. rewrite Ea, E.
    repeat split.
Qed.

End Runs.

Section RunTheorems.
Import StartupProfilerAgent Assembled.

(** X4.  A run of [profile_company] never removes or changes a stored row
    and leaves the store as reachable as it was.  The table afterwards is
    the table before, or the table before followed by one new row; a new
    row comes only with status "success", is the data returned, and has a
    key that no earlier row has.  So a table whose keys are distinct
    keeps distinct keys. *)
Theorem run_only_appends :
  forall (w : World) (st : Store) (url : string),
    let run := profile_company w st url in
    let result := fst (fst run) in
    let st' := snd (fst run) in
    online st' = online st /\
    (rows st' = rows st \/
     exists row,
       rows st' = (rows st ++ [row])%list /\
       status result = "success" /\
       data_of result = DataRow row /\
       forall r, In r (rows st) ->
         website_url (columns r) <> website_url (columns row)) /\
    (NoDup (map (fun r => website_url (columns r)) (rows st)) ->
     NoDup (map (fun r => website_url (columns r)) (rows st'))).
Proof.
  intros w st url run result st'. subst result st' run.
  destruct (run_cases w st url)
    as [[e [_ E]] | [[name [_ [_ E]]] | [[name [e [_ [_ [_ E]]]]]
        | [[name [sd [e [_ [_ [_ [_ E]]]]]]]
        | [[name [sd [items [e [_ [_ [_ [_ [_ E]]]]]]]]]
        | [name [sd [items [row [st' [_ [_ [_ [_ [Hs E]]]]]]]]]]]]]]];
    rewrite E; cbn [fst snd];
    try (split; [reflexivity | split; [left; reflexivity | tauto]]).
  destruct (save_ok w st st' _ _ Hs)
    as [row' [key [Hsv [_ [Hw [Hon [Hfresh ->]]]]]]].
  injection Hsv as <-. cbn [rows online].
  split; [symmetry; exact Hon |]. split.
  - right. exists row. rewrite Hw. repeat split. exact Hfresh.
  - intros Hnd. rewrite map_app. cbn [map].
    apply NoDup_app; [exact Hnd | repeat constructor; intros [] |].
    intros k Hk [Hk' | []]. apply in_map_iff in Hk.
    destruct Hk as [r [Hr Hin]]. rewrite <- Hk' in Hr.
    rewrite Hw in Hr. exact (Hfresh r Hin Hr).
Qed.

Lemma run_only_appends_witness :
  NoDup (map (fun r => website_url (columns r))
           (rows (snd (fst (profile_company Samples.world
                              (Samples.store_with "https://other.org")
                              "https://example.com"))))).
Proof.
  apply (proj2 (proj2 (run_only_appends Samples.world
                         (Samples.store_with "https://other.org")
                         "https://example.com"))).
  simpl. repeat constructor. simpl. tauto.
Defined.

(** A key that the existence check does not find on a reachable store is
    the key of no row. *)
Lemma unknown_key_is_fresh (st : Store) (url key : string) :
  SupabaseManager.check_company_exists st url = false ->
  SupabaseManager._normalize_url url = Ok key ->
  online st = true ->
  forall r, In r (rows st) -> website_url (columns r) <> key.
Proof.
  intros Hc Hn Hon r Hin Hr.
  destruct (lookups_by_key st url key Hn Hon) as [E _]. cbv zeta in E.
  rewrite Hc in E.
  assert (Hf : In r (filter
                       (fun r => String.eqb (website_url (columns r)) key)
                       (rows st))).
  { apply filter_In. split; [exact Hin | apply String.eqb_eq; exact Hr]. }
  destruct (filter _ (rows st)); [destruct Hf | discriminate].
Qed.

(** X5.  The run that succeeds.  When the URL parses as written, the
    existence check answers [False], the scraper returns a page, the
    analysis is an object without an entry [website_url], the URL has a
    key, the store is reachable and accepts the record, the run returns
    status "success" with the new row as data; the table is the old one
    followed by that row, whose [website_url] is the key of the URL; and
    the calls are, in this order: existence check, scraper, news fetch
    for the company name (or the page title when the name is empty),
    analysis of the scraped page and the fetched news, save. *)
Theorem run_succeeds :
  forall (w : World) (st : Store) (url name key : string)
         (sd : ScrapedData) (items : dict),
    let company := str_or name (sd_title sd) in
    let news := NewsFetcher.fetch_company_news w company 5 in
    let pd := profile_data url name sd news items in
    _extract_company_name w url = Ok name ->
    SupabaseManager.check_company_exists st url = false ->
    WebScraper.scrape_website w url = Ok sd ->
    GeminiAnalyzer.analyze_company w sd news = Ok (VDict items) ->
    Dict.get items "website_url" = None ->
    SupabaseManager._normalize_url url = Ok key ->
    online st = true ->
    (forall record, accepts w record = true) ->
    exists row,
      profile_company w st url =
        (success_result (SavedRow row),
         mkStore (rows st ++ [row]) true,
         [CallCheckExists url; CallScrape url; CallFetchNews company;
          CallAnalyze sd news; CallSave pd]) /\
      website_url (columns row) = key.
Proof.
  intros w st url name key sd items company news pd
    Hname Hcheck Hscrape Hanalyze Hitems Hkey Hon Hacc.
  assert (Hpd : SupabaseManager.normalized_key pd = Ok key).
  { unfold SupabaseManager.normalized_key, pd, profile_data.
    rewrite (get_merge_absent _ _ _ Hitems). cbn [Dict.get String.eqb].
    cbn. exact Hkey. }
  destruct (save_succeeds w st pd key Hpd Hon
              (unknown_key_is_fresh st url key Hcheck Hkey Hon) Hacc)
    as [row [Hsave Hrow]].
  exists row. split; [| exact Hrow].
  unfold profile_company, profile_company_body.
  unfold bindM, lift, check_company_exists, get_company_profile, ret,
    scrape_website, fetch_company_news, analyze_company,
    save_company_profile.
  rewrite Hname, Hcheck, Hscrape.
  unfold news, company in Hanalyze. rewrite Hanalyze. cbn [as_mapping].
  change (Dict.merge _ items) with pd.
  rewrite Hsave, Hon. reflexivity.
Qed.

Lemma run_succeeds_witness :
  exists row,
    fst (fst (profile_company Samples.world Samples.empty_store
                "https://example.com"))
      = success_result (SavedRow row) /\
    rows (snd (fst (profile_company Samples.world Samples.empty_store
                      "https://example.com"))) = [row] /\
    website_url (columns row) = "https://example.com".
Proof.
  pose (sd := match WebScraper.scrape_website Samples.world
                      "https://example.com" with
              | Ok sd => sd
              | Raise _ => mkScrapedData "" "" "" [] [] [] "" VNone
              end).
  destruct (run_succeeds Samples.world Samples.empty_store
              "https://example.com" "Example" "https://example.com" sd [])
    as [row [E K]].
  - vm_compute. reflexivity.
  - vm_compute. reflexivity.
  - vm_compute. reflexivity.
  - vm_compute. reflexivity.
  - reflexivity.
  - vm_compute. reflexivity.
  - reflexivity.
  - reflexivity.
  - exists row. rewrite E. repeat split. exact K.
Defined.

(** The columns of a saved row, by the dictionary that was saved. *)
Lemma save_columns (w : World) (st st' : Store) (pd : dict) (row : Row) :
  SupabaseManager.save_company_profile w st pd = (Ok (SavedRow row), st') ->
  let column k default := Dict.get_default pd k default in
  company_name (columns row) = column "company_name" (VStr "") /\
  page_title (columns row) = column "page_title" (VStr "") /\
  meta_description (columns row) = column "meta_description" (VStr "") /\
  company_summary (columns row) = column "company_summary" (VStr "") /\
  industry_category (columns row) = column "industry_category" (VStr "") /\
  target_audience (columns row) = column "target_audience" (VStr "") /\
  key_problems_solved (columns row)
    = column "key_problems_solved" (VList []) /\
  potential_competitors (columns row)
    = column "potential_competitors" (VList []) /\
  news_summary (columns row) = column "news_summary" (VStr "") /\
  h1_tags (columns row) = column "h1_tags" (VList []) /\
  h2_tags (columns row) = column "h2_tags" (VList []) /\
  outbound_links (columns row) = column "outbound_links" (VList []) /\
  latest_news (columns row) = column "latest_news" (VList []) /\
  scraped_content (columns row) = column "scraped_content" (VStr "").
Proof.
  unfold SupabaseManager.save_company_profile.
  destruct (SupabaseManager.normalized_key pd) as [key | e]; [| discriminate].
  match goal with
  | |- context [Supabase.insert w st ?r] =>
      destruct (Supabase.insert w st r) as [[data | e] st1] eqn:E;
        [| discriminate];
        destruct (insert_ok w st st1 r data E) as [_ [_ [row' [-> [Hc _]]]]]
  end.
  intros H. injection H as <- _. rewrite Hc. cbv zeta.
  repeat split.
Qed.

(** A default is looked up in the analysis first, then in the fields the
    run collected. *)
Lemma get_default_merge (a b : dict) (k : string) (default : value) :
  NoDup (map fst b) ->
  Dict.get_default (Dict.merge a b) k default
  = Dict.get_default b k (Dict.get_default a k default).
Proof.
  intros Hnd. unfold Dict.get_default. rewrite (get_merge a b k Hnd).
  destruct (Dict.get b k); reflexivity.
Qed.

(** X6.  What a successful run stores.  Every column is the entry of that
    name in the analysis when the analysis has one, and otherwise the
    value the run collected: the name or title, the scraped title,
    description, headings, links and content, the fetched news, and the
    empty text or list for the six insight columns.  This holds for the
    key too: when the analysis has a text entry [website_url], the row is
    stored under the key of that text, not under the key of the URL the
    run was asked for. *)
Theorem analysis_entries_override :
  forall (w : World) (st : Store) (url name : string) (sd : ScrapedData)
         (items : dict) (row : Row),
    let company := str_or name (sd_title sd) in
    let news := NewsFetcher.fetch_company_news w company 5 in
    let run := profile_company w st url in
    _extract_company_name w url = Ok name ->
    WebScraper.scrape_website w url = Ok sd ->
    GeminiAnalyzer.analyze_company w sd news = Ok (VDict items) ->
    NoDup (map fst items) ->
    status (fst (fst run)) = "success" ->
    data_of (fst (fst run)) = DataRow row ->
    let entry k default := Dict.get_default items k default in
    SupabaseManager._normalize_url
      match Dict.get items "website_url" with
      | Some (VStr other) => other
      | _ => url
      end = Ok (website_url (columns row)) /\
    company_name (columns row) = entry "company_name" (VStr company) /\
    page_title (columns row) = entry "page_title" (VStr (sd_title sd)) /\
    meta_description (columns row)
      = entry "meta_description" (VStr (sd_meta_description sd)) /\
    company_summary (columns row) = entry "company_summary" (VStr "") /\
    industry_category (columns row) = entry "industry_category" (VStr "") /\
    target_audience (columns row) = entry "target_audience" (VStr "") /\
    key_problems_solved (columns row)
      = entry "key_problems_solved" (VList []) /\
    potential_competitors (columns row)
      = entry "potential_competitors" (VList []) /\
    news_summary (columns row) = entry "news_summary" (VStr "") /\
    h1_tags (columns row)
      = entry "h1_tags" (VList (map VStr (sd_h1_tags sd))) /\
    h2_tags (columns row)
      = entry "h2_tags" (VList (map VStr (sd_h2_tags sd))) /\
    outbound_links (columns row)
      = entry "outbound_links" (VList (map VStr (sd_outbound_links sd))) /\
    latest_news (columns row)
      = entry "latest_news" (VList (map value_of_news news)) /\
    scraped_content (columns row)
      = entry "scraped_content" (VStr (sd_content sd)).
Proof.
  intros w st url name sd items row company news run
    Hname Hscrape Hanalyze Hnd Hstatus Hdata entry.
  subst run.
  destruct (run_cases w st url)
    as [[e [_ E]] | [[name' [_ [_ E]]] | [[name' [e [_ [_ [_ E]]]]]
        | [[name' [sd' [e [_ [_ [_ [_ E]]]]]]]
        | [[name' [sd' [items' [e [_ [_ [_ [_ [_ E]]]]]]]]]
        | [name' [sd' [items' [row' [st' [Hn [_ [Hs [Ha [Hsave E]]]]]]]]]]]]]]];
    rewrite E in Hstatus, Hdata; cbn in Hstatus, Hdata;
    try discriminate.
  injection Hdata as ->.
  rewrite Hname in Hn. injection Hn as <-.
  rewrite Hscrape in Hs. injection Hs as <-.
  fold company in Ha. fold news in Ha.
  rewrite Hanalyze in Ha. injection Ha as <-.
  fold company in Hsave. fold news in Hsave.
  destruct (save_ok w st st' _ _ Hsave)
    as [row' [key [Hsv [Hkey [Hw _]]]]].
  injection Hsv as <-.
  destruct (save_columns w st st' _ row Hsave)
    as [C1 [C2 [C3 [C4 [C5 [C6 [C7 [C8 [C9 [C10 [C11 [C12 [C13 C14]]]]]]]]]]]]].
  unfold profile_data in C1, C2, C3, C4, C5, C6, C7, C8, C9, C10, C11, C12,
    C13, C14.
  repeat match goal with
         | H : context [Dict.get_default (Dict.merge _ _) _ _] |- _ =>
             rewrite (get_default_merge _ _ _ _ Hnd) in H;
             unfold Dict.get_default at 2 in H;
             cbn [Dict.get String.eqb Ascii.eqb Bool.eqb] in H
         end.
  split.
  - rewrite Hw. rewrite <- Hkey.
    unfold SupabaseManager.normalized_key in Hkey |- *.
    unfold profile_data in Hkey |- *.
    rewrite (get_merge _ _ _ Hnd) in Hkey |- *.
    destruct (Dict.get items "website_url") as [[| b | n | f | s | xs | d] |];
      try discriminate Hkey; reflexivity.
  - unfold entry. repeat split; assumption.
Qed.

Lemma analysis_entries_override_witness :
  let w := Scenarios.world_answering Scenarios.opinionated_response in
  let run := profile_company w Samples.empty_store "https://example.com" in
  exists row,
    data_of (fst (fst run)) = DataRow row /\
    website_url (columns row) = "https://other.org/x" /\
    page_title (columns row) = VStr "Overridden" /\
    company_summary (columns row) = VStr "".
Proof.
  intros w run.
  pose (sd := match WebScraper.scrape_website w "https://example.com" with
              | Ok sd => sd
              | Raise _ => mkScrapedData "" "" "" [] [] [] "" VNone
              end).
  pose (row := match data_of (fst (fst run)) with
               | DataRow r => r
               | _ => Samples.profile ""
               end).
  assert (Hrow : data_of (fst (fst run)) = DataRow row)
    by (vm_compute; reflexivity).
  destruct (analysis_entries_override w Samples.empty_store
              "https://example.com" "Example" sd
              [("page_title", VStr "Overridden");
               ("website_url", VStr "https://other.org/x")]
              row)
    as [Hkey [_ [Htitle [_ [Hsummary _]]]]].
  - vm_compute. reflexivity.
  - vm_compute. reflexivity.
  - vm_compute. reflexivity.
  - repeat constructor; simpl; intuition discriminate.
  - vm_compute. reflexivity.
  - exact Hrow.
  - exists row. split; [exact Hrow |]. split; [| split].
    + change (SupabaseManager._normalize_url "https://other.org/x"
              = Ok (website_url (columns row))) in Hkey.
      assert (N : SupabaseManager._normalize_url "https://other.org/x"
                  = Ok "https://other.org/x") by (vm_compute; reflexivity).
      rewrite N in Hkey. congruence.
    + exact Htitle.
    + exact Hsummary.
Defined.

(** X7.  After a run with status "success", the row it returned is what
    later runs find: on the store the run left, for every URL that parses
    as written and whose key is the [website_url] of that row, a run (in
    any world) returns status "exists" with that row as data, calls only
    the existence check and the lookup, and leaves the store as it is. *)
Theorem later_run_returns_saved_profile :
  forall (w : World) (st : Store) (url : string),
    let run := profile_company w st url in
    let st' := snd (fst run) in
    status (fst (fst run)) = "success" ->
    exists row,
      data_of (fst (fst run)) = DataRow row /\
      forall (w2 : World) (url2 name2 : string),
        _extract_company_name w2 url2 = Ok name2 ->
        SupabaseManager._normalize_url url2
          = Ok (website_url (columns row)) ->
        profile_company w2 st' url2 =
          (exists_result (Some row), st',
           [CallCheckExists url2; CallGetProfile url2]).
Proof.
  intros w st url run st' Hstatus. subst st' run.
  destruct (run_cases w st url)
    as [[e [_ E]] | [[name' [_ [_ E]]] | [[name' [e [_ [_ [_ E]]]]]
        | [[name' [sd' [e [_ [_ [_ [_ E]]]]]]]
        | [[name' [sd' [items' [e [_ [_ [_ [_ [_ E]]]]]]]]]
        | [name' [sd' [items' [row [st' [_ [_ [_ [_ [Hsave E]]]]]]]]]]]]]]];
    rewrite E in Hstatus |- *; cbn in Hstatus; try discriminate.
  cbn [fst snd]. exists row. split; [reflexivity |].
  intros w2 url2 name2 Hname2 Hkey2.
  destruct (save_ok w st st' _ _ Hsave)
    as [row' [key [Hsv [_ [Hw [_ [Hfresh ->]]]]]]].
  injection Hsv as <-. rewrite <- Hw in Hfresh.
  destruct (proj1 (lookups_after_append st row url2 _ Hkey2 Hfresh) eq_refl)
    as [Hc Hg].
  rewrite (run_exists w2 _ url2 name2 Hname2 Hc), Hg. reflexivity.
Qed.

Lemma later_run_returns_saved_profile_witness :
  let first := profile_company Samples.world Samples.empty_store
                 "https://example.com" in
  exists row,
    data_of (fst (fst first)) = DataRow row /\
    profile_company Samples.offline_world (snd (fst first))
      "HTTP://WWW.Example.com/" =
      (exists_result (Some row), snd (fst first),
       [CallCheckExists "HTTP://WWW.Example.com/";
        CallGetProfile "HTTP://WWW.Example.com/"]).
Proof.
  intros first.
  destruct (later_run_returns_saved_profile Samples.world Samples.empty_store
              "https://example.com") as [row [Hd Hnext]].
  - vm_compute. reflexivity.
  - exists row. split; [exact Hd |].
    apply (Hnext Samples.offline_world "HTTP://WWW.Example.com/" "Www").
    + vm_compute. reflexivity.
    + fold first in Hd.
      assert (E : row = match data_of (fst (fst first)) with
                        | DataRow r => r
                        | _ => Samples.profile ""
                        end) by (rewrite Hd; reflexivity).
      rewrite E. vm_compute. reflexivity.
Defined.

(** X8.  The calls of a run, in order, are one of: none (the URL does not
    parse as written; status "error"); the existence check and the lookup
    (status "exists"); the existence check and the scraper (status
    "error"); these two followed by the news fetch and the analysis
    (status "error"); or these four followed by one save (status "error"
    or "success").  The news are fetched for the extracted name, or for
    the page title when the name is empty, with a limit of 5, and the
    analysis is called on the scraped page and exactly those news.  So
    nothing is saved unless the analysis has returned, and no tool is
    called twice. *)
Theorem run_call_sequences :
  forall (w : World) (st : Store) (url : string),
    let run := profile_company w st url in
    let result := fst (fst run) in
    let calls := snd run in
    (calls = [] /\ status result = "error")
    \/
    (calls = [CallCheckExists url; CallGetProfile url] /\
     status result = "exists")
    \/
    (calls = [CallCheckExists url; CallScrape url] /\
     status result = "error")
    \/
    (exists name sd,
        let company := str_or name (sd_title sd) in
        let news := NewsFetcher.fetch_company_news w company 5 in
        _extract_company_name w url = Ok name /\
        WebScraper.scrape_website w url = Ok sd /\
        (calls = [CallCheckExists url; CallScrape url;
                  CallFetchNews company; CallAnalyze sd news] /\
         status result = "error"
         \/
         exists profile_data,
           calls = [CallCheckExists url; CallScrape url;
                    CallFetchNews company; CallAnalyze sd news;
                    CallSave profile_data] /\
           (status result = "error" \/ status result = "success"))).
Proof.
  intros w st url run result calls. subst calls result run.
  destruct (run_cases w st url)
    as [[e [_ E]] | [[name [_ [_ E]]] | [[name [e [_ [_ [_ E]]]]]
        | [[name [sd [e [Hn [_ [Hs [_ E]]]]]]]
        | [[name [sd [items [e [Hn [_ [Hs [_ [_ E]]]]]]]]]
        | [name [sd [items [row [st' [Hn [_ [Hs [_ [_ E]]]]]]]]]]]]]]];
    rewrite E; cbn [fst snd].
  - left. split; reflexivity.
  - right. left. split; reflexivity.
  - right. right. left. split; reflexivity.
  - right. right. right. exists name, sd. cbv zeta.
    split; [exact Hn |]. split; [exact Hs |].
    left. split; reflexivity.
  - right. right. right. exists name, sd. cbv zeta.
    split; [exact Hn |]. split; [exact Hs |].
    right. eexists. split; [reflexivity | left; reflexivity].
  - right. right. right. exists name, sd. cbv zeta.
    split; [exact Hn |]. split; [exact Hs |].
    right. eexists. split; [reflexivity | right; reflexivity].
Qed.

End RunTheorems.

Section RunFailures.
Import StartupProfilerAgent Assembled.

(** X21.  An analysis that is not an object fails the run.  When the URL
    parses as written, the existence check answers [False], the scraper
    returns a page and the analysis is a value other than an object (a
    list, a number, a text), the run ends with status "error" and a
    [TypeError]; the store is unchanged and nothing is saved. *)
Theorem analysis_that_is_no_object_fails_the_run :
  forall (w : World) (st : Store) (url name : string) (sd : ScrapedData)
         (analysis : value),
    let company := str_or name (sd_title sd) in
    let news := NewsFetcher.fetch_company_news w company 5 in
    _extract_company_name w url = Ok name ->
    SupabaseManager.check_company_exists st url = false ->
    WebScraper.scrape_website w url = Ok sd ->
    GeminiAnalyzer.analyze_company w sd news = Ok analysis ->
    (forall items, analysis <> VDict items) ->
    exists what,
      profile_company w st url =
        (error_result (TypeError what), st,
         [CallCheckExists url; CallScrape url; CallFetchNews company;
          CallAnalyze sd news]).
Proof.
  intros w st url name sd analysis company news
    Hname Hcheck Hscrape Hanalyze Hno.
  unfold profile_company, profile_company_body.
  unfold bindM, lift, check_company_exists, get_company_profile, ret,
    scrape_website, fetch_company_news, analyze_company,
    save_company_profile.
  rewrite Hname, Hcheck, Hscrape.
  unfold news, company in Hanalyze. rewrite Hanalyze.
  destruct analysis as [| b | n | f | s | xs | items];
    try (eexists; reflexivity).
  exfalso. exact (Hno items eq_refl).
Qed.

Lemma analysis_that_is_no_object_fails_the_run_witness :
  let w := Scenarios.world_answering "[1, 2]" in
  exists what,
    status (fst (fst (profile_company w Samples.empty_store
                        "https://example.com"))) = "error" /\
    message_of (fst (fst (profile_company w Samples.empty_store
                            "https://example.com")))
      = StrOf (TypeError what) /\
    snd (fst (profile_company w Samples.empty_store "https://example.com"))
      = Samples.empty_store.
Proof.
  intros w.
  pose (sd := match WebScraper.scrape_website w "https://example.com" with
              | Ok sd => sd
              | Raise _ => mkScrapedData "" "" "" [] [] [] "" VNone
              end).
  destruct (analysis_that_is_no_object_fails_the_run w Samples.empty_store
              "https://example.com" "Example" sd (VList [VInt 1; VInt 2]))
    as [what E].
  - vm_compute. reflexivity.
  - vm_compute. reflexivity.
  - vm_compute. reflexivity.
  - vm_compute. reflexivity.
  - discriminate.
  - exists what. rewrite E. repeat split.
Defined.

(** X22.  An unreachable store fails the run late.  When the store does
    not answer and the URL parses as written, the existence check counts
    as [False] and the scraper is called all the same; the run ends with
    status "error" and no data, and the store is as it was. *)
Theorem unreachable_store_fails_the_run_late :
  forall (w : World) (st : Store) (url name : string),
    let run := profile_company w st url in
    online st = false ->
    _extract_company_name w url = Ok name ->
    status (fst (fst run)) = "error" /\
    data_of (fst (fst run)) = DataNone /\
    snd (fst run) = st /\
    exists rest, snd run = CallCheckExists url :: CallScrape url :: rest.
Proof.
  intros w st url name run Hoff Hname. subst run.
  destruct (lookups_unreachable st url Hoff) as [Hc _].
  destruct (run_cases w st url)
    as [[e [Hn E]] | [[name' [_ [Hx E]]] | [[name' [e [_ [_ [_ E]]]]]
        | [[name' [sd [e [_ [_ [_ [_ E]]]]]]]
        | [[name' [sd [items [e [_ [_ [_ [_ [_ E]]]]]]]]]
        | [name' [sd [items [row [st' [_ [_ [_ [_ [Hs E]]]]]]]]]]]]]]].
  - rewrite Hname in Hn. discriminate.
  - rewrite Hc in Hx. discriminate.
  - rewrite E. cbn. repeat split. eexists. reflexivity.
  - rewrite E. cbn. repeat split. eexists. reflexivity.
  - rewrite E. cbn. repeat split. eexists. reflexivity.
  - destruct (save_ok w st st' _ _ Hs) as [_ [_ [_ [_ [_ [Hon _]]]]]].
    rewrite Hoff in Hon. discriminate.
Qed.

Lemma unreachable_store_fails_the_run_late_witness :
  let run := profile_company Samples.world Scenarios.unreachable_store
               "https://example.com" in
  status (fst (fst run)) = "error" /\
  data_of (fst (fst run)) = DataNone /\
  snd (fst run) = Scenarios.unreachable_store /\
  exists rest,
    snd run = CallCheckExists "https://example.com"
              :: CallScrape "https://example.com" :: rest.
Proof.
  apply (unreachable_store_fails_the_run_late Samples.world
           Scenarios.unreachable_store "https://example.com" "Example").
  - reflexivity.
  - vm_compute. reflexivity.
Defined.

End RunFailures.

(* ================================================================== *)
(** * Properties: the news articles                                     *)
(* ================================================================== *)

Section NewsItems.
Import PyStr NewsFetcher.

(** One article per visited item. *)
Lemma collect_length (mk : dict -> NewsItem) (items : list value)
  (out : list NewsItem) :
  collect mk items = Ok out -> length out = length items.
Proof.
  revert out. induction items as [| x rest IH]; intros out; cbn [collect].
  - intros H. injection H as <-. reflexivity.
  - destruct (as_dict x) as [d | e]; [| discriminate].
    cbv beta iota delta [bind].
    destruct (collect mk rest) as [tail | e]; [| discriminate].
    intros H. injection H as <-. cbn [length]. rewrite (IH tail eq_refl).
    reflexivity.
Qed.

(** An item that is no object makes the loop raise. *)
Lemma collect_raises (mk : dict -> NewsItem) (items : list value)
  (x : value) :
  In x items -> (forall d, x <> VDict d) ->
  exists e, collect mk items = Raise e.
Proof.
  intros Hin Hx. induction items as [| y rest IH]; [destruct Hin |].
  cbn [collect]. destruct Hin as [-> | Hin].
  - destruct x; try (eexists; reflexivity). exfalso. exact (Hx _ eq_refl).
  - destruct (as_dict y) as [d | e]; [| eexists; reflexivity].
    cbv beta iota delta [bind]. destruct (IH Hin) as [e ->].
    eexists. reflexivity.
Qed.

Lemma chars_of_length (s : string) :
  length (chars_of s) = String.length s.
Proof.
  induction s as [| c r IH]; cbn [chars_of length String.length];
    [reflexivity | rewrite IH; reflexivity].
Qed.

(** At most [num_results] items are visited. *)
Lemma sliced_items_length (v : value) (num_results : Z)
  (items : list value) :
  0 <= num_results ->
  sliced_items v num_results = Ok items ->
  Z.of_nat (length items) <= num_results.
Proof.
  intros Hn. destruct v; cbn [sliced_items]; try discriminate.
  - intros H. injection H as <-. rewrite chars_of_length.
    unfold slice_to.
    pose proof (take_length (clip s num_results) s).
    pose proof (clip_bound s num_results Hn). lia.
  - intros H. injection H as <-. rewrite (list_slice_to_pos _ _ Hn).
    rewrite length_firstn. lia.
Qed.

Lemma articles_of_length (results : dict) (num_results : Z)
  (out : list NewsItem) :
  0 <= num_results ->
  articles_of results num_results = Ok out ->
  Z.of_nat (length out) <= num_results.
Proof.
  intros Hn. unfold articles_of.
  destruct (Dict.get results "news_results") as [v |].
  - destruct (sliced_items v num_results) as [items | e] eqn:E;
      [| discriminate].
    cbv beta iota delta [bind]. intros H.
    rewrite (collect_length _ _ _ H).
    exact (sliced_items_length v num_results items Hn E).
  - destruct (Dict.get results "organic_results") as [v |].
    + destruct (sliced_items v num_results) as [items | e] eqn:E;
        [| discriminate].
      cbv beta iota delta [bind]. intros H.
      rewrite (collect_length _ _ _ H).
      exact (sliced_items_length v num_results items Hn E).
    + intros H. injection H as <-. exact Hn.
Qed.

End NewsItems.

(** X9.  For a limit [num_results >= 0], [fetch_company_news] returns at
    most [num_results] articles, whatever the search provider answers. *)
Theorem news_output_is_capped :
  forall (w : World) (company_name : string) (num_results : Z),
    0 <= num_results ->
    Z.of_nat (length (NewsFetcher.fetch_company_news w company_name
                        num_results)) <= num_results.
Proof.
  intros w name n Hn. unfold NewsFetcher.fetch_company_news.
  destruct (search w (name ++ " latest news") n) as [results | e];
    [| exact Hn].
  cbv beta iota delta [bind].
  destruct (NewsFetcher.articles_of results n) as [out | e] eqn:E;
    [| exact Hn].
  exact (articles_of_length results n out Hn E).
Qed.

Lemma news_output_is_capped_witness :
  Z.of_nat (length (NewsFetcher.fetch_company_news
                      (Samples.world_with_results
                         [("organic_results",
                           VList [VDict Samples.organic_hit;
                                  VDict Samples.organic_hit;
                                  VDict Samples.organic_hit])])
                      "Acme" 2)) <= 2.
Proof.
  apply news_output_is_capped. lia.
Defined.

(** X10.  News results come first.  When the response has an entry
    [news_results] that is a list of objects, the output is the first
    [num_results] of them in the article shape, whatever
    [organic_results] holds: title, snippet and date copied, the link as
    [source], and as [source_name] the [name] of the [source] object, or
    the [source] entry itself when it is not an object (the empty text
    for a missing field). *)
Theorem news_results_take_precedence :
  forall (w : World) (company_name : string) (num_results : Z)
         (results : dict) (articles : list dict),
    search w (company_name ++ " latest news") num_results = Ok results ->
    Dict.get results "news_results" = Some (VList (map VDict articles)) ->
    0 <= num_results ->
    NewsFetcher.fetch_company_news w company_name num_results =
      map (fun article =>
             {| ni_title := Dict.get_default article "title" (VStr "");
                ni_snippet := Dict.get_default article "snippet" (VStr "");
                ni_source := Dict.get_default article "link" (VStr "");
                ni_date := Dict.get_default article "date" (VStr "");
                ni_source_name :=
                  match Dict.get article "source" with
                  | Some (VDict source) =>
                      Dict.get_default source "name" (VStr "")
                  | Some other => other
                  | None => VStr ""
                  end |})
          (firstn (Z.to_nat num_results) articles).
Proof.
  intros w name n results articles Hsearch Hnews Hn.
  unfold NewsFetcher.fetch_company_news. rewrite Hsearch.
  cbv beta iota delta [bind]. unfold NewsFetcher.articles_of.
  rewrite Hnews. cbn [NewsFetcher.sliced_items].
  cbv beta iota delta [bind].
  rewrite (list_slice_to_pos _ _ Hn), firstn_map, collect_dicts.
  reflexivity.
Qed.

Lemma news_results_take_precedence_witness :
  NewsFetcher.fetch_company_news
    (Samples.world_with_results
       [("news_results",
         VList (map VDict
                  [[("title", VStr "Acme opens an office");
                    ("source", VDict [("name", VStr "The Daily")])];
                   [("title", VStr "Acme hires");
                    ("source", VStr "Wire")]]));
        ("organic_results", VList [VDict Samples.organic_hit])])
    "Acme" 5
  = [ {| ni_title := VStr "Acme opens an office"; ni_snippet := VStr "";
         ni_source := VStr ""; ni_date := VStr "";
         ni_source_name := VStr "The Daily" |};
      {| ni_title := VStr "Acme hires"; ni_snippet := VStr "";
         ni_source := VStr ""; ni_date := VStr "";
         ni_source_name := VStr "Wire" |} ].
Proof.
  eapply (news_results_take_precedence
           (Samples.world_with_results
              [("news_results",
                VList (map VDict
                         [[("title", VStr "Acme opens an office");
                           ("source", VDict [("name", VStr "The Daily")])];
                          [("title", VStr "Acme hires");
                           ("source", VStr "Wire")]]));
               ("organic_results", VList [VDict Samples.organic_hit])])
           "Acme" 5 _
           [[("title", VStr "Acme opens an office");
             ("source", VDict [("name", VStr "The Daily")])];
            [("title", VStr "Acme hires"); ("source", VStr "Wire")]]).
  - reflexivity.
  - reflexivity.
  - lia.
Defined.

(** X11.  The news degrade to nothing.  The output is the empty list
    when the search raises; when one of the items visited (the first
    [num_results] of [news_results], or of [organic_results] when there
    is no [news_results]) is not an object, even if the items before it
    are; and when the response has neither entry. *)
Theorem news_degrade_to_nothing :
  forall (w : World) (company_name : string) (num_results : Z),
    let output :=
      NewsFetcher.fetch_company_news w company_name num_results in
    let query := (company_name ++ " latest news")%string in
    (forall e, search w query num_results = Raise e -> output = [])
    /\
    (forall results items x,
        search w query num_results = Ok results ->
        Dict.get results "news_results" = Some (VList items) \/
        Dict.get results "news_results" = None /\
        Dict.get results "organic_results" = Some (VList items) ->
        In x (list_slice_to items num_results) ->
        (forall d, x <> VDict d) ->
        output = [])
    /\
    (forall results,
        search w query num_results = Ok results ->
        Dict.get results "news_results" = None ->
        Dict.get results "organic_results" = None ->
        output = []).
Proof.
  intros w name n output query. subst output query.
  unfold NewsFetcher.fetch_company_news.
  split; [| split].
  - intros e ->. reflexivity.
  - intros results items x -> Hlisted Hin Hx.
    cbv beta iota delta [bind]. unfold NewsFetcher.articles_of.
    destruct Hlisted as [-> | [-> ->]]; cbn [NewsFetcher.sliced_items];
      cbv beta iota delta [bind].
    + destruct (collect_raises NewsFetcher.news_item_of_news _ x Hin Hx)
        as [e ->].
      reflexivity.
    + destruct (collect_raises NewsFetcher.news_item_of_organic _ x Hin Hx)
        as [e ->].
      reflexivity.
  - intros results -> Hnews Horg.
    cbv beta iota delta [bind]. unfold NewsFetcher.articles_of.
    rewrite Hnews, Horg. reflexivity.
Qed.

Lemma news_degrade_to_nothing_witness :
  NewsFetcher.fetch_company_news
    (Samples.world_with_results
       [("news_results",
         VList [VDict [("title", VStr "Acme opens an office")];
                VStr "advertisement"])])
    "Acme" 5 = [].
Proof.
  eapply (proj1 (proj2 (news_degrade_to_nothing
                         (Samples.world_with_results
                            [("news_results",
                              VList [VDict [("title",
                                             VStr "Acme opens an office")];
                                     VStr "advertisement"])])
                         "Acme" 5))
           _ [VDict [("title", VStr "Acme opens an office")];
              VStr "advertisement"]
           (VStr "advertisement")).
  - reflexivity.
  - left. reflexivity.
  - right. left. reflexivity.
  - discriminate.
Defined.

(* ================================================================== *)
(** * Properties: the shape of a key                                    *)
(* ================================================================== *)

Section KeyShape.
Import PyStr urllib_parse Parts SupabaseManager.

(** What [rstrip] returns does not end with a stripped character. *)
Lemma rstrip_last (s chars t : string) (c : ascii) :
  mem_char c chars = true -> rstrip s chars <> t ++ String c "".
Proof.
  intros Hc. revert t. induction s as [| x r IH]; intros t; cbn [rstrip].
  - destruct t; discriminate.
  - destruct (rstrip r chars) as [| y t'] eqn:E.
    + destruct (mem_char x chars) eqn:Hx.
      * destruct t; discriminate.
      * destruct t as [| a [| b t]]; cbn; try discriminate.
        intros K. injection K as ->. rewrite Hc in Hx. discriminate.
    + destruct t as [| a t]; cbn; [discriminate |].
      intros K. injection K as <- K. exact (IH t K).
Qed.

Lemma forallb_both (P Q : ascii -> bool) (s : string) :
  forallb_str P s = true -> forallb_str Q s = true ->
  forallb_str (fun c => P c && Q c) s = true.
Proof.
  induction s as [| c r IH]; cbn [forallb_str]; [reflexivity |].
  intros H1 H2. apply andb_true_iff in H1, H2.
  destruct H1 as [-> H1], H2 as [-> H2]. exact (IH H1 H2).
Qed.

(** The characters a key is free of. *)
Let plain (c : ascii) : bool :=
  negb (Ascii.eqb "?" c) && negb (Ascii.eqb "#" c) && negb (is_unsafe c).

Lemma scheme_char_plain (c : ascii) :
  mem_char c scheme_chars = true -> plain c = true.
Proof.
  destruct c as [[] [] [] [] [] [] [] []]; vm_compute;
    intros H; exact H || reflexivity.
Qed.

Lemma not_delim_plain (c : ascii) :
  negb (is_delim c) && negb (is_unsafe c) = true -> plain c = true.
Proof.
  destruct c as [[] [] [] [] [] [] [] []]; vm_compute;
    intros H; exact H || reflexivity.
Qed.

Lemma scheme_split_plain (url : string) :
  forallb_str plain (fst (scheme_split url)) = true.
Proof.
  destruct (scheme_split_is_scheme url) as [-> | [_ [H _]]];
    [reflexivity |].
  exact (all_weaken _ _ _ scheme_char_plain H).
Qed.

Lemma normalize_plain (url key : string) :
  _normalize_url url = Ok key -> forallb_str plain key = true.
Proof.
  unfold _normalize_url.
  destruct (urlparse (lower url)) as [r | e] eqn:E; [| discriminate].
  cbn [bind]. intros K. injection K as <-.
  destruct (urlparse_pieces _ _ E) as [Hnd [Hnu [Hpu [Hpq Hph]]]].
  apply all_rstrip. apply all_append. split.
  - match goal with
    | |- context [if ?b then "https" else _] => destruct b
    end; [reflexivity |].
    rewrite (urlparse_scheme _ _ E). apply scheme_split_plain.
  - apply (proj2 (all_append _ "://"
                    (replace (netloc r) "www." "" ++ path r))).
    split; [reflexivity |].
    apply (proj2 (all_append _ (replace (netloc r) "www." "") (path r))).
    split.
    + unfold replace. apply all_replace_aux.
      apply (all_weaken _ _ _ not_delim_plain).
      apply forallb_both; assumption.
    + apply mem_char_all in Hpq, Hph.
      unfold plain. apply forallb_both; [apply forallb_both |]; assumption.
Qed.

Lemma forallb_mem (P : ascii -> bool) (s : string) (c : ascii) :
  forallb_str P s = true -> P c = false -> mem_char c s = false.
Proof.
  induction s as [| x r IH]; cbn [forallb_str mem_char]; [reflexivity |].
  intros H Hc. apply andb_true_iff in H. destruct H as [Hx Hr].
  rewrite (IH Hr Hc), orb_false_r.
  destruct (Ascii.eqb_spec c x) as [-> |]; [| reflexivity].
  rewrite Hx in Hc. discriminate.
Qed.

End KeyShape.

(** X12.  The shape of a key.  A key that [_normalize_url] returns does
    not end with a slash and holds no question mark, no hash sign, no
    tab, no carriage return and no line feed. *)
Theorem normalized_key_shape :
  forall (url key : string),
    SupabaseManager._normalize_url url = Ok key ->
    (forall t, key <> t ++ "/") /\
    PyStr.contains key "?" = false /\
    PyStr.contains key "#" = false /\
    PyStr.contains key urllib_parse.TAB = false /\
    PyStr.contains key urllib_parse.CR = false /\
    PyStr.contains key urllib_parse.LF = false.
Proof.
  intros url key H.
  pose proof (normalize_plain url key H) as Hp.
  split.
  - unfold SupabaseManager._normalize_url in H.
    destruct (urllib_parse.urlparse (PyStr.lower url)) as [r | e];
      [| discriminate].
    cbn [bind] in H. injection H as <-.
    intros t. apply rstrip_last. reflexivity.
  - unfold urllib_parse.TAB, urllib_parse.CR, urllib_parse.LF.
    rewrite !contains_char.
    repeat split; apply (forallb_mem _ _ _ Hp); reflexivity.
Qed.

Lemma normalized_key_shape_witness :
  (forall t, "https://example.com/path" <> t ++ "/") /\
  PyStr.contains "https://example.com/path" "?" = false /\
  PyStr.contains "https://example.com/path" "#" = false /\
  PyStr.contains "https://example.com/path" urllib_parse.TAB = false /\
  PyStr.contains "https://example.com/path" urllib_parse.CR = false /\
  PyStr.contains "https://example.com/path" urllib_parse.LF = false.
Proof.
  apply (normalized_key_shape "HTTP://WWW.Example.com/Path/?q=1#top").
  vm_compute. reflexivity.
Defined.

(* ================================================================== *)
(** * Properties: URLs with the same key                                *)
(* ================================================================== *)

Section WebKeys.
Import PyStr urllib_parse Parts SupabaseManager.

Lemma clean_after_scheme (s rest : string) :
  is_scheme s ->
  clean (s ++ String ":" rest) = s ++ String ":" (remove is_unsafe rest).
Proof.
  intros [H0 [Hall _]]. unfold clean.
  destruct s as [| c0 r0]; [contradiction |].
  cbn [append]. cbn [lstrip]. rewrite (alpha_not_stripped c0 H0).
  change (String c0 (r0 ++ String ":" rest))
    with (String c0 r0 ++ String ":" rest).
  rewrite remove_append.
  rewrite (remove_fixed is_unsafe (String c0 r0)).
  - reflexivity.
  - revert Hall. apply all_weaken. intros c Hc.
    exact (proj1 (scheme_char_safe c Hc)).
Qed.

(** Parsing a scheme, a colon and a rest. *)
Lemma urlparse_after_scheme (s rest : string) :
  is_scheme s ->
  urlparse (s ++ String ":" rest) =
    do nu <- netloc_split (remove is_unsafe rest);
    let p := before "?" (before "#" (snd nu)) in
    Ok (mkParseResult s (fst nu)
          (if in_list s uses_params && contains p ";"
           then fst (_splitparams p) else p)
          (if in_list s uses_params && contains p ";"
           then snd (_splitparams p) else "")
          (after "?" (before "#" (snd nu)))
          (after "#" (snd nu))).
Proof.
  intros Hs. unfold urlparse. rewrite urlsplit_by_parts.
  unfold urlsplit_parts.
  rewrite (clean_after_scheme s rest Hs).
  rewrite (scheme_split_scheme s _ Hs). cbn [fst snd].
  destruct (netloc_split (remove is_unsafe rest)) as [[nl r3] | e];
    [| reflexivity].
  cbv beta iota delta [bind fst snd].
  destruct (in_list s uses_params && contains _ ";").
  - destruct (_splitparams _) as [p' ps]. reflexivity.
  - reflexivity.
Qed.

Lemma is_scheme_http : is_scheme "http".
Proof. repeat split. Qed.

(** The key of a URL that starts with [http:] or [https:]. *)
Lemma normalize_http (rest : string) :
  _normalize_url ("http:" ++ rest) = _normalize_url ("https:" ++ rest).
Proof.
  unfold _normalize_url.
  change (lower ("http:" ++ rest)) with ("http" ++ String ":" (lower rest)).
  change (lower ("https:" ++ rest)) with ("https" ++ String ":" (lower rest)).
  rewrite (urlparse_after_scheme "http" _ is_scheme_http).
  rewrite (urlparse_after_scheme "https" _ is_scheme_https).
  destruct (netloc_split (remove is_unsafe (lower rest))) as [[nl r3] | e];
    reflexivity.
Qed.

End WebKeys.

(** X13.  The schemes [http] and [https] give the same key: a URL that
    starts with [http://] (in either case) has the key of the same URL
    with [https://], so the existence check and the lookup answer alike
    for the two. *)
Theorem http_and_https_share_a_key :
  forall (rest : string) (st : Store),
    SupabaseManager._normalize_url ("http://" ++ rest)
      = SupabaseManager._normalize_url ("https://" ++ rest) /\
    SupabaseManager._normalize_url ("HTTP://" ++ rest)
      = SupabaseManager._normalize_url ("https://" ++ rest) /\
    SupabaseManager.check_company_exists st ("http://" ++ rest)
      = SupabaseManager.check_company_exists st ("https://" ++ rest) /\
    SupabaseManager.get_company_profile st ("http://" ++ rest)
      = SupabaseManager.get_company_profile st ("https://" ++ rest).
Proof.
  intros rest st.
  assert (E : SupabaseManager._normalize_url ("http://" ++ rest)
              = SupabaseManager._normalize_url ("https://" ++ rest)).
  { exact (normalize_http ("//" ++ rest)). }
  split; [exact E |]. split.
  - rewrite <- E. unfold SupabaseManager._normalize_url.
    rewrite !lower_append. reflexivity.
  - unfold SupabaseManager.check_company_exists,
      SupabaseManager.get_company_profile.
    rewrite E. split; reflexivity.
Qed.

Section LeadingWww.
Import PyStr urllib_parse Parts SupabaseManager.

Lemma lower_char_bracket (c : ascii) :
  c = "["%char \/ c = "]"%char ->
  forall x, Ascii.eqb c (lower_char x) = Ascii.eqb c x.
Proof.
  intros [-> | ->] x; destruct x as [[] [] [] [] [] [] [] []]; reflexivity.
Qed.

(** No bracket in the URL, none in the netloc it has after cleaning. *)
Lemma no_bracket_in_netloc (c : ascii) (rest : string) :
  c = "["%char \/ c = "]"%char ->
  contains rest (String c "") = false ->
  mem_char c (until is_delim (remove is_unsafe (lower rest))) = false.
Proof.
  intros Hc H. rewrite contains_char in H.
  apply mem_char_all. apply all_until, all_remove.
  apply mem_char_all.
  rewrite (mem_char_lower c rest (lower_char_bracket c Hc)). exact H.
Qed.

Lemma replace_leading_www (n : string) :
  replace ("www." ++ n) "www." "" = replace n "www." "".
Proof.
  unfold replace. cbn. destruct n; reflexivity.
Qed.

Lemma normalize_leading_www (rest : string) :
  contains rest "[" = false -> contains rest "]" = false ->
  _normalize_url ("https://www." ++ rest) = _normalize_url ("https://" ++ rest).
Proof.
  intros Ho Hc.
  pose proof (no_bracket_in_netloc "[" rest (or_introl eq_refl) Ho) as Bo.
  pose proof (no_bracket_in_netloc "]" rest (or_intror eq_refl) Hc) as Bc.
  unfold _normalize_url.
  change (lower ("https://www." ++ rest))
    with ("https" ++ String ":" ("//www." ++ lower rest)).
  change (lower ("https://" ++ rest))
    with ("https" ++ String ":" ("//" ++ lower rest)).
  rewrite !(urlparse_after_scheme "https" _ is_scheme_https).
  change (remove is_unsafe ("//www." ++ lower rest))
    with ("//www." ++ remove is_unsafe (lower rest)).
  change (remove is_unsafe ("//" ++ lower rest))
    with ("//" ++ remove is_unsafe (lower rest)).
  set (x := remove is_unsafe (lower rest)) in *.
  change (netloc_split ("//www." ++ x))
    with (do _ <- check_brackets ("www." ++ until is_delim x);
          Ok ("www." ++ until is_delim x, from is_delim x)).
  change (netloc_split ("//" ++ x))
    with (do _ <- check_brackets (until is_delim x);
          Ok (until is_delim x, from is_delim x)).
  rewrite (check_brackets_none (until is_delim x))
    by (rewrite contains_char; assumption).
  rewrite (check_brackets_none ("www." ++ until is_delim x))
    by (rewrite contains_char, mem_char_append, ?Bo, ?Bc; reflexivity).
  cbv beta iota zeta delta [bind fst snd netloc path scheme].
  rewrite replace_leading_www. reflexivity.
Qed.

End LeadingWww.

(** X14.  A leading [www.] of the host does not reach the key of a URL
    written with the characters U+0000..U+00FF, which are the strings of
    this development: when the rest of such a URL holds no square
    bracket, [https://www.] followed by the rest (and [http://www.] too)
    has the key of [https://] followed by the rest.  (Beyond U+00FF the
    result of [str.lower] on a letter can depend on the letters before
    it, as for the Greek capital sigma, and nothing is stated there.) *)
Theorem leading_www_is_dropped :
  forall (rest : string) (st : Store),
    PyStr.contains rest "[" = false ->
    PyStr.contains rest "]" = false ->
    SupabaseManager._normalize_url ("https://www." ++ rest)
      = SupabaseManager._normalize_url ("https://" ++ rest) /\
    SupabaseManager._normalize_url ("http://www." ++ rest)
      = SupabaseManager._normalize_url ("https://" ++ rest) /\
    SupabaseManager.check_company_exists st ("https://www." ++ rest)
      = SupabaseManager.check_company_exists st ("https://" ++ rest) /\
    SupabaseManager.get_company_profile st ("https://www." ++ rest)
      = SupabaseManager.get_company_profile st ("https://" ++ rest).
Proof.
  intros rest st Ho Hc.
  pose proof (normalize_leading_www rest Ho Hc) as E.
  split; [exact E |]. split.
  - rewrite <- E. exact (normalize_http ("//www." ++ rest)).
  - unfold SupabaseManager.check_company_exists,
      SupabaseManager.get_company_profile.
    rewrite E. split; reflexivity.
Qed.

Lemma leading_www_is_dropped_witness :
  SupabaseManager._normalize_url ("https://www." ++ "example.com/pricing")
    = SupabaseManager._normalize_url ("https://" ++ "example.com/pricing").
Proof.
  apply (leading_www_is_dropped "example.com/pricing" Samples.empty_store).
  - reflexivity.
  - reflexivity.
Defined.

Section TrailingSlash.
Import PyStr urllib_parse Parts SupabaseManager.

Lemma append_assoc (a b c : string) : (a ++ b) ++ c = a ++ (b ++ c).
Proof.
  induction a as [| x a IH]; cbn [append]; [| rewrite IH]; reflexivity.
Qed.

Lemma rstrip_slash (a : string) : rstrip (a ++ "/") "/" = rstrip a "/".
Proof. rewrite rstrip_app. reflexivity. Qed.

Lemma scheme_split_slash (b : string) :
  scheme_split (b ++ "/") =
    (fst (scheme_split b), snd (scheme_split b) ++ "/").
Proof.
  unfold scheme_split.
  destruct b as [| c0 r0].
  - reflexivity.
  - cbn [append]. change (String c0 (r0 ++ "/")) with (String c0 r0 ++ "/").
    rewrite mem_char_append, before_append, after_append.
    destruct (mem_char ":" (String c0 r0)) eqn:M.
    + cbn [orb]. destruct (_ && _); reflexivity.
    + cbn [orb fst snd].
      assert (F : forallb_str (fun c => mem_char c scheme_chars)
                    (String c0 r0 ++ before ":" "/") = false).
      { rewrite forallb_append. cbn [before].
        change (Ascii.eqb ":" "/") with false. cbv iota.
        cbn [forallb_str]. change (mem_char "/" scheme_chars) with false.
        cbn [andb]. apply andb_false_r. }
      rewrite F, andb_false_r. reflexivity.
Qed.

(** A slash put after the text: it joins the path, except after a lone
    slash, with which it announces an empty netloc. *)
Lemma netloc_split_slash (rest : string) :
  netloc_split (rest ++ "/") =
    if String.eqb rest "/" then Ok ("", "")
    else match netloc_split rest with
         | Ok (nl, r3) => Ok (nl, r3 ++ "/")
         | Raise e => Raise e
         end.
Proof.
  unfold netloc_split.
  destruct rest as [| a [| b r2]].
  - reflexivity.
  - destruct a as [[] [] [] [] [] [] [] []]; reflexivity.
  - cbn [append].
    assert (N : String.eqb (String a (String b r2)) "/" = false).
    { cbn [String.eqb]. destruct (Ascii.eqb a "/"); reflexivity. }
    rewrite N.
    assert (K : (do _ <- check_brackets (until is_delim (r2 ++ "/"));
                 Ok (until is_delim (r2 ++ "/"),
                     from is_delim (r2 ++ "/")))
                = match (do _ <- check_brackets (until is_delim r2);
                         Ok (until is_delim r2, from is_delim r2)) with
                  | Ok (nl, r3) => Ok (nl, r3 ++ "/")
                  | Raise e => Raise e
                  end).
    { rewrite until_app_delim, from_app_delim by reflexivity.
      destruct (check_brackets (until is_delim r2)) as [[] | e];
        reflexivity. }
    destruct a as [[] [] [] [] [] [] [] []]; try reflexivity.
    destruct b as [[] [] [] [] [] [] [] []]; try reflexivity.
    exact K.
Qed.

Lemma clean_slash (b : string) : clean (b ++ "/") = clean b ++ "/".
Proof.
  unfold clean. rewrite lstrip_app_stop by reflexivity.
  rewrite remove_append. reflexivity.
Qed.

Lemma lower_char_semicolon (x : ascii) :
  Ascii.eqb ";" (lower_char x) = Ascii.eqb ";" x.
Proof. destruct x as [[] [] [] [] [] [] [] []]; reflexivity. Qed.

(** A character that is not in the text is not in what follows its
    scheme. *)
Lemma all_scheme_split (P : ascii -> bool) (url : string) :
  forallb_str P url = true ->
  forallb_str P (snd (scheme_split url)) = true.
Proof.
  intros H. unfold scheme_split. destruct url as [| c0 r0]; [reflexivity |].
  destruct (_ && _); cbn [snd]; [apply all_after |]; assumption.
Qed.

Lemma normalize_slash (u : string) :
  contains u "?" = false -> contains u "#" = false ->
  contains u ";" = false ->
  _normalize_url (u ++ "/") = _normalize_url u.
Proof.
  rewrite !contains_char. intros Hq Hh Hs.
  unfold _normalize_url, urlparse. rewrite !urlsplit_by_parts.
  unfold urlsplit_parts.
  rewrite lower_append. change (lower "/") with "/".
  rewrite clean_slash, scheme_split_slash. cbn [fst snd].
  rewrite netloc_split_slash.
  set (sch := fst (scheme_split (clean (lower u)))).
  set (rest := snd (scheme_split (clean (lower u)))).
  assert (R : forall c, mem_char c u = false ->
                (forall x, Ascii.eqb c (lower_char x) = Ascii.eqb c x) ->
                forallb_str (fun x => negb (Ascii.eqb c x)) rest = true).
  { intros c Hc Hl. apply all_scheme_split, all_clean, mem_char_all.
    rewrite (mem_char_lower c u Hl). exact Hc. }
  pose proof (R "?"%char Hq lower_char_question) as Rq.
  pose proof (R "#"%char Hh lower_char_hash) as Rh.
  pose proof (R ";"%char Hs lower_char_semicolon) as Rs.
  clear R.
  destruct (String.eqb_spec rest "/") as [E | _].
  - rewrite E. change (netloc_split "/") with (Ok ("", "/")).
    cbv beta iota zeta delta [bind fst snd].
    change (before "?" (before "#" "")) with "".
    change (before "?" (before "#" "/")) with "/".
    change (contains "" ";") with false. change (contains "/" ";") with false.
    rewrite !andb_false_r. cbv beta iota zeta delta [scheme netloc path].
    change (replace "" "www." "") with "".
    set (S := if in_list sch _ then _ else _).
    change (S ++ "://" ++ "" ++ "") with (S ++ "://").
    change (S ++ "://" ++ "" ++ "/") with (S ++ "://" ++ "/").
    rewrite <- (append_assoc S "://" "/"), rstrip_slash. reflexivity.
  - destruct (netloc_split rest) as [[nl r3] | e] eqn:En; [| reflexivity].
    cbv beta iota delta [bind fst snd].
    destruct (all_netloc_split _ _ _ _ Rq En) as [_ Q3].
    destruct (all_netloc_split _ _ _ _ Rh En) as [_ H3].
    destruct (all_netloc_split _ _ _ _ Rs En) as [_ S3].
    apply mem_char_all in Q3, H3, S3.
    rewrite (before_absent "#" r3 H3), (before_absent "?" r3 Q3).
    rewrite (before_absent "#" (r3 ++ "/"))
      by (rewrite mem_char_append, H3; reflexivity).
    rewrite (before_absent "?" (r3 ++ "/"))
      by (rewrite mem_char_append, Q3; reflexivity).
    rewrite !contains_char, mem_char_append, S3, !andb_false_r.
    cbn [orb mem_char Ascii.eqb]. 
    cbv beta iota zeta delta [scheme netloc path].
    rewrite <- (rstrip_slash (_ ++ "://" ++ _ ++ r3)).
    rewrite !append_assoc. reflexivity.
Qed.

End TrailingSlash.

(** X15.  A slash at the end does not reach the key: for a URL without
    question mark, hash sign and semicolon, the URL followed by a slash
    has the key of the URL, so the existence check and the lookup answer
    alike for the two. *)
Theorem trailing_slash_is_dropped :
  forall (url : string) (st : Store),
    PyStr.contains url "?" = false ->
    PyStr.contains url "#" = false ->
    PyStr.contains url ";" = false ->
    SupabaseManager._normalize_url (url ++ "/")
      = SupabaseManager._normalize_url url /\
    SupabaseManager.check_company_exists st (url ++ "/")
      = SupabaseManager.check_company_exists st url /\
    SupabaseManager.get_company_profile st (url ++ "/")
      = SupabaseManager.get_company_profile st url.
Proof.
  intros url st Hq Hh Hs.
  pose proof (normalize_slash url Hq Hh Hs) as E.
  split; [exact E |].
  unfold SupabaseManager.check_company_exists,
    SupabaseManager.get_company_profile.
  rewrite E. split; reflexivity.
Qed.

Lemma trailing_slash_is_dropped_witness :
  SupabaseManager._normalize_url ("https://slack.com" ++ "/")
    = SupabaseManager._normalize_url "https://slack.com".
Proof.
  apply (trailing_slash_is_dropped "https://slack.com" Samples.empty_store);
    reflexivity.
Defined.

(* ================================================================== *)
(** * Properties: the span of a response                                *)
(* ================================================================== *)

Section Braces.
Import PyStr Parts GeminiAnalyzer.

Lemma rfind_at_absent (s : string) (c : ascii) (pos : nat) :
  mem_char c s = false -> rfind_at s (String c "") pos = -1.
Proof.
  revert pos. induction s as [| x r IH]; intros pos; cbn [mem_char rfind_at].
  - intros _. reflexivity.
  - intros H. apply orb_false_iff in H. destruct H as [Hx Hr].
    rewrite (IH (S pos) Hr). cbn [Z.leb Z.compare].
    rewrite startswith_char, Hx. reflexivity.
Qed.

(** The last occurrence of a character. *)
Lemma rfind_at_last (a post : string) (c : ascii) (pos : nat) :
  mem_char c post = false ->
  rfind_at (a ++ String c post) (String c "") pos
  = Z.of_nat (pos + String.length a).
Proof.
  intros Hp. revert pos.
  induction a as [| x a IH]; intros pos.
  - cbn [append rfind_at]. rewrite (rfind_at_absent post c (S pos) Hp).
    cbn [Z.leb Z.compare]. rewrite startswith_char, Ascii.eqb_refl.
    cbn [String.length]. f_equal. lia.
  - cbn [append]. cbn [rfind_at]. rewrite (IH (S pos)).
    assert (L : (0 <=? Z.of_nat (S pos + String.length a)) = true)
      by (apply Z.leb_le; lia).
    rewrite L. cbn [String.length]. f_equal. lia.
Qed.

Lemma take_append (a b : string) : take (String.length a) (a ++ b) = a.
Proof.
  induction a as [| x a IH]; cbn [String.length append take].
  - destruct b; reflexivity.
  - rewrite IH. reflexivity.
Qed.

Lemma drop_append (a b : string) : drop (String.length a) (a ++ b) = b.
Proof.
  induction a as [| x a IH]; cbn [String.length append drop];
    [reflexivity | exact IH].
Qed.

(** The text between the first opening and the last closing brace. *)
Lemma brace_span (pre mid post : string) :
  mem_char "{" pre = false -> mem_char "}" post = false ->
  let text := pre ++ String "{" (mid ++ String "}" post) in
  find text "{" = len pre /\
  rfind text "}" + 1 = len pre + len mid + 2 /\
  slice text (len pre) (len pre + len mid + 2)
    = String "{" (mid ++ "}").
Proof.
  intros Hpre Hpost text.
  assert (F : find text "{" = len pre).
  { rewrite find_char. unfold text.
    rewrite mem_char_append, before_append, Hpre.
    cbn [mem_char before]. rewrite Ascii.eqb_refl, orb_true_r.
    rewrite append_nil_r. reflexivity. }
  assert (T : text = (pre ++ String "{" mid) ++ String "}" post).
  { unfold text. rewrite append_assoc. reflexivity. }
  assert (R : rfind text "}" + 1 = len pre + len mid + 2).
  { unfold rfind. rewrite T, (rfind_at_last _ post "}" 0 Hpost).
    rewrite length_append. cbn [String.length]. unfold len. lia. }
  split; [exact F |]. split; [exact R |].
  unfold slice.
  assert (Ca : clip text (len pre) = String.length pre).
  { unfold len. apply clip_nat. unfold text. rewrite length_append. lia. }
  assert (Cb : clip text (len pre + len mid + 2)
               = (String.length pre + (String.length mid + 2))%nat).
  { unfold len.
    replace (Z.of_nat (String.length pre) + Z.of_nat (String.length mid) + 2)
      with (Z.of_nat (String.length pre + (String.length mid + 2))) by lia.
    apply clip_nat. unfold text.
    rewrite length_append. cbn [String.length]. rewrite length_append.
    cbn [String.length]. lia. }
  rewrite Ca, Cb. unfold text. rewrite drop_append.
  replace (String.length pre + (String.length mid + 2) - String.length pre)%nat
    with (String.length (String "{" (mid ++ "}"))).
  - change (String "{" (mid ++ String "}" post))
      with (String "{" mid ++ String "}" post).
    replace (String "{" mid ++ String "}" post)
      with (String "{" (mid ++ "}") ++ post).
    + apply take_append.
    + cbn [append]. rewrite append_assoc. reflexivity.
  - cbn [String.length]. rewrite length_append. cbn [String.length]. lia.
Qed.

End Braces.

(** X16.  Words around the object are ignored.  When the response is
    some text without an opening brace, then an opening brace, any text,
    a closing brace, then some text without a closing brace, the decoder
    is applied to exactly the text from the first opening brace to the
    last closing brace, and [_parse_response] returns what the decoder
    returns (the default structure when the decoder raises
    [JSONDecodeError]). *)
Theorem prose_around_the_object_is_ignored :
  forall (w : World) (pre mid post : string),
    PyStr.contains pre "{" = false ->
    PyStr.contains post "}" = false ->
    GeminiAnalyzer._parse_response w (pre ++ "{" ++ mid ++ "}" ++ post)
    = GeminiAnalyzer.except_JSONDecodeError
        (json_loads w ("{" ++ mid ++ "}")).
Proof.
  intros w pre mid post Hpre Hpost.
  rewrite contains_char in Hpre, Hpost.
  destruct (brace_span pre mid post Hpre Hpost) as [F [R S]].
  unfold GeminiAnalyzer._parse_response.
  change (pre ++ "{" ++ mid ++ "}" ++ post)
    with (pre ++ String "{" (mid ++ String "}" post)).
  rewrite F, R, S.
  assert (C1 : negb (PyStr.len pre =? -1) = true).
  { apply negb_true_iff, Z.eqb_neq. unfold PyStr.len. lia. }
  assert (C2 : (PyStr.len pre <? PyStr.len pre + PyStr.len mid + 2) = true).
  { apply Z.ltb_lt. unfold PyStr.len. lia. }
  rewrite C1, C2. reflexivity.
Qed.

Lemma prose_around_the_object_is_ignored_witness :
  GeminiAnalyzer._parse_response Samples.world
    ("Here is the profile: " ++ "{" ++ "" ++ "}" ++ " Anything else?")
  = GeminiAnalyzer.except_JSONDecodeError
      (json_loads Samples.world ("{" ++ "" ++ "}")).
Proof.
  apply (prose_around_the_object_is_ignored Samples.world
           "Here is the profile: " "" " Anything else?");
    reflexivity.
Defined.

(* ================================================================== *)
(** * Properties: white space and the scraped texts                     *)
(* ================================================================== *)

Section Whitespace.
Import PyStr.

Lemma lstrip_ws_head (s r : string) (c : ascii) :
  lstrip_ws s = String c r -> isspace c = false.
Proof.
  induction s as [| x s IH]; cbn [lstrip_ws]; [discriminate |].
  destruct (isspace x) eqn:E; [exact IH |].
  intros K. injection K as <- _. exact E.
Qed.

Lemma lstrip_ws_fixed (s : string) :
  match s with
  | "" => True
  | String c _ => isspace c = false
  end -> lstrip_ws s = s.
Proof.
  destruct s as [| c r]; [reflexivity |].
  cbn [lstrip_ws]. intros ->. reflexivity.
Qed.

Lemma rstrip_ws_head (x : ascii) (r : string) :
  rstrip_ws (String x r) = "" \/
  exists t, rstrip_ws (String x r) = String x t.
Proof.
  cbn [rstrip_ws]. destruct (rstrip_ws r) as [| y t].
  - destruct (isspace x); [left | right; exists ""]; reflexivity.
  - right. eexists. reflexivity.
Qed.

Lemma rstrip_ws_last (s t : string) (c : ascii) :
  rstrip_ws s = t ++ String c "" -> isspace c = false.
Proof.
  revert t. induction s as [| x r IH]; intros t; cbn [rstrip_ws].
  - destruct t; discriminate.
  - destruct (rstrip_ws r) as [| y t'] eqn:E.
    + destruct (isspace x) eqn:Hx.
      * destruct t; discriminate.
      * destruct t as [| a [| b t]]; cbn; try discriminate.
        intros K. injection K as <-. exact Hx.
    + destruct t as [| a t]; cbn; [discriminate |].
      intros K. injection K as _ K. exact (IH t K).
Qed.

Lemma rstrip_ws_idempotent (s : string) :
  rstrip_ws (rstrip_ws s) = rstrip_ws s.
Proof.
  induction s as [| x r IH]; [reflexivity |].
  cbn [rstrip_ws]. destruct (rstrip_ws r) as [| y t] eqn:E.
  - destruct (isspace x) eqn:Hx; [reflexivity |].
    cbn [rstrip_ws]. rewrite Hx. reflexivity.
  - cbn [rstrip_ws]. cbn [rstrip_ws] in IH. rewrite IH. reflexivity.
Qed.

(** What [strip] returns has no white space at either end. *)
Lemma strip_ends (s : string) :
  (forall c r, strip s = String c r -> isspace c = false) /\
  (forall t c, strip s = t ++ String c "" -> isspace c = false).
Proof.
  unfold strip. split.
  - intros c r H.
    destruct (lstrip_ws s) as [| x u] eqn:E; [discriminate H |].
    destruct (rstrip_ws_head x u) as [K | [t K]]; rewrite K in H;
      [discriminate |].
    injection H as <- _. exact (lstrip_ws_head s u x E).
  - intros t c. apply rstrip_ws_last.
Qed.

Lemma strip_idempotent (s : string) : strip (strip s) = strip s.
Proof.
  unfold strip at 1.
  rewrite lstrip_ws_fixed; [apply rstrip_ws_idempotent |].
  destruct (strip s) as [| c r] eqn:E; [exact I |].
  exact (proj1 (strip_ends s) c r E).
Qed.

End Whitespace.

Section ScrapedFields.
Import PyStr WebScraper.

(** X19.  What the scraper reports besides the links.  When the scraper
    returns an output for the page fetched as [doc]: [url] is the URL
    asked for and [scraped_at] the clock's time; the title is empty when
    the page has no [title] element; [h2_tags] holds the trimmed text of
    each [h2] element in document order, one entry per element; and the
    title and every entry of [h1_tags] and [h2_tags] is trimmed: it
    neither starts nor ends with white space. *)
Theorem scraped_texts_are_trimmed :
  forall (w : World) (url : string) (doc : soup) (out : ScrapedData),
    fetch_page w url = Ok doc ->
    scrape_website w url = Ok out ->
    sd_url out = url /\
    sd_scraped_at out = time_time w /\
    (bs4.find (bs4.named "title") doc = None -> sd_title out = "") /\
    sd_h2_tags out
      = map (fun h2 => strip (bs4.text h2))
            (bs4.find_all (bs4.named "h2") doc) /\
    length (sd_h2_tags out) = bs4.count "h2" doc /\
    (forall text,
        text = sd_title out \/ In text (sd_h1_tags out) \/
        In text (sd_h2_tags out) ->
        strip text = text /\
        (forall c r, text = String c r -> isspace c = false) /\
        (forall t c, text = t ++ String c "" -> isspace c = false)).
Proof.
  intros w url doc out Hfetch Hout.
  unfold scrape_website in Hout. rewrite Hfetch in Hout.
  cbv beta iota zeta delta [bind] in Hout.
  destruct (_extract_outbound_links w doc url) as [links | e];
    [| discriminate].
  injection Hout as <-. cbn [sd_url sd_scraped_at sd_title sd_h1_tags sd_h2_tags].
  split; [reflexivity |]. split; [reflexivity |]. split.
  { intros ->. reflexivity. }
  split; [reflexivity |]. split.
  { rewrite length_map. apply find_all_count. }
  assert (T : forall s, strip (strip s) = strip s /\
              (forall c r, strip s = String c r -> isspace c = false) /\
              (forall t c, strip s = t ++ String c "" -> isspace c = false)).
  { intros s. split; [apply strip_idempotent | apply strip_ends]. }
  intros text [-> | [H | H]].
  - destruct (bs4.find (bs4.named "title") doc) as [n |]; [apply T |].
    exact (T "").
  - apply in_map_iff in H. destruct H as [n [<- _]]. apply T.
  - apply in_map_iff in H. destruct H as [n [<- _]]. apply T.
Qed.

Lemma scraped_texts_are_trimmed_witness :
  let out := match scrape_website Samples.world "https://example.com" with
             | Ok out => out
             | Raise _ => mkScrapedData "" "" "" [] [] [] "" VNone
             end in
  sd_title out = "Example Inc" /\
  sd_h1_tags out = ["Welcome"; "Products"; "Contact"] /\
  sd_h2_tags out = [] /\
  strip (sd_title out) = sd_title out.
Proof.
  intros out.
  split; [reflexivity |]. split; [reflexivity |]. split; [reflexivity |].
  destruct (scraped_texts_are_trimmed Samples.world "https://example.com"
              Samples.landing_page out)
    as [_ [_ [_ [_ [_ H]]]]].
  - reflexivity.
  - vm_compute. reflexivity.
  - exact (proj1 (H (sd_title out) (or_introl eq_refl))).
Defined.

End ScrapedFields.

(* ================================================================== *)
(** * Properties: the company name                                      *)
(* ================================================================== *)

Section CompanyName.
Import PyStr Parts StartupProfilerAgent.

Lemma rev_str_app (acc s : string) : rev_str acc s = rev_str "" s ++ acc.
Proof.
  revert acc. induction s as [| x r IH]; intros acc; cbn [rev_str].
  - reflexivity.
  - rewrite (IH (String x acc)), (IH (String x "")).
    rewrite append_assoc. reflexivity.
Qed.

(** The first piece of a split at a character is the text before it. *)
Lemma split_aux_hd (s cur : string) (c : ascii) :
  hd "" (split_aux s (String c "") 0 cur) = rev_str "" cur ++ before c s.
Proof.
  revert cur. induction s as [| x r IH]; intros cur.
  - cbn [split_aux hd before]. rewrite append_nil_r. reflexivity.
  - cbn [split_aux]. rewrite startswith_char. cbn [before].
    destruct (Ascii.eqb c x).
    + cbn [hd]. rewrite append_nil_r. reflexivity.
    + rewrite IH. cbn [rev_str]. rewrite (rev_str_app (String x "")).
      rewrite append_assoc. reflexivity.
Qed.

Lemma split_aux_nonempty (s sep cur : string) (k : nat) :
  (1 <= length (split_aux s sep k cur))%nat.
Proof.
  revert k cur. induction s as [| x r IH]; intros k cur; cbn [split_aux].
  - cbn [length]. lia.
  - destruct k as [| k]; [| apply IH].
    destruct (startswith (String x r) sep); [cbn [length]; lia | apply IH].
Qed.

Lemma split_aux_many (s cur : string) (c : ascii) :
  mem_char c s = true ->
  (1 < length (split_aux s (String c "") 0 cur))%nat.
Proof.
  revert cur. induction s as [| x r IH]; intros cur; cbn [mem_char];
    [discriminate |].
  cbn [split_aux]. rewrite startswith_char.
  destruct (Ascii.eqb c x); cbn [orb].
  - intros _. cbn [length].
    pose proof (split_aux_nonempty r (String c "") ""
                  (String.length (String c "") - 1)).
    lia.
  - apply IH.
Qed.

Lemma split_aux_one (s cur : string) (c : ascii) :
  mem_char c s = false ->
  split_aux s (String c "") 0 cur = [rev_str "" cur ++ s].
Proof.
  revert cur. induction s as [| x r IH]; intros cur; cbn [mem_char].
  - intros _. cbn [split_aux]. rewrite append_nil_r. reflexivity.
  - intros H. apply orb_false_iff in H. destruct H as [Hx Hr].
    cbn [split_aux]. rewrite startswith_char, Hx, (IH _ Hr).
    cbn [rev_str]. rewrite (rev_str_app (String x "")), append_assoc.
    reflexivity.
Qed.

End CompanyName.

(** X17.  The company name is the capitalised first label of the host:
    [_extract_company_name] returns [capitalize] of the text before the
    first dot of the netloc from which [www.] was removed, and of the
    whole of it when it has no dot, so its two branches agree with
    [partition]; it raises what [urlparse] raises. *)
Theorem company_name_is_first_label :
  forall (w : World) (url : string),
    StartupProfilerAgent._extract_company_name w url =
      do parsed <- urllib_parse.urlparse url;
      Ok (capitalize w
            (fst (fst (PyStr.partition
                         (PyStr.replace (urllib_parse.netloc parsed)
                            "www." "") ".")))).
Proof.
  intros w url. unfold StartupProfilerAgent._extract_company_name.
  destruct (urllib_parse.urlparse url) as [r | e]; [| reflexivity].
  cbv beta iota zeta delta [bind].
  set (domain := PyStr.replace (urllib_parse.netloc r) "www." "").
  rewrite partition_char. cbn [fst].
  unfold PyStr.split.
  destruct (PyStr.mem_char "." domain) eqn:M.
  - pose proof (split_aux_many domain "" "." M) as L.
    apply Nat.ltb_lt in L. rewrite L.
    rewrite split_aux_hd. reflexivity.
  - rewrite (split_aux_one domain "" "." M). cbn [length PyStr.rev_str append].
    change (1 <? 1)%nat with false. cbv iota.
    rewrite (before_absent "." domain M). reflexivity.
Qed.

(* ================================================================== *)
(** * Properties: the URL entered on the web page                       *)
(* ================================================================== *)

Section EnteredUrl.
Import PyStr urllib_parse Parts SupabaseManager App.

Lemma startswith_append (p t : string) : startswith (p ++ t) p = true.
Proof.
  induction p as [| a p IH]; cbn [append startswith].
  - destruct t; reflexivity.
  - rewrite Ascii.eqb_refl. exact IH.
Qed.

Lemma startswith_split (s p : string) :
  startswith s p = true -> s = p ++ drop (String.length p) s.
Proof.
  revert s. induction p as [| a p IH]; intros s; cbn [String.length drop].
  - intros _. destruct s; reflexivity.
  - destruct s as [| b s]; cbn [startswith]; [discriminate |].
    intros H. apply andb_true_iff in H. destruct H as [Hab Hs].
    apply Ascii.eqb_eq in Hab. subst b.
    cbn [append]. rewrite <- (IH s Hs). reflexivity.
Qed.

Lemma rstrip_ws_app (a b : string) :
  rstrip_ws (a ++ b) =
    match rstrip_ws b with
    | "" => rstrip_ws a
    | t => a ++ t
    end.
Proof.
  induction a as [| x a IH]; cbn [append].
  - destruct (rstrip_ws b); reflexivity.
  - cbn [rstrip_ws]. rewrite IH.
    destruct (rstrip_ws b) as [| y t]; [reflexivity |].
    destruct a; reflexivity.
Qed.

(** The prefix [https://] before a stripped text leaves a stripped text. *)
Lemma strip_prefixed (s : string) :
  strip ("https://" ++ strip s) = "https://" ++ strip s.
Proof.
  unfold strip at 1.
  change (lstrip_ws ("https://" ++ strip s)) with ("https://" ++ strip s).
  rewrite rstrip_ws_app.
  assert (E : rstrip_ws (strip s) = strip s)
    by (unfold strip; apply rstrip_ws_idempotent).
  rewrite E. destruct (strip s); reflexivity.
Qed.

(** The entered URL is [https://] or [http://] followed by a rest. *)
Lemma entered_url_cases (s : string) :
  exists rest,
    entered_url s = "https://" ++ rest \/ entered_url s = "http://" ++ rest.
Proof.
  unfold entered_url. cbv zeta.
  destruct (startswith (strip s) "http://") eqn:E1.
  - exists (drop (String.length "http://") (strip s)). right.
    cbn [orb negb]. exact (startswith_split _ _ E1).
  - destruct (startswith (strip s) "https://") eqn:E2; cbn [orb negb].
    + exists (drop (String.length "https://") (strip s)). left.
      exact (startswith_split _ _ E2).
    + exists (strip s). left. reflexivity.
Qed.

Lemma rstrip_keeps_prefix (p x chars : string) :
  rstrip p chars = p -> startswith (rstrip (p ++ x) chars) p = true.
Proof.
  intros H. rewrite rstrip_app.
  destruct (rstrip x chars); [| apply startswith_append].
  rewrite H. rewrite <- (append_nil_r p) at 1. apply startswith_append.
Qed.

(** The key of a URL with the scheme [https] starts with it. *)
Lemma normalize_https_key (rest key : string) :
  _normalize_url ("https://" ++ rest) = Ok key ->
  startswith key "https:" = true.
Proof.
  unfold _normalize_url.
  change (lower ("https://" ++ rest))
    with ("https" ++ String ":" ("//" ++ lower rest)).
  rewrite (urlparse_after_scheme "https" _ is_scheme_https).
  destruct (netloc_split _) as [[nl r3] | e]; [| discriminate].
  cbv beta iota zeta delta [bind fst snd scheme netloc path].
  change (in_list "https" ["http"; "https"]) with true. cbv iota.
  intros K.
  match type of K with
  | Ok (rstrip ("https" ++ "://" ++ ?x) "/") = _ =>
      assert (E : rstrip ("https:" ++ ("//" ++ x)) "/" = key)
        by exact (f_equal (fun r => match r with
                                    | Ok k => k
                                    | Raise _ => key
                                    end) K)
  end.
  rewrite <- E. apply rstrip_keeps_prefix. reflexivity.
Qed.

End EnteredUrl.

(** X18.  The URL the web page passes on.  The entered URL always starts
    with [http://] or [https://] and has no white space at either end;
    entering it again gives it back; when it has a key, the key starts
    with [https:]; and a run is started only when the button was pressed
    and the field is not empty, on the entered URL. *)
Theorem entered_url_has_web_scheme :
  forall (website_url : string),
    let url := App.entered_url website_url in
    PyStr.startswith url "http://" || PyStr.startswith url "https://" = true
    /\
    App.entered_url url = url /\
    PyStr.strip url = url /\
    (forall key,
        SupabaseManager._normalize_url url = Ok key ->
        PyStr.startswith key "https:" = true) /\
    (forall w st button run,
        App.analyze w st button website_url = Some run ->
        button = true /\ website_url <> "" /\
        run = StartupProfilerAgent.profile_company w st url).
Proof.
  intros s url. subst url.
  assert (A : PyStr.startswith (App.entered_url s) "http://"
              || PyStr.startswith (App.entered_url s) "https://" = true).
  { unfold App.entered_url. cbv zeta.
    destruct (PyStr.startswith (PyStr.strip s) "http://"
              || PyStr.startswith (PyStr.strip s) "https://") eqn:E;
      cbn [negb]; [exact E |].
    rewrite (startswith_append "https://"). apply orb_true_r. }
  assert (S : PyStr.strip (App.entered_url s) = App.entered_url s).
  { unfold App.entered_url. cbv zeta.
    destruct (negb _); [apply strip_prefixed | apply strip_idempotent]. }
  split; [exact A |]. split; [| split; [exact S |]; split].
  - unfold App.entered_url at 1. cbv zeta. rewrite S, A. reflexivity.
  - intros key Hkey.
    destruct (entered_url_cases s) as [rest [E | E]]; rewrite E in Hkey.
    + exact (normalize_https_key rest key Hkey).
    + change ("http://" ++ rest) with ("http:" ++ ("//" ++ rest)) in Hkey.
      rewrite normalize_http in Hkey.
      exact (normalize_https_key rest key Hkey).
  - intros w st button run. unfold App.analyze.
    destruct button; cbn [andb]; [| discriminate].
    destruct (String.eqb_spec s "") as [-> | N]; cbn [negb];
      [discriminate |].
    intros K. injection K as <-. repeat split. exact N.
Qed.

Lemma entered_url_has_web_scheme_witness :
  App.entered_url "  slack.com " = "https://slack.com" /\
  PyStr.startswith "https://slack.com" "https:" = true.
Proof.
  split; [reflexivity |].
  apply (proj1 (proj2 (proj2 (proj2
           (entered_url_has_web_scheme "  slack.com "))))).
  vm_compute. reflexivity.
Defined.

(* ================================================================== *)
(** * Properties: the scraped content                                   *)
(* ================================================================== *)

Section ContentText.
Import PyStr WebScraper.

Variable P : ascii -> bool.

Let all (s : string) : Prop := forallb_str P s = true.

Lemma all_rev_str (acc s : string) : all acc -> all s -> all (rev_str acc s).
Proof.
  revert acc. induction s as [| x r IH]; intros acc Ha Hs; cbn [rev_str].
  - exact Ha.
  - unfold all in Hs. cbn [forallb_str] in Hs.
    apply andb_true_iff in Hs. destruct Hs as [Hx Hr].
    apply IH; [| exact Hr]. unfold all. cbn [forallb_str].
    rewrite Hx. exact Ha.
Qed.

Lemma all_lstrip_ws (s : string) : all s -> all (lstrip_ws s).
Proof.
  induction s as [| x r IH]; intros H; cbn [lstrip_ws]; [exact H |].
  destruct (isspace x); [| exact H].
  unfold all in H. cbn [forallb_str] in H.
  apply andb_true_iff in H. exact (IH (proj2 H)).
Qed.

Lemma all_rstrip_ws (s : string) : all s -> all (rstrip_ws s).
Proof.
  induction s as [| x r IH]; intros H; cbn [rstrip_ws]; [exact H |].
  unfold all in H. cbn [forallb_str] in H.
  apply andb_true_iff in H. destruct H as [Hx Hr].
  specialize (IH Hr).
  destruct (rstrip_ws r) as [| y t].
  - destruct (isspace x); [reflexivity |].
    unfold all. cbn [forallb_str]. rewrite Hx. reflexivity.
  - unfold all. cbn [forallb_str]. rewrite Hx. exact IH.
Qed.

Lemma all_strip (s : string) : all s -> all (strip s).
Proof. intros H. apply all_rstrip_ws, all_lstrip_ws, H. Qed.

Lemma all_split_aux (s sep cur : string) (k : nat) :
  all s -> all cur -> Forall all (split_aux s sep k cur).
Proof.
  revert k cur. induction s as [| x r IH]; intros k cur Hs Hc;
    cbn [split_aux].
  - constructor; [| constructor]. apply all_rev_str; [reflexivity | exact Hc].
  - unfold all in Hs. cbn [forallb_str] in Hs.
    apply andb_true_iff in Hs. destruct Hs as [Hx Hr].
    destruct k as [| k]; [| apply IH; assumption].
    destruct (startswith (String x r) sep).
    + constructor; [apply all_rev_str; [reflexivity | exact Hc] |].
      apply IH; [exact Hr | reflexivity].
    + apply IH; [exact Hr |]. unfold all. cbn [forallb_str].
      rewrite Hx. exact Hc.
Qed.

Lemma all_join (sep : string) (parts : list string) :
  all sep -> Forall all parts -> all (join sep parts).
Proof.
  intros Hsep H. induction H as [| p rest Hp Hrest IH]; [reflexivity |].
  cbn [join]. destruct rest as [| q rest]; [exact Hp |].
  apply (proj2 (all_append P p _)). split; [exact Hp |].
  apply (proj2 (all_append P sep _)). split; [exact Hsep | exact IH].
Qed.

End ContentText.

Section Lines.
Import PyStr WebScraper.

(** No line of [splitlines] holds a line boundary. *)
Lemma splitlines_aux_lines (s cur : string) (after_cr : bool) :
  forallb_str (fun c => negb (is_linebreak c)) cur = true ->
  Forall (fun line => forallb_str (fun c => negb (is_linebreak c)) line = true)
    (splitlines_aux s after_cr cur).
Proof.
  revert after_cr cur.
  induction s as [| x r IH]; intros after_cr cur Hc; cbn [splitlines_aux].
  - destruct (String.eqb cur ""); constructor; [| constructor].
    apply all_rev_str; [reflexivity | exact Hc].
  - destruct (after_cr && Ascii.eqb x (chr 10)); [apply IH, Hc |].
    destruct (is_linebreak x) eqn:E.
    + constructor; [apply all_rev_str; [reflexivity | exact Hc] |].
      apply IH. reflexivity.
    + apply IH. cbn [forallb_str]. rewrite E. exact Hc.
Qed.

End Lines.

Section DoubleSpaces.
Import PyStr WebScraper.

Lemma double_cons (x : ascii) (r : string) :
  contains (String x r) "  " = (Ascii.eqb " " x && startswith r " ") || contains r "  ".
Proof. reflexivity. Qed.

Lemma starts_cons (x : ascii) (r : string) :
  startswith (String x r) " " = Ascii.eqb " " x.
Proof.
  cbn [startswith]. destruct r; apply andb_true_r.
Qed.

(** Two spaces in a row in the reversed text. *)
Lemma double_rev_str (acc s : string) :
  contains (rev_str acc s) "  " = false <->
  contains s "  " = false /\ contains acc "  " = false /\
  startswith s " " && startswith acc " " = false.
Proof.
  revert acc. induction s as [| x r IH]; intros acc; cbn [rev_str].
  - change (contains "" "  ") with false. change (startswith "" " ") with false.
    cbn [andb]. tauto.
  - rewrite IH, !double_cons, !starts_cons.
    destruct (Ascii.eqb " " x), (startswith r " "), (startswith acc " "),
      (contains r "  "), (contains acc "  "); cbn; tauto.
Qed.

(** No piece of a split at two spaces holds two spaces in a row. *)
Lemma split_aux_double (s cur : string) (k : nat) :
  contains cur "  " = false ->
  (k = 0%nat -> startswith cur " " && startswith s " " = false) ->
  (k <> 0%nat -> cur = "") ->
  Forall (fun piece => contains piece "  " = false)
    (split_aux s "  " k cur).
Proof.
  revert k cur. induction s as [| x r IH]; intros k cur Hc H0 Hk;
    cbn [split_aux].
  - constructor; [| constructor].
    apply double_rev_str. split; [exact Hc |]. split; [reflexivity |].
    apply andb_false_r.
  - destruct k as [| k].
    + specialize (H0 eq_refl). rewrite starts_cons in H0.
      destruct (startswith (String x r) "  ") eqn:E.
      * constructor.
        -- apply double_rev_str. split; [exact Hc |].
           split; [reflexivity |]. apply andb_false_r.
        -- apply IH; [reflexivity | discriminate | reflexivity].
      * apply IH.
        -- rewrite double_cons, Hc, orb_false_r.
           rewrite andb_comm. exact H0.
        -- intros _. rewrite starts_cons. exact E.
        -- intros N. contradiction N. reflexivity.
    + rewrite (Hk (Nat.neq_succ_0 k)).
      apply IH.
      * reflexivity.
      * intros _. reflexivity.
      * intros _. reflexivity.
Qed.

Lemma double_lstrip_ws (s : string) :
  contains s "  " = false -> contains (lstrip_ws s) "  " = false.
Proof.
  induction s as [| x r IH]; intros H; cbn [lstrip_ws]; [exact H |].
  destruct (isspace x); [| exact H].
  rewrite double_cons in H. apply orb_false_iff in H. exact (IH (proj2 H)).
Qed.

Lemma starts_rstrip_ws (s : string) :
  startswith (rstrip_ws s) " " = true -> startswith s " " = true.
Proof.
  destruct s as [| x r]; [discriminate |].
  destruct (rstrip_ws_head x r) as [-> | [t ->]]; [discriminate |].
  rewrite !starts_cons. tauto.
Qed.

Lemma double_rstrip_ws (s : string) :
  contains s "  " = false -> contains (rstrip_ws s) "  " = false.
Proof.
  induction s as [| x r IH]; intros H; [exact H |].
  rewrite double_cons in H. apply orb_false_iff in H.
  destruct H as [Hx Hr]. specialize (IH Hr).
  cbn [rstrip_ws]. destruct (rstrip_ws r) as [| y t] eqn:E.
  - destruct (isspace x); [reflexivity |].
    rewrite double_cons. change (startswith "" " ") with false.
    rewrite andb_false_r. reflexivity.
  - rewrite double_cons, IH, orb_false_r.
    destruct (Ascii.eqb " " x); [| reflexivity]. cbn [andb] in Hx |- *.
    destruct (startswith (String y t) " ") eqn:S; [| reflexivity].
    rewrite <- E in S. rewrite (starts_rstrip_ws r S) in Hx. discriminate.
Qed.

Lemma double_strip (s : string) :
  contains s "  " = false -> contains (strip s) "  " = false.
Proof. intros H. apply double_rstrip_ws, double_lstrip_ws, H. Qed.

(** Joining with one space two texts that hold no two spaces in a row,
    the first not ending and the second not starting with a space. *)
Lemma double_joined (a b : string) :
  contains a "  " = false -> contains b "  " = false ->
  (forall t, a <> t ++ " ") -> startswith b " " = false ->
  contains (a ++ String " " b) "  " = false.
Proof.
  intros Ha Hb Hend Hstart. induction a as [| x a IH].
  - cbn [append]. rewrite double_cons, Hb, Hstart. reflexivity.
  - cbn [append]. rewrite double_cons.
    rewrite double_cons in Ha. apply orb_false_iff in Ha.
    destruct Ha as [Hx Ha].
    rewrite IH; [| exact Ha |].
    + rewrite orb_false_r. destruct a as [| y a].
      * cbn [append]. rewrite starts_cons.
        destruct (Ascii.eqb_spec " " x) as [<- |]; [| reflexivity].
        exfalso. exact (Hend "" eq_refl).
      * cbn [append]. rewrite starts_cons. rewrite starts_cons in Hx.
        exact Hx.
    + intros t E. apply (Hend (String x t)). cbn [append]. rewrite E.
      reflexivity.
Qed.

Lemma double_take (n : nat) (s : string) :
  contains s "  " = false -> contains (take n s) "  " = false.
Proof.
  revert s. induction n as [| n IH]; intros [| x r] H; cbn [take];
    try reflexivity.
  rewrite double_cons in H |- *. apply orb_false_iff in H.
  destruct H as [Hx Hr]. rewrite (IH r Hr), orb_false_r.
  destruct (Ascii.eqb " " x); [| reflexivity]. cbn [andb] in Hx |- *.
  destruct n as [| n]; destruct r as [| y r]; cbn [take]; try reflexivity.
  rewrite starts_cons in Hx |- *. exact Hx.
Qed.

End DoubleSpaces.

Section Chunks.
Import PyStr WebScraper.

Lemma rstrip_ws_of_stripped (s : string) : strip s = s -> rstrip_ws s = s.
Proof.
  intros H. rewrite <- H at 1. unfold strip.
  rewrite rstrip_ws_idempotent. exact H.
Qed.

Lemma stripped_no_space_start (s : string) :
  strip s = s -> startswith s " " = false.
Proof.
  intros H. destruct s as [| c r]; [reflexivity |].
  pose proof (proj1 (strip_ends (String c r)) c r H) as Hc.
  cbn [startswith].
  destruct (Ascii.eqb_spec " " c) as [<- |]; [discriminate Hc | reflexivity].
Qed.

Lemma stripped_no_space_end (s t : string) : strip s = s -> s <> t ++ " ".
Proof.
  intros H E. rewrite E in H.
  pose proof (proj2 (strip_ends (t ++ " ")) t " "%char H) as Hc.
  discriminate Hc.
Qed.

(** Chunks that are not empty, are stripped and hold no two spaces in a
    row, joined with one space. *)
Lemma join_chunks (chunks : list string) :
  Forall (fun c => c <> "" /\ strip c = c /\ contains c "  " = false)
    chunks ->
  contains (join " " chunks) "  " = false /\
  strip (join " " chunks) = join " " chunks /\
  (chunks <> [] -> join " " chunks <> "").
Proof.
  intros H. induction H as [| c rest [Hne [Hs Hd]] Hrest IH].
  - repeat split. intros N. contradiction N. reflexivity.
  - destruct IH as [Jd [Js Jne]]. cbn [join].
    destruct rest as [| q rest].
    + split; [exact Hd | split; [exact Hs | intros _; exact Hne]].
    + set (J := join " " (q :: rest)) in *.
      specialize (Jne ltac:(discriminate)).
      change (" " ++ J) with (String " " J).
      split; [| split].
      * apply double_joined; try assumption.
        -- intros t. apply stripped_no_space_end. exact Hs.
        -- apply stripped_no_space_start. exact Js.
      * unfold strip.
        destruct c as [| ch r]; [contradiction Hne; reflexivity |].
        rewrite lstrip_ws_fixed.
        -- rewrite rstrip_ws_app.
           change (String " " J) with (" " ++ J). rewrite rstrip_ws_app.
           rewrite (rstrip_ws_of_stripped J Js).
           destruct J; [contradiction Jne; reflexivity | reflexivity].
        -- cbn [append]. exact (proj1 (strip_ends _) ch r Hs).
      * intros _. destruct c; [contradiction Hne; reflexivity | discriminate].
Qed.

(** The chunks of [_extract_content]. *)
Lemma chunks_of_text (text : string) (c : string) :
  In c (filter (fun chunk => negb (String.eqb chunk ""))
          (flat_map (fun line => map strip (split line "  "))
             (map strip (splitlines text)))) ->
  (c <> "" /\ strip c = c /\ contains c "  " = false) /\
  forallb_str (fun x => negb (is_linebreak x)) c = true.
Proof.
  intros H. apply filter_In in H. destruct H as [H Hne].
  apply in_flat_map in H. destruct H as [line [Hline H]].
  apply in_map_iff in H. destruct H as [piece [<- Hpiece]].
  apply in_map_iff in Hline. destruct Hline as [raw [<- Hraw]].
  split; [split; [| split] |].
  - apply negb_true_iff, String.eqb_neq in Hne. exact Hne.
  - apply strip_idempotent.
  - apply double_strip.
    pose proof (split_aux_double (strip raw) "" 0 eq_refl
                  (fun _ => eq_refl)
                  (fun N => False_ind _ (N eq_refl))) as F.
    rewrite Forall_forall in F. exact (F piece Hpiece).
  - apply all_strip.
    assert (L : forallb_str (fun x => negb (is_linebreak x)) raw = true).
    { pose proof (splitlines_aux_lines text "" false eq_refl) as F.
      rewrite Forall_forall in F. exact (F raw Hraw). }
    pose proof (all_split_aux _ (strip raw) "  " "" 0
                  (all_strip _ raw L) eq_refl) as F.
    rewrite Forall_forall in F. exact (F piece Hpiece).
Qed.

(** The text [_extract_content] returns. *)
Lemma extract_content_normalised (doc : soup) :
  forallb_str (fun c => negb (is_linebreak c)) (_extract_content doc) = true /\
  contains (_extract_content doc) "  " = false /\
  strip (_extract_content doc) = _extract_content doc.
Proof.
  unfold _extract_content. cbv zeta.
  set (chunks := filter _ _).
  assert (H : forall c, In c chunks ->
                (c <> "" /\ strip c = c /\ contains c "  " = false) /\
                forallb_str (fun x => negb (is_linebreak x)) c = true)
    by (intros c; apply chunks_of_text).
  split.
  - apply all_join; [reflexivity |]. apply Forall_forall.
    intros c Hc. exact (proj2 (H c Hc)).
  - assert (F : Forall (fun c => c <> "" /\ strip c = c /\
                                 contains c "  " = false) chunks).
    { apply Forall_forall. intros c Hc. exact (proj1 (H c Hc)). }
    destruct (join_chunks chunks F) as [Jd [Js _]]. split; assumption.
Qed.

Lemma lstrip_ws_take (n : nat) (s : string) :
  lstrip_ws s = s -> lstrip_ws (take n s) = take n s.
Proof.
  destruct n as [| n]; destruct s as [| c r]; cbn [take]; try reflexivity.
  intros H. apply lstrip_ws_fixed. exact (lstrip_ws_head _ _ _ H).
Qed.

End Chunks.

(** X20.  The content is normalised.  The text [_extract_content]
    returns holds no line boundary and no two spaces in a row, and
    neither starts nor ends with white space.  The [content] of a scraper
    output is its first 5000 characters, so it holds no line boundary and
    no two spaces in a row either, and does not start with white space. *)
Theorem content_is_normalised :
  forall (doc : soup),
    let no_break text :=
      PyStr.forallb_str (fun c => negb (WebScraper.is_linebreak c)) text = true in
    let content := WebScraper._extract_content doc in
    (no_break content /\
     PyStr.contains content "  " = false /\
     PyStr.strip content = content) /\
    (forall w url out,
        fetch_page w url = Ok doc ->
        WebScraper.scrape_website w url = Ok out ->
        sd_content out = PyStr.slice_to content 5000 /\
        no_break (sd_content out) /\
        PyStr.contains (sd_content out) "  " = false /\
        PyStr.lstrip_ws (sd_content out) = sd_content out).
Proof.
  intros doc no_break content. subst no_break content.
  destruct (extract_content_normalised doc) as [Hb [Hd Hs]].
  split; [repeat split; assumption |].
  intros w url out Hfetch Hout.
  unfold WebScraper.scrape_website in Hout. rewrite Hfetch in Hout.
  cbv beta iota zeta delta [bind] in Hout.
  destruct (WebScraper._extract_outbound_links w doc url) as [links | e];
    [| discriminate].
  assert (E : sd_content out
              = PyStr.slice_to (WebScraper._extract_content doc) 5000).
  { apply (f_equal (fun r => match r with
                             | Ok o => sd_content o
                             | Raise _ => sd_content out
                             end)) in Hout.
    symmetry. exact Hout. }
  rewrite E. unfold PyStr.slice_to.
  split; [reflexivity |]. split; [| split].
  - apply all_take. exact Hb.
  - apply double_take. exact Hd.
  - apply lstrip_ws_take.
    unfold PyStr.strip in Hs.
    destruct (WebScraper._extract_content doc) as [| c r] eqn:Ec;
      [reflexivity |].
    apply lstrip_ws_fixed.
    exact (proj1 (strip_ends (String c r)) c r Hs).
Qed.

Lemma content_is_normalised_witness :
  let out := match WebScraper.scrape_website Samples.world
                     "https://example.com" with
             | Ok out => out
             | Raise _ => mkScrapedData "" "" "" [] [] [] "" VNone
             end in
  sd_content out
    = PyStr.slice_to (WebScraper._extract_content Samples.landing_page) 5000 /\
  PyStr.contains (sd_content out) "  " = false.
Proof.
  intros out.
  destruct (proj2 (content_is_normalised Samples.landing_page)
              Samples.world "https://example.com" out)
    as [E [_ [D _]]].
  - reflexivity.
  - vm_compute. reflexivity.
  - split; [exact E | exact D].
Defined.

(* ================================================================== *)
(** * Properties: links and URLs that do not parse                      *)
(* ================================================================== *)

Section BrokenLinks.
Import PyStr urllib_parse WebScraper.

(** A link that does not resolve to a URL that parses makes the loop
    raise. *)
Lemma outbound_raises (w : World) (base_url base_domain href : string)
  (hrefs : list string) :
  In href hrefs ->
  (forall link parsed,
     urljoin w base_url href = Ok link -> urlparse link <> Ok parsed) ->
  exists e, outbound w base_url base_domain hrefs = Raise e.
Proof.
  intros Hin Hbad. induction hrefs as [| h rest IH]; [destruct Hin |].
  cbn [outbound].
  destruct (urljoin w base_url h) as [a | e] eqn:Ej;
    [| eexists; reflexivity].
  cbv beta iota delta [bind].
  destruct (urlparse a) as [p | e] eqn:Ep; [| eexists; reflexivity].
  destruct Hin as [-> | Hin].
  - exfalso. exact (Hbad a p Ej Ep).
  - destruct (IH Hin) as [e ->]. eexists. reflexivity.
Qed.

Lemma scrape_raises (w : World) (url href : string) (doc : soup) :
  fetch_page w url = Ok doc ->
  In href (anchors doc) ->
  (forall link parsed,
     urljoin w url href = Ok link -> urlparse link <> Ok parsed) ->
  exists e, scrape_website w url = Raise e.
Proof.
  intros Hfetch Hin Hbad. unfold scrape_website. rewrite Hfetch.
  cbv beta iota zeta delta [bind]. unfold _extract_outbound_links.
  destruct (urlparse url) as [base | e]; [| eexists; reflexivity].
  cbv beta iota zeta delta [bind].
  destruct (outbound_raises w url (netloc base) href _ Hin Hbad) as [e ->].
  eexists. reflexivity.
Qed.

End BrokenLinks.

(** X23.  One link that does not parse fails the whole scrape.  When
    the page holds an anchor whose [href] does not resolve to a URL that
    [urlparse] accepts, the scraper raises instead of returning the other
    fields; a run on that page then does not end with status "success",
    leaves the store as it was and saves nothing. *)
Theorem one_bad_link_fails_the_scrape :
  forall (w : World) (url href : string) (doc : soup),
    fetch_page w url = Ok doc ->
    In href (WebScraper.anchors doc) ->
    (forall link parsed,
        urljoin w url href = Ok link ->
        urllib_parse.urlparse link <> Ok parsed) ->
    (exists e, WebScraper.scrape_website w url = Raise e) /\
    (forall st : Store,
        let run := StartupProfilerAgent.profile_company w st url in
        status (fst (fst run)) <> "success" /\
        snd (fst run) = st /\
        forall profile_data, ~ In (CallSave profile_data) (snd run)).
Proof.
  intros w url href doc Hfetch Hin Hbad.
  destruct (scrape_raises w url href doc Hfetch Hin Hbad) as [e0 Hs].
  split; [exists e0; exact Hs |].
  intros st run. subst run.
  destruct (run_cases w st url)
    as [[e [_ E]] | [[name [_ [_ E]]] | [[name [e [_ [_ [_ E]]]]]
        | [[name [sd [e [_ [_ [K _]]]]]]
        | [[name [sd [items [e [_ [_ [K _]]]]]]]
        | [name [sd [items [row [st' [_ [_ [K _]]]]]]]]]]]]];
    try (rewrite Hs in K; discriminate K);
    rewrite E; cbn [fst snd Assembled.error_result Assembled.exists_result
                    status].
  - repeat split; [discriminate | intros pd []].
  - repeat split; [discriminate |].
    intros pd [H | [H | []]]; discriminate.
  - repeat split; [discriminate |].
    intros pd [H | [H | []]]; discriminate.
Qed.

Lemma one_bad_link_fails_the_scrape_witness :
  let w := Scenarios.world_serving Scenarios.broken_link_page in
  (exists e, WebScraper.scrape_website w "https://example.com" = Raise e) /\
  (forall st : Store,
      let run := StartupProfilerAgent.profile_company w st
                   "https://example.com" in
      status (fst (fst run)) <> "success" /\
      snd (fst run) = st /\
      forall profile_data, ~ In (CallSave profile_data) (snd run)).
Proof.
  intros w.
  apply (one_bad_link_fails_the_scrape w "https://example.com" "http://["
           Scenarios.broken_link_page).
  - reflexivity.
  - vm_compute. right. left. reflexivity.
  - intros link parsed Hjoin. vm_compute in Hjoin. discriminate Hjoin.
Defined.

Section WithoutBrackets.
Import PyStr urllib_parse Parts SupabaseManager.

Lemma netloc_split_ok (rest : string) :
  mem_char "[" rest = false -> mem_char "]" rest = false ->
  exists nl r3, netloc_split rest = Ok (nl, r3).
Proof.
  intros Ho Hc. unfold netloc_split.
  destruct rest as [| a [| b r2]].
  - eexists _, _. reflexivity.
  - destruct a as [[] [] [] [] [] [] [] []]; eexists _, _; reflexivity.
  - assert (K : exists nl r3,
                (do _ <- check_brackets (until is_delim r2);
                 Ok (until is_delim r2, from is_delim r2)) = Ok (nl, r3)).
    { cbn [mem_char] in Ho, Hc.
      apply orb_false_iff in Ho, Hc. destruct Ho as [_ Ho], Hc as [_ Hc].
      apply orb_false_iff in Ho, Hc. destruct Ho as [_ Ho], Hc as [_ Hc].
      rewrite check_brackets_none.
      - eexists _, _. reflexivity.
      - rewrite contains_char. apply mem_char_all, all_until, mem_char_all, Ho.
      - rewrite contains_char. apply mem_char_all, all_until, mem_char_all, Hc. }
    destruct a as [[] [] [] [] [] [] [] []];
      try (eexists _, _; reflexivity).
    destruct b as [[] [] [] [] [] [] [] []];
      try (eexists _, _; reflexivity).
    exact K.
Qed.

(** A URL without square brackets parses. *)
Lemma urlparse_ok (url : string) :
  mem_char "[" url = false -> mem_char "]" url = false ->
  exists r, urlparse url = Ok r.
Proof.
  intros Ho Hc. unfold urlparse. rewrite urlsplit_by_parts.
  unfold urlsplit_parts.
  assert (R : forall c, mem_char c url = false ->
                mem_char c (snd (scheme_split (clean url))) = false).
  { intros c H. apply mem_char_all, all_scheme_split, all_clean, mem_char_all.
    exact H. }
  destruct (netloc_split_ok _ (R _ Ho) (R _ Hc)) as [nl [r3 ->]].
  cbv beta iota delta [bind fst snd].
  destruct (in_list _ uses_params && contains _ ";").
  - destruct (_splitparams _) as [p ps]. eexists. reflexivity.
  - eexists. reflexivity.
Qed.

End WithoutBrackets.

(** X24.  Among the URLs written with the characters U+0000..U+00FF,
    which are the strings of this development, only square brackets make
    a URL fail: such a URL without square brackets has a key, and a
    company name is extracted from it, so a run on it always gets as far
    as the existence check.  (Beyond U+00FF [urlparse] also rejects a
    netloc with a character whose compatibility form holds one of the
    characters [/?#@:], and nothing is stated there.) *)
Theorem urls_without_brackets_have_a_key :
  forall (url : string),
    PyStr.contains url "[" = false ->
    PyStr.contains url "]" = false ->
    (exists key, SupabaseManager._normalize_url url = Ok key) /\
    (forall w, exists name,
        StartupProfilerAgent._extract_company_name w url = Ok name) /\
    (forall w st, snd (StartupProfilerAgent.profile_company w st url) <> []).
Proof.
  intros url Ho Hc. rewrite contains_char in Ho, Hc.
  assert (N : forall w, exists name,
                StartupProfilerAgent._extract_company_name w url = Ok name).
  { intros w. unfold StartupProfilerAgent._extract_company_name.
    destruct (urlparse_ok url Ho Hc) as [r ->].
    cbv beta iota zeta delta [bind].
    destruct (_ <? _)%nat; eexists; reflexivity. }
  split; [| split].
  - unfold SupabaseManager._normalize_url.
    destruct (urlparse_ok (PyStr.lower url)) as [r ->].
    + rewrite (mem_char_lower "[" url
                 (lower_char_bracket "[" (or_introl eq_refl))).
      exact Ho.
    + rewrite (mem_char_lower "]" url
                 (lower_char_bracket "]" (or_intror eq_refl))).
      exact Hc.
    + eexists. reflexivity.
  - exact N.
  - intros w st. destruct (N w) as [name Hname].
    destruct (run_cases w st url)
      as [[e [Hn _]] | [[name' [_ [_ E]]] | [[name' [e [_ [_ [_ E]]]]]
          | [[name' [sd [e [_ [_ [_ [_ E]]]]]]]
          | [[name' [sd [items [e [_ [_ [_ [_ [_ E]]]]]]]]]
          | [name' [sd [items [row [st' [_ [_ [_ [_ [_ E]]]]]]]]]]]]]]];
      try (rewrite E; discriminate).
    rewrite Hname in Hn. discriminate.
Qed.

Lemma urls_without_brackets_have_a_key_witness :
  exists key, SupabaseManager._normalize_url "slack.com/about" = Ok key.
Proof.
  apply (urls_without_brackets_have_a_key "slack.com/about"); reflexivity.
Defined.

(* ================================================================== *)
(** * Properties: what stays in the store                               *)
(* ================================================================== *)

Section Kept.
Import StartupProfilerAgent Assembled.

Lemma hd_error_app {A : Type} (xs ys : list A) (x : A) :
  hd_error xs = Some x -> hd_error (xs ++ ys) = Some x.
Proof. destruct xs; [discriminate | intros H; exact H]. Qed.

(** What the lookups find is still found after one more row. *)
Lemma lookups_kept (st : Store) (row' : Row) (u : string) :
  online st = true ->
  let st' := mkStore (rows st ++ [row']) true in
  (SupabaseManager.check_company_exists st u = true ->
   SupabaseManager.check_company_exists st' u = true) /\
  (forall row,
     SupabaseManager.get_company_profile st u = Some row ->
     SupabaseManager.get_company_profile st' u = Some row).
Proof.
  intros Hon st'.
  destruct (SupabaseManager._normalize_url u) as [key | e] eqn:Hn.
  - destruct (lookups_by_key st u key Hn Hon) as [-> ->].
    destruct (lookups_by_key st' u key Hn eq_refl) as [-> ->].
    cbv zeta. unfold st'. cbn [rows]. rewrite filter_app.
    destruct (filter _ (rows st)) as [| r rest]; split.
    + discriminate.
    + discriminate.
    + reflexivity.
    + intros row H. exact H.
  - destruct (lookups_no_key st u e Hn) as [-> ->].
    split; [discriminate | intros row H; discriminate].
Qed.

(** X25.  A stored profile is never lost.  Whatever a run of
    [profile_company] does, every URL the existence check found before
    the run it finds after it, and every URL for which the lookup
    returned a row gets the same row afterwards. *)
Theorem stored_profiles_are_kept :
  forall (w : World) (st : Store) (url u : string),
    let st' := snd (fst (profile_company w st url)) in
    (SupabaseManager.check_company_exists st u = true ->
     SupabaseManager.check_company_exists st' u = true) /\
    (forall row,
        SupabaseManager.get_company_profile st u = Some row ->
        SupabaseManager.get_company_profile st' u = Some row).
Proof.
  intros w st url u st'. subst st'.
  destruct (run_cases w st url)
    as [[e [_ E]] | [[name [_ [_ E]]] | [[name [e [_ [_ [_ E]]]]]
        | [[name [sd [e [_ [_ [_ [_ E]]]]]]]
        | [[name [sd [items [e [_ [_ [_ [_ [_ E]]]]]]]]]
        | [name [sd [items [row' [st' [_ [_ [_ [_ [Hs E]]]]]]]]]]]]]]];
    rewrite E; cbn [fst snd]; try (split; [tauto | intros row H; exact H]).
  destruct (save_ok w st st' _ _ Hs)
    as [r [key [Hsv [_ [_ [Hon [_ ->]]]]]]].
  exact (lookups_kept st r u Hon).
Qed.

Lemma stored_profiles_are_kept_witness :
  SupabaseManager.get_company_profile
    (snd (fst (profile_company Samples.world
                 (Samples.store_with "https://other.org")
                 "https://example.com")))
    "http://www.other.org/"
  = Some (Samples.profile "https://other.org").
Proof.
  apply (proj2 (stored_profiles_are_kept Samples.world
                  (Samples.store_with "https://other.org")
                  "https://example.com" "http://www.other.org/")).
  vm_compute. reflexivity.
Defined.

(** X26.  A response that could not be decoded is stored all the same.
    When the analysis is the default structure (which is what
    [_parse_response] returns for a response that is not JSON), and the
    other steps succeed, the run returns status "success" and stores a
    row under the key of the URL whose insight columns hold the default
    texts: "Unable to generate summary", "Unknown", "Unknown", two empty
    lists and "Unable to summarize news", next to the scraped title and
    content. *)
Theorem placeholder_insights_are_stored :
  forall (w : World) (st : Store) (url name key : string)
         (sd : ScrapedData),
    let company := str_or name (sd_title sd) in
    let news := NewsFetcher.fetch_company_news w company 5 in
    _extract_company_name w url = Ok name ->
    SupabaseManager.check_company_exists st url = false ->
    WebScraper.scrape_website w url = Ok sd ->
    GeminiAnalyzer.analyze_company w sd news = Ok GeminiAnalyzer.placeholder ->
    SupabaseManager._normalize_url url = Ok key ->
    online st = true ->
    (forall record, accepts w record = true) ->
    exists row,
      fst (profile_company w st url) =
        (success_result (SavedRow row), mkStore (rows st ++ [row]) true) /\
      website_url (columns row) = key /\
      company_summary (columns row) = VStr "Unable to generate summary" /\
      industry_category (columns row) = VStr "Unknown" /\
      target_audience (columns row) = VStr "Unknown" /\
      key_problems_solved (columns row) = VList [] /\
      potential_competitors (columns row) = VList [] /\
      news_summary (columns row) = VStr "Unable to summarize news" /\
      page_title (columns row) = VStr (sd_title sd) /\
      scraped_content (columns row) = VStr (sd_content sd).
Proof.
  intros w st url name key sd company news
    Hname Hcheck Hscrape Hanalyze Hkey Hon Hacc.
  unfold GeminiAnalyzer.placeholder in Hanalyze.
  match type of Hanalyze with
  | _ = Ok (VDict ?d) => set (items := d) in *
  end.
  set (pd := profile_data url name sd news items).
  assert (Hnd : NoDup (map fst items)).
  { unfold items. cbn [map fst].
    repeat constructor; cbn [In]; intuition discriminate. }
  assert (Hpd : SupabaseManager.normalized_key pd = Ok key).
  { unfold SupabaseManager.normalized_key, pd, profile_data.
    rewrite (get_merge_absent _ _ _ (eq_refl : Dict.get items "website_url" = None)).
    cbn [Dict.get String.eqb]. cbn. exact Hkey. }
  destruct (save_succeeds w st pd key Hpd Hon
              (unknown_key_is_fresh st url key Hcheck Hkey Hon) Hacc)
    as [row [Hsave Hrow]].
  exists row.
  split.
  { unfold profile_company, profile_company_body.
    unfold bindM, lift, check_company_exists, get_company_profile, ret,
      scrape_website, fetch_company_news, analyze_company,
      save_company_profile.
    rewrite Hname, Hcheck, Hscrape.
    unfold news, company in Hanalyze. rewrite Hanalyze. cbn [as_mapping].
    change (Dict.merge _ items) with pd.
    rewrite Hsave, Hon. reflexivity. }
  split; [exact Hrow |].
  rewrite Hon in Hsave.
  destruct (save_columns w st _ pd row Hsave)
    as [_ [C2 [_ [C4 [C5 [C6 [C7 [C8 [C9 [_ [_ [_ [_ C14]]]]]]]]]]]]].
  unfold pd, profile_data in C2, C4, C5, C6, C7, C8, C9, C14.
  repeat match goal with
         | H : context [Dict.get_default (Dict.merge _ _) _ _] |- _ =>
             rewrite (get_default_merge _ _ _ _ Hnd) in H;
             unfold Dict.get_default in H;
             cbn [Dict.get String.eqb Ascii.eqb Bool.eqb items] in H
         end.
  repeat split; assumption.
Qed.

Lemma placeholder_insights_are_stored_witness :
  let w := Scenarios.world_answering "Sorry, no profile today." in
  exists row,
    fst (profile_company w Samples.empty_store "https://example.com") =
      (success_result (SavedRow row), mkStore [row] true) /\
    website_url (columns row) = "https://example.com" /\
    company_summary (columns row) = VStr "Unable to generate summary".
Proof.
  intros w.
  pose (sd := match WebScraper.scrape_website w "https://example.com" with
              | Ok sd => sd
              | Raise _ => mkScrapedData "" "" "" [] [] [] "" VNone
              end).
  destruct (placeholder_insights_are_stored w Samples.empty_store
              "https://example.com" "Example" "https://example.com" sd)
    as [row [E [K [S _]]]].
  - vm_compute. reflexivity.
  - vm_compute. reflexivity.
  - vm_compute. reflexivity.
  - vm_compute. reflexivity.
  - vm_compute. reflexivity.
  - reflexivity.
  - reflexivity.
  - exists row. split; [exact E |]. split; [exact K | exact S].
Defined.

End Kept.
